(** * IndexTTS serving gateway: a shallow embedding of [api.py],
      [config_api.py] and the launch scripts ([run_api.py],
      [start_api.py], [check_port.py], [check_models.py]), and the
      properties of its boundary operations.

    The handlers of [api.py] are embedded as computations in a small
    state-and-exception monad over a [World] that holds the module globals
    ([tts_instance], [stats], [config]), the file system seen by the
    process, and the oracles the code consults ([time.time()],
    [uuid.uuid4()], the synthesis engine).

    Conventions of the embedding:
    - a Python [str] is a [string]; each [ascii] stands for one character;
    - a Python [bytes] is a [list byte];
    - a Python [int] is a [Z];
    - a Python [float] (clock readings, durations, sampling parameters) is
      a rational [Q]: the ordered-field reading of the arithmetic the code
      performs on it (subtraction, comparison, decimal rounding);
    - a JSON-able [dict] is an association list in key-insertion order;
    - [logger.*] calls have no effect on any modelled state and are left
      out. *)

From stdpp Require Import base strings list gmap pretty.
From Stdlib Require Import Ascii ZArith QArith Qround Lia Lqa Sorted.

Set Warnings "-register-all".

Open Scope string_scope.
Open Scope Z_scope.
Open Scope list_scope.

(** ** Python string primitives used by the sources *)

Module Py.

(** [s.split(sep)] for a one-character separator. *)
Fixpoint split (sep : ascii) (s : string) : list string :=
  match s with
  | EmptyString => [""]
  | String c s' =>
      if decide (c = sep) then "" :: split sep s'
      else match split sep s' with
           | [] => [String c ""]
           | x :: xs => String c x :: xs
           end
  end.

(** [sep.join(l)]. *)
Fixpoint join (sep : string) (l : list string) : string :=
  match l with
  | [] => ""
  | [x] => x
  | x :: xs => x +:+ sep +:+ join sep xs
  end.

(** [s.startswith(c)] for a one-character prefix. *)
Definition startswith (c : ascii) (s : string) : bool :=
  match s with
  | String c' _ => bool_decide (c' = c)
  | EmptyString => false
  end.

(** [s[i:]]. *)
Fixpoint drop_str (i : nat) (s : string) : string :=
  match i, s with
  | O, _ => s
  | S i', String _ s' => drop_str i' s'
  | S _, EmptyString => ""
  end.

(** [s.endswith(suf)]. *)
Definition endswith (suf s : string) : bool :=
  bool_decide (String.length suf <= String.length s)%nat
  && bool_decide (drop_str (String.length s - String.length suf) s = suf).

(** [s.rfind(c)]: the index of the last occurrence, [None] for -1. *)
Fixpoint rfind (c : ascii) (s : string) : option nat :=
  match s with
  | EmptyString => None
  | String c' s' =>
      match rfind c s' with
      | Some i => Some (S i)
      | None => if decide (c' = c) then Some O else None
      end
  end.

(** [c.lower()] on the ASCII range; other bytes are left as they are. *)
Definition lower_ascii (c : ascii) : ascii :=
  let n := nat_of_ascii c in
  if bool_decide (65 <= n <= 90)%nat then ascii_of_nat (n + 32) else c.

(** [s.lower()]. *)
Fixpoint lower (s : string) : string :=
  match s with
  | EmptyString => ""
  | String c s' => String (lower_ascii c) (lower s')
  end.

(** [c in s]. *)
Fixpoint contains (c : ascii) (s : string) : bool :=
  match s with
  | EmptyString => false
  | String c' s' => bool_decide (c' = c) || contains c s'
  end.

(** [l[-n:]] for a positive [n]: the last [n] elements, the whole list
    when it is shorter. *)
Definition slice_last {A} (n : nat) (l : list A) : list A :=
  drop (length l - n) l.

(** [x < y] on floats. *)
Definition flt (x y : Q) : bool := negb (Qle_bool y x).

(** [c.isprintable()] on the first 256 code points: the visible ASCII
    characters and the space, and the Latin-1 characters from 161 on
    except the soft hyphen. *)
Definition isprintable (c : ascii) : bool :=
  let n := nat_of_ascii c in
  bool_decide (32 <= n <= 126)%nat
  || (bool_decide (161 <= n <= 255)%nat && negb (bool_decide (n = 173)%nat)).

Definition hex_char (d : nat) : ascii :=
  if bool_decide (d < 10)%nat then ascii_of_nat (48 + d) else ascii_of_nat (87 + d).

(** One character of [repr(s)] between the quotes [quote]; the
    backslash is character 92. *)
Definition repr_char (quote c : ascii) : string :=
  let backslash := "092"%char in
  if bool_decide (c = quote) || bool_decide (c = backslash)
  then String backslash (String c "")
  else if bool_decide (c = "009"%char) then String backslash "t"
  else if bool_decide (c = "010"%char) then String backslash "n"
  else if bool_decide (c = "013"%char) then String backslash "r"
  else if isprintable c then String c ""
  else let n := nat_of_ascii c in
       String backslash
         (String "x" (String (hex_char (n / 16)) (String (hex_char (n mod 16)) ""))).

Fixpoint repr_body (quote : ascii) (s : string) : string :=
  match s with
  | EmptyString => ""
  | String c s' => repr_char quote c +:+ repr_body quote s'
  end.

(** [repr(s)]: in single quotes, unless [s] holds a single quote and no
    double quote (character 34); the quote character, the backslash and
    the characters that are not printable are escaped. *)
Definition repr (s : string) : string :=
  let quote := if contains "'" s && negb (contains "034" s)
               then "034"%char else "'"%char in
  String quote (repr_body quote s +:+ String quote "").

(** Truthiness of an [Optional[str]]: [None] and [""] are falsy. *)
Definition truthy (o : option string) : bool :=
  match o with
  | Some s => negb (bool_decide (s = ""))
  | None => false
  end.

(** [round(x)] to the nearest integer, ties to the even neighbour. *)
Definition round_half_even (q : Q) : Z :=
  let f := Qfloor q in
  let r := (q - inject_Z f)%Q in
  match (r ?= 1 # 2)%Q with
  | Lt => f
  | Gt => f + 1
  | Eq => if Z.even f then f else f + 1
  end.

(** [round(x, 2)]. *)
Definition round2 (q : Q) : Q :=
  Qmake (round_half_even (q * 100)) 100.

End Py.

(** ** [pathlib]: pure paths *)

Module Pathlib.

(** A [PurePosixPath]: whether it is anchored at the root, and its
    components. Parsing drops empty and ["."] components and keeps
    [".."] ones, as [pathlib] does. A leading run of slashes anchors
    the path at the root; [pathlib] writes a run of exactly two as the
    root ["//"], which names the same directory and is written ["/"]
    here. *)
Record Path := mkPath { absolute : bool; parts : list string }.

Definition keep_part (seg : string) : bool :=
  negb (bool_decide (seg = "")) && negb (bool_decide (seg = ".")).

(** [Path(s)]. *)
Definition of_str (s : string) : Path :=
  {| absolute := Py.startswith "/" s;
     parts := List.filter keep_part (Py.split "/" s) |}.

(** [p / s]: an absolute right operand replaces the left one. *)
Definition truediv (p : Path) (s : string) : Path :=
  let q := of_str s in
  if absolute q then q
  else {| absolute := absolute p; parts := parts p ++ parts q |}.

(** [str(p)]. *)
Definition str (p : Path) : string :=
  match absolute p, parts p with
  | false, [] => "."
  | false, ps => Py.join "/" ps
  | true, ps => "/" +:+ Py.join "/" ps
  end.

(** [p.name]: the final component, [""] when there is none. *)
Definition name (p : Path) : string := List.last (parts p) "".

(** [p.suffix]: the final component from its last dot on, unless that
    dot is its first or its last character. *)
Definition suffix (p : Path) : string :=
  let n := name p in
  match Py.rfind "." n with
  | Some i =>
      if bool_decide (0 < i)%nat && bool_decide (i < String.length n - 1)%nat
      then Py.drop_str i n else ""
  | None => ""
  end.

End Pathlib.

Abbreviation Path := Pathlib.Path.
Infix "</>" := Pathlib.truediv (at level 40, left associativity).

(** ** [uuid]: version-4 identifiers and their text form *)

Module Uuid.

Definition hex_digit (d : N) : ascii :=
  let d := (d mod 16)%N in
  if (d <? 10)%N then ascii_of_N (48 + d) else ascii_of_N (87 + d).

(** The [width] least significant hexadecimal digits of [n], most
    significant first. *)
Fixpoint hex_fixed (width : nat) (n : N) : string :=
  match width with
  | O => ""
  | S k => hex_fixed k (n / 16) +:+ String (hex_digit n) ""
  end.

(** [str(u)] for the 128-bit value [n]: 8-4-4-4-12 hexadecimal digits. *)
Definition str (n : N) : string :=
  hex_fixed 8 (N.shiftr n 96) +:+ "-" +:+
  hex_fixed 4 (N.shiftr n 80) +:+ "-" +:+
  hex_fixed 4 (N.shiftr n 64) +:+ "-" +:+
  hex_fixed 4 (N.shiftr n 48) +:+ "-" +:+
  hex_fixed 12 n.

End Uuid.

(** ** The file system seen by the process *)

Module Os.

(** A directory entry: a regular file with its change time and bytes,
    or a directory. Symbolic links are not modelled. *)
Inductive node :=
| File (st_ctime : Q) (content : list Byte.byte)
| Dir (st_ctime : Q).

(** The tree, flattened: canonical absolute paths (components from the
    root) to entries. The root itself is always a directory. *)
Abbreviation fsmap := (gmap (list string) node).

(** The [st_ctime] field of an entry's [stat] record. *)
Definition ctime (n : node) : Q :=
  match n with
  | File c _ => c
  | Dir c => c
  end.

Inductive errno := ENOENT | ENOTDIR | EEXIST | EISDIR | ENAMETOOLONG.

Definition lookup_node (fs : fsmap) (p : list string) : option node :=
  match p with
  | [] => Some (Dir 0)
  | _ => fs !! p
  end.

Definition is_dir (fs : fsmap) (p : list string) : bool :=
  match lookup_node fs p with
  | Some (Dir _) => true
  | _ => false
  end.

Definition is_file (fs : fsmap) (p : list string) : bool :=
  match lookup_node fs p with
  | Some (File _ _) => true
  | _ => false
  end.

(** Kernel path walk from the directory [cur]: every component is looked
    up in a directory that must exist; [".."] steps to the parent (the
    root is its own parent), [""] and ["."] stay in place. The result
    is the canonical path of the final component, which itself need not
    exist. *)
Fixpoint walk (fs : fsmap) (cur : list string) (segs : list string)
  : errno + list string :=
  match segs with
  | [] => inr cur
  | seg :: rest =>
      match lookup_node fs cur with
      | Some (Dir _) =>
          if bool_decide (seg = "") || bool_decide (seg = ".") then walk fs cur rest
          else if bool_decide (seg = "..") then walk fs (removelast cur) rest
          else walk fs (cur ++ [seg]) rest
      | Some (File _ _) => inl ENOTDIR
      | None => inl ENOENT
      end
  end.

(** Resolution of a [Path] object against the working directory. *)
Definition resolve (fs : fsmap) (cwd : list string) (p : Path)
  : errno + list string :=
  walk fs (if Pathlib.absolute p then [] else cwd) (Pathlib.parts p).

(** [len(os.fsencode(s))]: in UTF-8 a character below 128 takes one
    byte, each of the other characters of the model two. *)
Fixpoint encoded_length (s : string) : nat :=
  match s with
  | EmptyString => 0
  | String c s' =>
      (if bool_decide (nat_of_ascii c < 128)%nat then 1 else 2) + encoded_length s'
  end.

(** The limits of the system on the bytes of one component and of a
    whole path, its terminating byte included. *)
Definition NAME_MAX : nat := 255.
Definition PATH_MAX : nat := 4096.

(** The walk of [open] with [O_CREAT]: as [walk], and a component
    longer than [NAME_MAX] is refused at the moment it is looked up in
    its directory, the last one included. *)
Fixpoint walk_create (fs : fsmap) (cur : list string) (segs : list string)
  : errno + list string :=
  match segs with
  | [] => inr cur
  | seg :: rest =>
      match lookup_node fs cur with
      | Some (Dir _) =>
          if bool_decide (seg = "") || bool_decide (seg = ".")
          then walk_create fs cur rest
          else if bool_decide (seg = "..") then walk_create fs (removelast cur) rest
          else if bool_decide (NAME_MAX < encoded_length seg)%nat then inl ENAMETOOLONG
          else walk_create fs (cur ++ [seg]) rest
      | Some (File _ _) => inl ENOTDIR
      | None => inl ENOENT
      end
  end.

(** Resolution of the path [open] is to create: a path of [PATH_MAX]
    bytes or more is refused before the walk. *)
Definition resolve_create (fs : fsmap) (cwd : list string) (p : Path)
  : errno + list string :=
  if bool_decide (PATH_MAX <= encoded_length (Pathlib.str p))%nat
  then inl ENAMETOOLONG
  else walk_create fs (if Pathlib.absolute p then [] else cwd) (Pathlib.parts p).

(** Resolution of a raw path string, as the system calls see it. *)
Definition resolve_str (fs : fsmap) (cwd : list string) (s : string)
  : errno + list string :=
  if bool_decide (s = "") then inl ENOENT
  else walk fs (if Py.startswith "/" s then [] else cwd) (Py.split "/" s).

Definition exists_at (fs : fsmap) (r : errno + list string) : bool :=
  match r with
  | inr t => bool_decide (is_Some (lookup_node fs t))
  | inl _ => false
  end.

(** The names of the entries directly inside directory [d] whose name
    satisfies [pat], in directory order. *)
Definition scandir (fs : fsmap) (d : list string) (pat : string -> bool)
  : list string :=
  omap (fun '(p, _) =>
          match List.rev p with
          | n :: pre => if bool_decide (List.rev pre = d) && pat n
                        then Some n else None
          | [] => None
          end) (map_to_list fs).

Definition strerror (e : errno) : string :=
  match e with
  | ENOENT => "No such file or directory"
  | ENOTDIR => "Not a directory"
  | EEXIST => "File exists"
  | EISDIR => "Is a directory"
  | ENAMETOOLONG => "File name too long"
  end.

Definition errno_code (e : errno) : Z :=
  match e with
  | ENOENT => 2
  | ENOTDIR => 20
  | EEXIST => 17
  | EISDIR => 21
  | ENAMETOOLONG => 36
  end.

End Os.

Abbreviation fsmap := Os.fsmap.

(** ** [config_api.py] *)

Module ConfigApi.

(** The environment variables the claims depend on; an integer-valued
    variable is given by the value [int(...)] reads from it. *)
Record Environ := {
  env_MAX_FILE_SIZE : option Z;
  env_AUTO_CLEANUP : option string;
  env_MAX_FILE_AGE : option Z
}.

Definition MAX_FILE_SIZE (env : Environ) : Z :=
  default 50 (env_MAX_FILE_SIZE env) * 1024 * 1024.

Definition ALLOWED_AUDIO_FORMATS : list string :=
  [".wav"; ".mp3"; ".flac"; ".m4a"].

Definition AUTO_CLEANUP (env : Environ) : bool :=
  bool_decide (Py.lower (default "false" (env_AUTO_CLEANUP env)) = "true").

Definition MAX_FILE_AGE (env : Environ) : Z :=
  default 86400 (env_MAX_FILE_AGE env).

(** The entries of the configuration dictionary read by [api.py]. *)
Record Config := {
  max_file_size : Z;
  allowed_audio_formats : list string;
  auto_cleanup : bool;
  max_file_age : Z
}.

Definition get_config (env : Environ) : Config :=
  {| max_file_size := MAX_FILE_SIZE env;
     allowed_audio_formats := ALLOWED_AUDIO_FORMATS;
     auto_cleanup := AUTO_CLEANUP env;
     max_file_age := MAX_FILE_AGE env |}.

End ConfigApi.

(** ** [api.py]: request models, engine interface, globals *)

(** The generation parameters every request carries and hands to the
    engine unchanged. *)
Record GenParams := {
  max_text_tokens_per_sentence : Z;
  do_sample : bool;
  top_p : Q;
  top_k : Z;
  temperature : Q;
  length_penalty : Q;
  num_beams : Z;
  repetition_penalty : Q;
  max_mel_tokens : Z
}.

Module TTSRequest.
Record t := mk {
  text : string;
  audio_prompt_path : option string;
  output_path : option string;
  verbose : bool;
  params : GenParams
}.

Definition set_output_path (r : t) (p : string) : t :=
  {| text := text r; audio_prompt_path := audio_prompt_path r;
     output_path := Some p; verbose := verbose r; params := params r |}.

(** The field constraints of the model: [min_length=1],
    [max_length=10000] on [text]. *)
Definition valid (r : t) : bool :=
  bool_decide (1 <= Z.of_nat (String.length (text r)) <= 10000).
End TTSRequest.

Module FastTTSRequest.
Record t := mk {
  text : string;
  audio_prompt_path : option string;
  output_path : option string;
  verbose : bool;
  sentences_bucket_max_size : Z;
  params : GenParams
}.

Definition set_output_path (r : t) (p : string) : t :=
  {| text := text r; audio_prompt_path := audio_prompt_path r;
     output_path := Some p; verbose := verbose r;
     sentences_bucket_max_size := sentences_bucket_max_size r;
     params := params r |}.

Definition valid (r : t) : bool :=
  bool_decide (1 <= Z.of_nat (String.length (text r)) <= 10000).
End FastTTSRequest.

Module BatchTTSRequest.
Record t := mk { requests : list TTSRequest.t }.

(** [max_items=100], and every item a valid [TTSRequest]. *)
Definition valid (b : t) : bool :=
  bool_decide (length (requests b) <= 100)%nat
  && forallb TTSRequest.valid (requests b).
End BatchTTSRequest.

(** An upload as the handler receives it: the declared file name, the
    declared size attribute, and the bytes [file.read()] returns. *)
Module UploadFile.
Record t := mk {
  filename : string;
  size : option Z;
  body : list Byte.byte
}.
End UploadFile.

(** The synthesis engine, an external collaborator. A call is described
    by what it does to the file system and whether it raises; the
    behaviour may differ from call to call, hence the call counter. *)
Record IndexTTS := {
  device : string;
  infer : nat -> string -> string -> string -> bool -> GenParams ->
          fsmap -> option string * fsmap;
  infer_fast : nat -> string -> string -> string -> bool -> Z -> GenParams ->
               fsmap -> option string * fsmap
}.

(** The [stats] dictionary. *)
Record Stats := {
  total_requests : Z;
  successful_requests : Z;
  failed_requests : Z;
  response_times : list Q;
  start_time : Q
}.

(** Module globals, file system and oracles. *)
Record World := {
  tts_instance : option IndexTTS;
  stats : Stats;
  config : ConfigApi.Config;
  fs : fsmap;
  cwd : list string;
  clock : nat -> Q;
  clock_reads : nat;
  uuid_source : nat -> N;
  uuid_reads : nat;
  engine_calls : nat
}.

Definition set_stats (s : Stats) (w : World) : World :=
  {| tts_instance := tts_instance w; stats := s; config := config w;
     fs := fs w; cwd := cwd w; clock := clock w; clock_reads := clock_reads w;
     uuid_source := uuid_source w; uuid_reads := uuid_reads w;
     engine_calls := engine_calls w |}.

Definition set_fs (f : fsmap) (w : World) : World :=
  {| tts_instance := tts_instance w; stats := stats w; config := config w;
     fs := f; cwd := cwd w; clock := clock w; clock_reads := clock_reads w;
     uuid_source := uuid_source w; uuid_reads := uuid_reads w;
     engine_calls := engine_calls w |}.

Definition tick_clock (w : World) : World :=
  {| tts_instance := tts_instance w; stats := stats w; config := config w;
     fs := fs w; cwd := cwd w; clock := clock w;
     clock_reads := S (clock_reads w);
     uuid_source := uuid_source w; uuid_reads := uuid_reads w;
     engine_calls := engine_calls w |}.

Definition tick_uuid (w : World) : World :=
  {| tts_instance := tts_instance w; stats := stats w; config := config w;
     fs := fs w; cwd := cwd w; clock := clock w; clock_reads := clock_reads w;
     uuid_source := uuid_source w; uuid_reads := S (uuid_reads w);
     engine_calls := engine_calls w |}.

Definition tick_engine (w : World) : World :=
  {| tts_instance := tts_instance w; stats := stats w; config := config w;
     fs := fs w; cwd := cwd w; clock := clock w; clock_reads := clock_reads w;
     uuid_source := uuid_source w; uuid_reads := uuid_reads w;
     engine_calls := S (engine_calls w) |}.

(** ** Exceptions and the handler monad *)

Inductive exn :=
| HTTPException (status_code : Z) (detail : string)
| RequestValidationError
| OSError (e : Os.errno) (filename : string)
| EngineError (msg : string)
| RuntimeError (msg : string)
| ValueError (msg : string).

(** [str(e)]. An [HTTPException] renders as its status code, a colon
    and its detail (Starlette 0.29 and later); an [OSError] as its errno,
    its message and the [repr] of its file name. *)
Definition str_exn (e : exn) : string :=
  match e with
  | HTTPException c d => pretty c +:+ ": " +:+ d
  | RequestValidationError => "validation error"
  | OSError e f =>
      "[Errno " +:+ pretty (Os.errno_code e) +:+ "] " +:+ Os.strerror e
      +:+ ": " +:+ Py.repr f
  | EngineError m => m
  | RuntimeError m => m
  | ValueError m => m
  end.

(** A computation either returns or raises, and in both cases leaves a
    world behind: effects performed before a [raise] are not undone. *)
Definition M (A : Type) : Type := World -> (exn + A) * World.

Definition ret {A} (a : A) : M A := fun w => (inr a, w).

Definition raise {A} (e : exn) : M A := fun w => (inl e, w).

Definition bind {A B} (m : M A) (k : A -> M B) : M B :=
  fun w =>
    match m w with
    | (inr a, w') => k a w'
    | (inl e, w') => (inl e, w')
    end.

(** [try: body  except Exception as e: handler(e)]. *)
Definition try_except {A} (body : M A) (handler : exn -> M A) : M A :=
  fun w =>
    match body w with
    | (inr a, w') => (inr a, w')
    | (inl e, w') => handler e w'
    end.

Declare Scope py_scope.
Delimit Scope py_scope with py.
Notation "x <- m ;; k" := (bind m (fun x => k))
  (at level 100, m at next level, right associativity) : py_scope.
Notation "m ;;; k" := (bind m (fun _ => k))
  (at level 100, right associativity) : py_scope.
Open Scope py_scope.

(** [if c: raise e]. *)
Definition raise_if (c : bool) (e : exn) : M unit :=
  if c then raise e else ret tt.

(** [for x in l: acc = body(x, acc)]. *)
Fixpoint for_each {A S} (l : list A) (body : A -> S -> M S) (acc : S) : M S :=
  match l with
  | [] => ret acc
  | x :: l' => acc' <- body x acc ;; for_each l' body acc'
  end.

(** ** Effects the handlers perform *)

(** [time.time()]: the next reading of the clock. *)
Definition time_time : M Q :=
  fun w => (inr (clock w (clock_reads w)), tick_clock w).

(** [uuid.uuid4()], rendered as text. *)
Definition uuid4 : M string :=
  fun w => (inr (Uuid.str (uuid_source w (uuid_reads w))), tick_uuid w).

(** [p.exists()]. *)
Definition path_exists (p : Path) : M bool :=
  fun w => (inr (Os.exists_at (fs w) (Os.resolve (fs w) (cwd w) p)), w).

(** [os.path.exists(s)]. *)
Definition os_path_exists (s : string) : M bool :=
  fun w => (inr (Os.exists_at (fs w) (Os.resolve_str (fs w) (cwd w) s)), w).

(** [p.mkdir(exist_ok=True)]: creates the directory when its parent
    exists and the name is free; an existing directory is accepted, an
    existing file is not. *)
Definition mkdir_exist_ok (p : Path) : M unit :=
  fun w =>
    match Os.resolve (fs w) (cwd w) p with
    | inl e => (inl (OSError e (Pathlib.str p)), w)
    | inr t =>
        match Os.lookup_node (fs w) t with
        | None =>
            let now := clock w (clock_reads w) in
            (inr tt, set_fs (<[t := Os.Dir now]> (fs w)) (tick_clock w))
        | Some (Os.Dir _) => (inr tt, w)
        | Some (Os.File _ _) => (inl (OSError Os.EEXIST (Pathlib.str p)), w)
        end
    end.

(** [with open(p, "wb") as buffer: buffer.write(content)]: creates or
    truncates the file, then stores the bytes. A path that holds the
    character 0 is refused by [open] itself, with a [ValueError]; one
    that is too long, or has a component that is, by the system. *)
Definition write_bytes (p : Path) (content : list Byte.byte) : M unit :=
  fun w =>
    if Py.contains "000" (Pathlib.str p)
    then (inl (ValueError "embedded null byte"), w)
    else
      match Os.resolve_create (fs w) (cwd w) p with
      | inl e => (inl (OSError e (Pathlib.str p)), w)
      | inr t =>
          match Os.lookup_node (fs w) t with
          | Some (Os.Dir _) => (inl (OSError Os.EISDIR (Pathlib.str p)), w)
          | _ =>
              let now := clock w (clock_reads w) in
              (inr tt, set_fs (<[t := Os.File now content]> (fs w)) (tick_clock w))
          end
      end.

(** [p.unlink()]. *)
Definition unlink (p : Path) : M unit :=
  fun w =>
    match Os.resolve (fs w) (cwd w) p with
    | inl e => (inl (OSError e (Pathlib.str p)), w)
    | inr t =>
        match Os.lookup_node (fs w) t with
        | Some (Os.File _ _) => (inr tt, set_fs (delete t (fs w)) w)
        | Some (Os.Dir _) => (inl (OSError Os.EISDIR (Pathlib.str p)), w)
        | None => (inl (OSError Os.ENOENT (Pathlib.str p)), w)
        end
    end.

(** [p.stat().st_ctime]. *)
Definition stat_st_ctime (p : Path) : M Q :=
  fun w =>
    match Os.resolve (fs w) (cwd w) p with
    | inl e => (inl (OSError e (Pathlib.str p)), w)
    | inr t =>
        match Os.lookup_node (fs w) t with
        | Some n => (inr (Os.ctime n), w)
        | None => (inl (OSError Os.ENOENT (Pathlib.str p)), w)
        end
    end.

(** [p.glob(pattern)] for a one-level pattern, given as the predicate on
    entry names it denotes. The directory is read once, before the first
    path is yielded; something that is not a directory yields nothing. *)
Definition glob (p : Path) (pat : string -> bool) : M (list Path) :=
  fun w =>
    match Os.resolve (fs w) (cwd w) p with
    | inr t =>
        if Os.is_dir (fs w) t
        then (inr (List.map (fun n => p </> n) (Os.scandir (fs w) t pat)), w)
        else (inr [], w)
    | inl _ => (inr [], w)
    end.

(** The pattern ["*.wav"]. *)
Definition pat_wav (n : string) : bool := Py.endswith ".wav" n.

(** The pattern ["*"]. *)
Definition pat_any (n : string) : bool := true.

(** [tts.infer(...)]: the engine works on the file system and may raise. *)
Definition tts_infer (tts : IndexTTS) (audio_prompt text output_path : string)
    (verbose : bool) (p : GenParams) : M unit :=
  fun w =>
    let '(r, fs') :=
      infer tts (engine_calls w) audio_prompt text output_path verbose p (fs w) in
    let w' := set_fs fs' (tick_engine w) in
    match r with
    | Some msg => (inl (EngineError msg), w')
    | None => (inr tt, w')
    end.

(** [tts.infer_fast(...)]. *)
Definition tts_infer_fast (tts : IndexTTS) (audio_prompt text output_path : string)
    (verbose : bool) (bucket : Z) (p : GenParams) : M unit :=
  fun w =>
    let '(r, fs') :=
      infer_fast tts (engine_calls w) audio_prompt text output_path verbose
        bucket p (fs w) in
    let w' := set_fs fs' (tick_engine w) in
    match r with
    | Some msg => (inl (EngineError msg), w')
    | None => (inr tt, w')
    end.

(** ** Response values *)

Inductive value :=
| VBool (b : bool)
| VInt (n : Z)
| VFloat (q : Q)
| VStr (s : string)
| VList (l : list value)
| VDict (d : list (string * value)).

Inductive response :=
| JSONResponse (body : value)
| FileResponse (path : string) (filename : string) (media_type : string).


(** [d.get(key)]. *)
Definition get_key (k : string) (v : value) : option value :=
  match v with
  | VDict d => snd <$> List.find (fun kv => bool_decide (kv.1 = k)) d
  | _ => None
  end.

(** The status line the server answers with: 200 for a returned value,
    the carried status for an [HTTPException], 422 for a request that
    fails model validation, 500 for any other exception. *)
Definition status_of (r : exn + response) : Z :=
  match r with
  | inr _ => 200
  | inl (HTTPException c _) => c
  | inl RequestValidationError => 422
  | inl _ => 500
  end.

(** What a [FileResponse] streams when it is sent: the bytes of the
    regular file its path resolves to. *)
Definition served_bytes (w : World) (r : response) : option (list Byte.byte) :=
  match r with
  | FileResponse path _ _ =>
      match Os.resolve_str (fs w) (cwd w) path with
      | inr t =>
          match Os.lookup_node (fs w) t with
          | Some (Os.File _ c) => Some c
          | _ => None
          end
      | inl _ => None
      end
  | JSONResponse _ => None
  end.

(** ** [api.py]: the statistics collector *)

(** The initial value of the [stats] dictionary, created at [t0]. *)
Definition initial_stats (t0 : Q) : Stats :=
  {| total_requests := 0; successful_requests := 0; failed_requests := 0;
     response_times := []; start_time := t0 |}.

(** [update_stats(success, response_time)], as a function of the
    dictionary. *)
Definition update_stats (success : bool) (response_time : Q) (s : Stats) : Stats :=
  let times := response_times s ++ [response_time] in
  {| total_requests := total_requests s + 1;
     successful_requests :=
       if success then successful_requests s + 1 else successful_requests s;
     failed_requests :=
       if success then failed_requests s else failed_requests s + 1;
     response_times :=
       if bool_decide (1000 < length times)%nat
       then Py.slice_last 1000 times else times;
     start_time := start_time s |}.

(** The call [update_stats(success, response_time)] on the global. *)
Definition update_stats_m (success : bool) (response_time : Q) : M unit :=
  fun w => (inr tt, set_stats (update_stats success response_time (stats w)) w).

(** A sequence of recording operations applied in order. *)
Definition record_all (samples : list (bool * Q)) (s : Stats) : Stats :=
  fold_left (fun st x => update_stats x.1 x.2 st) samples s.

(** ** [api.py]: dependencies and handlers *)

Definition read_config : M ConfigApi.Config :=
  fun w => (inr (config w), w).

(** [get_tts_instance()]. *)
Definition get_tts_instance : M IndexTTS :=
  fun w =>
    match tts_instance w with
    | None => (inl (HTTPException 503 "TTS模型未初始化，请稍后重试"), w)
    | Some tts => (inr tts, w)
    end.

(** [text_to_speech(request, tts)]. No statement after [success = True]
    can raise, so the handler of the [except] clause always reads
    [success] as [False]. *)
Definition text_to_speech (request : TTSRequest.t) (tts : IndexTTS) : M response :=
  start_time <- time_time ;;
  try_except
    (request <-
       (if negb (Py.truthy (TTSRequest.output_path request)) then
          let output_dir := Pathlib.of_str "outputs" in
          mkdir_exist_ok output_dir ;;;
          u <- uuid4 ;;
          ret (TTSRequest.set_output_path request
                 (Pathlib.str (output_dir </> (u +:+ ".wav"))))
        else ret request) ;;
     let audio_prompt := default "" (TTSRequest.audio_prompt_path request) in
     let output_path := default "" (TTSRequest.output_path request) in
     found <- os_path_exists audio_prompt ;;
     raise_if (negb (Py.truthy (TTSRequest.audio_prompt_path request)) || negb found)
       (HTTPException 400 "参考音频文件不存在") ;;;
     tts_infer tts audio_prompt (TTSRequest.text request) output_path
       (TTSRequest.verbose request) (TTSRequest.params request) ;;;
     end_time <- time_time ;;
     update_stats_m true (end_time - start_time) ;;;
     ret (JSONResponse (VDict [
       ("success", VBool true);
       ("output_path", VStr output_path);
       ("inference_time", VFloat (Py.round2 (end_time - start_time)));
       ("text_length", VInt (Z.of_nat (String.length (TTSRequest.text request))));
       ("message", VStr "TTS推理完成")])))
    (fun e =>
       end_time <- time_time ;;
       update_stats_m false (end_time - start_time) ;;;
       raise (HTTPException 500 ("TTS推理失败: " +:+ str_exn e))).

(** [text_to_speech_fast(request, tts)]. *)
Definition text_to_speech_fast (request : FastTTSRequest.t) (tts : IndexTTS)
  : M response :=
  start_time <- time_time ;;
  try_except
    (request <-
       (if negb (Py.truthy (FastTTSRequest.output_path request)) then
          let output_dir := Pathlib.of_str "outputs" in
          mkdir_exist_ok output_dir ;;;
          u <- uuid4 ;;
          ret (FastTTSRequest.set_output_path request
                 (Pathlib.str (output_dir </> (u +:+ ".wav"))))
        else ret request) ;;
     let audio_prompt := default "" (FastTTSRequest.audio_prompt_path request) in
     let output_path := default "" (FastTTSRequest.output_path request) in
     found <- os_path_exists audio_prompt ;;
     raise_if (negb (Py.truthy (FastTTSRequest.audio_prompt_path request)) || negb found)
       (HTTPException 400 "参考音频文件不存在") ;;;
     tts_infer_fast tts audio_prompt (FastTTSRequest.text request) output_path
       (FastTTSRequest.verbose request)
       (FastTTSRequest.sentences_bucket_max_size request)
       (FastTTSRequest.params request) ;;;
     end_time <- time_time ;;
     update_stats_m true (end_time - start_time) ;;;
     ret (JSONResponse (VDict [
       ("success", VBool true);
       ("output_path", VStr output_path);
       ("inference_time", VFloat (Py.round2 (end_time - start_time)));
       ("text_length", VInt (Z.of_nat (String.length (FastTTSRequest.text request))));
       ("message", VStr "快速TTS推理完成")])))
    (fun e =>
       end_time <- time_time ;;
       update_stats_m false (end_time - start_time) ;;;
       raise (HTTPException 500 ("快速TTS推理失败: " +:+ str_exn e))).

(** [upload_audio(file)]. *)
Definition upload_audio (file : UploadFile.t) : M response :=
  start_time <- time_time ;;
  try_except
    (cfg <- read_config ;;
     let file_ext :=
       Py.lower (Pathlib.suffix (Pathlib.of_str (UploadFile.filename file))) in
     raise_if (negb (bool_decide (file_ext ∈ ConfigApi.allowed_audio_formats cfg)))
       (HTTPException 400
          ("不支持的文件格式。支持格式: "
           +:+ Py.join ", " (ConfigApi.allowed_audio_formats cfg))) ;;;
     raise_if
       (match UploadFile.size file with
        | Some sz => negb (bool_decide (sz = 0))
                     && bool_decide (ConfigApi.max_file_size cfg < sz)
        | None => false
        end)
       (HTTPException 400
          ("文件大小超过限制。最大大小: "
           +:+ pretty (ConfigApi.max_file_size cfg `div` (1024 * 1024)) +:+ "MB")) ;;;
     let upload_dir := Pathlib.of_str "uploads" in
     mkdir_exist_ok upload_dir ;;;
     u <- uuid4 ;;
     let file_path := upload_dir </> (u +:+ "_" +:+ UploadFile.filename file) in
     let content := UploadFile.body file in
     write_bytes file_path content ;;;
     end_time <- time_time ;;
     update_stats_m true (end_time - start_time) ;;;
     ret (JSONResponse (VDict [
       ("success", VBool true);
       ("file_path", VStr (Pathlib.str file_path));
       ("filename", VStr (UploadFile.filename file));
       ("file_size", VInt (Z.of_nat (length content)));
       ("message", VStr "音频文件上传成功")])))
    (fun e =>
       end_time <- time_time ;;
       update_stats_m false (end_time - start_time) ;;;
       raise (HTTPException 500 ("文件上传失败: " +:+ str_exn e))).

(** [download_audio(filename)]. *)
Definition download_audio (filename : string) : M response :=
  let file_path := Pathlib.of_str "outputs" </> filename in
  found <- path_exists file_path ;;
  raise_if (negb found) (HTTPException 404 "文件不存在") ;;;
  ret (FileResponse (Pathlib.str file_path) filename "audio/wav").

(** [enumerate(l)]. *)
Definition enumerate {A} (l : list A) : list (nat * A) :=
  zip (seq 0 (length l)) l.

(** The body of the [for] loop of [batch_text_to_speech], for item [i]. *)
Definition batch_item (tts : IndexTTS) (output_dir : Path)
    (it : nat * TTSRequest.t) (results : list value) : M (list value) :=
  let '(i, tts_request) := it in
  tts_request <-
    (if negb (Py.truthy (TTSRequest.output_path tts_request)) then
       u <- uuid4 ;;
       ret (TTSRequest.set_output_path tts_request
              (Pathlib.str (output_dir </> ("batch_" +:+ u +:+ "_" +:+ pretty i +:+ ".wav"))))
     else ret tts_request) ;;
  let audio_prompt := default "" (TTSRequest.audio_prompt_path tts_request) in
  let output_path := default "" (TTSRequest.output_path tts_request) in
  found <- os_path_exists audio_prompt ;;
  if negb (Py.truthy (TTSRequest.audio_prompt_path tts_request)) || negb found then
    ret (results ++ [VDict [
      ("index", VInt (Z.of_nat i));
      ("success", VBool false);
      ("error", VStr "参考音频文件不存在")]])
  else
    try_except
      (item_start_time <- time_time ;;
       tts_infer tts audio_prompt (TTSRequest.text tts_request) output_path
         (TTSRequest.verbose tts_request) (TTSRequest.params tts_request) ;;;
       item_end_time <- time_time ;;
       ret (results ++ [VDict [
         ("index", VInt (Z.of_nat i));
         ("success", VBool true);
         ("output_path", VStr output_path);
         ("inference_time", VFloat (Py.round2 (item_end_time - item_start_time)));
         ("text_length", VInt (Z.of_nat (String.length (TTSRequest.text tts_request))))]]))
      (fun e =>
         ret (results ++ [VDict [
           ("index", VInt (Z.of_nat i));
           ("success", VBool false);
           ("error", VStr (str_exn e))]])).

(** [batch_text_to_speech(request, background_tasks, tts)]. *)
Definition batch_text_to_speech (request : BatchTTSRequest.t) (tts : IndexTTS)
  : M response :=
  start_time <- time_time ;;
  try_except
    (let output_dir := Pathlib.of_str "outputs" in
     mkdir_exist_ok output_dir ;;;
     results <- for_each (enumerate (BatchTTSRequest.requests request))
                  (batch_item tts output_dir) [] ;;
     end_time <- time_time ;;
     update_stats_m true (end_time - start_time) ;;;
     ret (JSONResponse (VDict [
       ("success", VBool true);
       ("total_requests", VInt (Z.of_nat (length (BatchTTSRequest.requests request))));
       ("results", VList results);
       ("message", VStr "批量TTS处理完成")])))
    (fun e =>
       end_time <- time_time ;;
       update_stats_m false (end_time - start_time) ;;;
       raise (HTTPException 500 ("批量TTS处理失败: " +:+ str_exn e))).

(** [delete_audio_file(filename)]. *)
Definition delete_audio_file (filename : string) : M response :=
  try_except
    (let file_path := Pathlib.of_str "outputs" </> filename in
     found <- path_exists file_path ;;
     raise_if (negb found) (HTTPException 404 "文件不存在") ;;;
     unlink file_path ;;;
     ret (JSONResponse (VDict [
       ("success", VBool true);
       ("message", VStr ("文件 " +:+ filename +:+ " 删除成功"))])))
    (fun e => raise (HTTPException 500 ("删除文件失败: " +:+ str_exn e))).

(** The body of both [for] loops of [cleanup_old_files]. *)
Definition cleanup_step (cutoff_time : Q) (file_path : Path)
    (cleaned_files : list string) : M (list string) :=
  ctime <- stat_st_ctime file_path ;;
  if Py.flt ctime cutoff_time then
    unlink file_path ;;;
    ret (cleaned_files ++ [Pathlib.str file_path])
  else ret cleaned_files.

(** [cleanup_old_files()]. *)
Definition cleanup_old_files : M response :=
  try_except
    (cfg <- read_config ;;
     raise_if (negb (ConfigApi.auto_cleanup cfg))
       (HTTPException 400 "自动清理功能未启用") ;;;
     now <- time_time ;;
     let cutoff_time := (now - inject_Z (ConfigApi.max_file_age cfg))%Q in
     let cleaned_files := [] in
     let output_dir := Pathlib.of_str "outputs" in
     found <- path_exists output_dir ;;
     cleaned_files <-
       (if found then
          files <- glob output_dir pat_wav ;;
          for_each files (cleanup_step cutoff_time) cleaned_files
        else ret cleaned_files) ;;
     let upload_dir := Pathlib.of_str "uploads" in
     found <- path_exists upload_dir ;;
     cleaned_files <-
       (if found then
          files <- glob upload_dir pat_any ;;
          for_each files (cleanup_step cutoff_time) cleaned_files
        else ret cleaned_files) ;;
     ret (JSONResponse (VDict [
       ("success", VBool true);
       ("cleaned_files", VList (VStr <$> cleaned_files));
       ("message", VStr ("清理了 " +:+ pretty (length cleaned_files) +:+ " 个旧文件"))])))
    (fun e => raise (HTTPException 500 ("清理旧文件失败: " +:+ str_exn e))).

(** ** The routes: dependency resolution, model validation, handler

    The framework first resolves [Depends(get_tts_instance)]; an
    [HTTPException] raised there is the response and the handler body is
    never entered. The request body is then validated against its model,
    and only then is the handler called. *)

Definition post_tts (request : TTSRequest.t) : M response :=
  tts <- get_tts_instance ;;
  raise_if (negb (TTSRequest.valid request)) RequestValidationError ;;;
  text_to_speech request tts.

Definition post_tts_fast (request : FastTTSRequest.t) : M response :=
  tts <- get_tts_instance ;;
  raise_if (negb (FastTTSRequest.valid request)) RequestValidationError ;;;
  text_to_speech_fast request tts.

Definition post_batch_tts (request : BatchTTSRequest.t) : M response :=
  tts <- get_tts_instance ;;
  raise_if (negb (BatchTTSRequest.valid request)) RequestValidationError ;;;
  batch_text_to_speech request tts.

(** ** Concrete worlds used to exercise the handlers *)

Module Fixture.

Definition params : GenParams :=
  {| max_text_tokens_per_sentence := 120; do_sample := true; top_p := 8 # 10;
     top_k := 30; temperature := 1; length_penalty := 0; num_beams := 3;
     repetition_penalty := 10; max_mel_tokens := 600 |}.

(** An engine that writes nothing and raises on the text ["boom"]. *)
Definition engine : IndexTTS :=
  {| device := "cpu";
     infer := fun _ _ text _ _ _ f =>
                (if bool_decide (text = "boom") then Some "engine failed" else None, f);
     infer_fast := fun _ _ _ _ _ _ _ f => (None, f) |}.

(** Auto-cleanup enabled, artifacts kept for 100 seconds. *)
Definition cfg_cleanup : ConfigApi.Config :=
  ConfigApi.get_config
    {| ConfigApi.env_MAX_FILE_SIZE := Some 1;
       ConfigApi.env_AUTO_CLEANUP := Some "TRUE";
       ConfigApi.env_MAX_FILE_AGE := Some 100 |}.

(** The configuration of an empty environment: auto-cleanup disabled. *)
Definition cfg_default : ConfigApi.Config :=
  ConfigApi.get_config
    {| ConfigApi.env_MAX_FILE_SIZE := None;
       ConfigApi.env_AUTO_CLEANUP := None;
       ConfigApi.env_MAX_FILE_AGE := None |}.

(** The service runs in [/srv]; [secret.txt] lies next to [outputs/]. *)
Definition files : fsmap :=
  list_to_map [
    (["srv"], Os.Dir 0);
    (["srv"; "outputs"], Os.Dir 1);
    (["srv"; "uploads"], Os.Dir 1);
    (["srv"; "uploads"; "ref.wav"], Os.File 50 []);
    (["srv"; "outputs"; "a.wav"], Os.File 100 []);
    (["srv"; "outputs"; "b.wav"], Os.File 99 []);
    (["srv"; "outputs"; "c.txt"], Os.File 1 []);
    (["srv"; "secret.txt"], Os.File 1 [Byte.x68; Byte.x69])].

Definition world (tts : option IndexTTS) (cfg : ConfigApi.Config) : World :=
  {| tts_instance := tts; stats := initial_stats 0; config := cfg;
     fs := files; cwd := ["srv"];
     clock := fun n => inject_Z (200 + Z.of_nat n); clock_reads := 0;
     uuid_source := fun n => N.of_nat n; uuid_reads := 0;
     engine_calls := 0 |}.

(** [MAX_FILE_SIZE=0]: every non-empty upload is above the ceiling. *)
Definition cfg_no_room : ConfigApi.Config :=
  ConfigApi.get_config
    {| ConfigApi.env_MAX_FILE_SIZE := Some 0;
       ConfigApi.env_AUTO_CLEANUP := None;
       ConfigApi.env_MAX_FILE_AGE := None |}.

Definition ready : World := world (Some engine) cfg_cleanup.
Definition no_room : World := world (Some engine) cfg_no_room.
Definition uninitialized : World := world None cfg_default.
Definition cleanup_disabled : World := world (Some engine) cfg_default.

Definition request (text : string) (audio_prompt_path : option string)
  : TTSRequest.t :=
  TTSRequest.mk text audio_prompt_path None false params.

Definition fast_request (text : string) (audio_prompt_path : option string)
  : FastTTSRequest.t :=
  FastTTSRequest.mk text audio_prompt_path None false 4 params.

(** 1001 recordings, the [i]-th with elapsed time [i]. *)
Definition samples_1001 : list (bool * Q) :=
  (fun i => (true, inject_Z (Z.of_nat i))) <$> seq 0 1001.

End Fixture.

(** ** Predicates used in the statements *)

(** A component as [pathlib] keeps it: free of separators and not empty. *)
Definition part_ok (x : string) : Prop :=
  Py.contains "/" x = false /\ x <> "".

(** [m] leaves the collector and the clock function alone, and never
    takes back a clock reading. *)
Definition frames {A} (m : M A) : Prop :=
  forall w, stats (m w).2 = stats w /\ clock (m w).2 = clock w
            /\ (clock_reads w <= clock_reads (m w).2)%nat.

(** The last clock reading taken by a computation that started in [w]
    and left the world [w']: the one before the counter of [w']. *)
Definition last_reading (w w' : World) : Q :=
  clock w (pred (clock_reads w')).

(** [m] either raises without touching the collector, or returns after
    one successful recording of the duration from [start] to its own
    last clock reading. *)
Definition records_on_return {A} (start : Q) (m : M A) : Prop :=
  forall w,
    clock (m w).2 = clock w
    /\ match (m w).1 with
       | inr _ => stats (m w).2
                  = update_stats true (last_reading w (m w).2 - start) (stats w)
                  /\ (clock_reads w < clock_reads (m w).2)%nat
       | inl _ => stats (m w).2 = stats w
                  /\ (clock_reads w <= clock_reads (m w).2)%nat
       end.

(** Whether a computation returned, rather than raised. *)
Definition returned {A} (r : exn + A) : bool :=
  match r with inr _ => true | inl _ => false end.

(** [m] records exactly once: the flag is whether [m] returned, the
    duration runs from the first clock reading of [m] to its last one,
    which is a later reading. *)
Definition records_once {A} (m : M A) : Prop :=
  forall w,
    stats (m w).2
    = update_stats (returned (m w).1)
        (last_reading w (m w).2 - clock w (clock_reads w)) (stats w)
    /\ (S (clock_reads w) < clock_reads (m w).2)%nat.

(** A name under which [open] can create a file: free of the character
    0 and at most [NAME_MAX] bytes long. *)
Definition storable_name (n : string) : bool :=
  negb (Py.contains "000" n)
  && bool_decide (Os.encoded_length n <= Os.NAME_MAX)%nat.

(** A name that starts with a hexadecimal digit. *)
Definition hex_headed (s : string) : Prop :=
  exists c rest, s = String c rest /\ Py.contains c "0123456789abcdef" = true.

(** Whether the size check of [upload_audio] fires: it reads the declared
    size, and only when that is present and not zero. *)
Definition declared_oversize (cfg : ConfigApi.Config) (file : UploadFile.t) : bool :=
  match UploadFile.size file with
  | Some sz => negb (bool_decide (sz = 0))
               && bool_decide (ConfigApi.max_file_size cfg < sz)
  | None => false
  end.

(** The answer to a stored upload. *)
Definition upload_stored (file : UploadFile.t) (w : World)
    (r : (exn + response) * World) : Prop :=
  let name := Uuid.str (uuid_source w (uuid_reads w)) +:+ "_"
              +:+ UploadFile.filename file in
  exists c,
    r.1 = inr (JSONResponse (VDict [
            ("success", VBool true);
            ("file_path", VStr ("uploads/" +:+ name));
            ("filename", VStr (UploadFile.filename file));
            ("file_size", VInt (Z.of_nat (length (UploadFile.body file))));
            ("message", VStr "音频文件上传成功")]))
    /\ fs r.2 !! (cwd w ++ ["uploads"; name])
       = Some (Os.File c (UploadFile.body file)).

(** The answer to an upload rejected by the size check. *)
Definition upload_rejected (w : World) (r : (exn + response) * World) : Prop :=
  (exists d, r.1 = inl (HTTPException 500 d)) /\ fs r.2 = fs w.










(** A directory entry name: not empty, no separator, not a dot name. *)
Definition name_ok (n : string) : bool :=
  negb (Py.contains "/" n) && negb (bool_decide (n = ""))
  && negb (bool_decide (n = ".")) && negb (bool_decide (n = "..")).

(** A well-formed tree: every entry has a proper name and lies in a
    directory. *)
Definition fs_wf (f : fsmap) : bool :=
  forallb (fun '(p, _) =>
             match List.rev p with
             | n :: pre => name_ok n && Os.is_dir f (List.rev pre)
             | [] => true
             end) (map_to_list f).

(** The entries of directory [d] that match [pat] are regular files. *)
Definition holds_files (f : fsmap) (d : list string) (pat : string -> bool) : bool :=
  forallb (fun n => Os.is_file f (d ++ [n])) (Os.scandir f d pat).

(** [st_ctime < cutoff_time]. *)
Definition expired (cutoff : Q) (node : Os.node) : bool :=
  Py.flt (Os.ctime node) cutoff.

(** [f'] is [f] with exactly the entries selected by [R] removed. *)
Definition removed_exactly (f f' : fsmap) (R : list string -> Os.node -> Prop)
  : Prop :=
  forall p, match f !! p with
            | Some node => (R p node /\ f' !! p = None)
                           \/ (~ R p node /\ f' !! p = Some node)
            | None => f' !! p = None
            end.

(** What a path under [outputs/] or [uploads/] is reported as, when
    [cleanup_old_files] considers it at all: every entry of [uploads/],
    and the entries of [outputs/] named [*.wav]. *)
Definition cleanup_target (w : World) (s : string) (p : list string) : Prop :=
  exists n,
    (s = "outputs/" +:+ n /\ p = cwd w ++ ["outputs"; n] /\ pat_wav n = true)
    \/ (s = "uploads/" +:+ n /\ p = cwd w ++ ["uploads"; n]).


(** ** [api.py]: engine lifecycle, statistics report, listing, health *)

Definition set_tts_instance (t : option IndexTTS) (w : World) : World :=
  {| tts_instance := t; stats := stats w; config := config w;
     fs := fs w; cwd := cwd w; clock := clock w; clock_reads := clock_reads w;
     uuid_source := uuid_source w; uuid_reads := uuid_reads w;
     engine_calls := engine_calls w |}.

(** The constructor [IndexTTS] applied to the model configuration:
    building the engine is, like a call of the engine, described by what
    it does to the file system and whether it raises; it may differ from
    call to call. *)
Definition Constructor := nat -> fsmap -> (exn + IndexTTS) * fsmap.

(** [init_tts_model()]. The global is assigned only after the
    constructor has returned; whatever the constructor raises is logged
    and answered [False]. *)
Definition init_tts_model (construct : Constructor) : M bool :=
  fun w =>
    let '(r, fs') := construct (engine_calls w) (fs w) in
    let w' := set_fs fs' (tick_engine w) in
    match r with
    | inr tts => (inr true, set_tts_instance (Some tts) w')
    | inl _ => (inr false, w')
    end.

(** [lifespan(app)], the part before [yield]. *)
Definition lifespan_startup (construct : Constructor) : M unit :=
  init_tts_model construct ;;; ret tt.

(** [lifespan(app)], the part after [yield]. *)
Definition lifespan_shutdown : M unit :=
  fun w =>
    match tts_instance w with
    | Some _ => (inr tt, set_tts_instance None w)
    | None => (inr tt, w)
    end.

(** [init_model()]. *)
Definition init_model (construct : Constructor) : M response :=
  success <- init_tts_model construct ;;
  if success then
    fun w =>
      match tts_instance w with
      | Some tts =>
          (inr (JSONResponse (VDict [
                  ("message", VStr "模型初始化成功");
                  ("device", VStr (device tts))])), w)
      | None =>
          (inl (RuntimeError "'NoneType' object has no attribute 'device'"), w)
      end
  else raise (HTTPException 500 "模型初始化失败").

(** [sum(l)]. *)
Definition py_sum (l : list Q) : Q := fold_left Qplus l 0%Q.

(** [round(x, 3)]. *)
Definition round3 (q : Q) : Q :=
  Qmake (Py.round_half_even (q * 1000)) 1000.

(** Reads of the module globals. *)
Definition read_stats : M Stats := fun w => (inr (stats w), w).

Definition read_tts_instance : M (option IndexTTS) :=
  fun w => (inr (tts_instance w), w).

(** The average [get_stats] reports for a window, before rounding. *)
Definition window_average (times : list Q) : Q :=
  match times with
  | [] => 0%Q
  | _ => (py_sum times / inject_Z (Z.of_nat (length times)))%Q
  end.

(** [get_stats()]. *)
Definition get_stats : M response :=
  st <- read_stats ;;
  let avg_response_time := window_average (response_times st) in
  let output_dir := Pathlib.of_str "outputs" in
  found <- path_exists output_dir ;;
  total_audio_files <-
    (if found then
       files <- glob output_dir pat_wav ;;
       ret (length files)
     else ret 0%nat) ;;
  ret (JSONResponse (VDict [
    ("total_requests", VInt (total_requests st));
    ("successful_requests", VInt (successful_requests st));
    ("failed_requests", VInt (failed_requests st));
    ("average_response_time", VFloat (round3 avg_response_time));
    ("total_audio_files", VInt (Z.of_nat total_audio_files))])).

(** What the handlers take from the platform: the local-time rendering
    of a timestamp by [datetime.fromtimestamp] and [strftime], which
    raises outside the range the platform supports, and the [st_size] the
    file system reports for a directory. *)
Record Platform := {
  strftime_local : Q -> exn + string;
  dir_st_size : Z
}.

(** [stat.st_size]. *)
Definition st_size (pf : Platform) (n : Os.node) : Z :=
  match n with
  | Os.File _ content => Z.of_nat (length content)
  | Os.Dir _ => dir_st_size pf
  end.

(** [p.stat()]. *)
Definition path_stat (p : Path) : M Os.node :=
  fun w =>
    match Os.resolve (fs w) (cwd w) p with
    | inl e => (inl (OSError e (Pathlib.str p)), w)
    | inr t =>
        match Os.lookup_node (fs w) t with
        | Some n => (inr n, w)
        | None => (inl (OSError Os.ENOENT (Pathlib.str p)), w)
        end
    end.

(** [x["created_time"]] of a listing entry. *)
Definition created_time (x : value) : Q :=
  match get_key "created_time" x with
  | Some (VFloat q) => q
  | _ => 0%Q
  end.

(** Insertion of [x] into a list sorted by decreasing key, before the
    first element whose key is not greater. *)
Fixpoint insert_desc (key : value -> Q) (x : value) (l : list value) : list value :=
  match l with
  | [] => [x]
  | y :: l' => if Py.flt (key x) (key y) then y :: insert_desc key x l'
               else x :: y :: l'
  end.

(** [l.sort(key=key, reverse=True)]: a stable sort by decreasing key. *)
Definition sort_desc (key : value -> Q) (l : list value) : list value :=
  foldr (insert_desc key) [] l.

(** The body of the [for] loop of [list_audio_files]. *)
Definition list_entry (pf : Platform) (file_path : Path) (files : list value)
  : M (list value) :=
  stat <- path_stat file_path ;;
  match strftime_local pf (Os.ctime stat) with
  | inl e => raise e
  | inr created_time_str =>
      ret (files ++ [VDict [
        ("filename", VStr (Pathlib.name file_path));
        ("size", VInt (st_size pf stat));
        ("created_time", VFloat (Os.ctime stat));
        ("created_time_str", VStr created_time_str);
        ("download_url", VStr ("/download/" +:+ Pathlib.name file_path))]])
  end.

(** [list_audio_files()]. *)
Definition list_audio_files (pf : Platform) : M response :=
  try_except
    (let output_dir := Pathlib.of_str "outputs" in
     found <- path_exists output_dir ;;
     if negb found then ret (JSONResponse (VDict [("files", VList [])]))
     else
       paths <- glob output_dir pat_wav ;;
       files <- for_each paths (list_entry pf) [] ;;
       ret (JSONResponse (VDict [
         ("files", VList (sort_desc created_time files))])))
    (fun e => raise (HTTPException 500 ("获取文件列表失败: " +:+ str_exn e))).

(** What [import psutil] and [psutil.Process()] give: the module may be
    absent, the process query may raise, or it yields the resident and
    virtual sizes and the memory share of the process. *)
Inductive psutil_state :=
| PsutilMissing
| PsutilRaises (e : exn)
| PsutilMemory (rss vms : Z) (percent : Q).

(** [health_check()]. The [import] statement stands before the [try]
    block, whose [except ImportError] clause therefore never sees a
    missing module; nothing inside the block raises [ImportError]. *)
Definition health_check (ps : psutil_state) : M response :=
  match ps with
  | PsutilMissing => raise (RuntimeError "No module named 'psutil'")
  | PsutilRaises e =>
      now <- time_time ;;
      raise e
  | PsutilMemory rss vms percent =>
      now <- time_time ;;
      st <- read_stats ;;
      let uptime := (now - start_time st)%Q in
      let memory_info :=
        VDict [("rss", VInt rss); ("vms", VInt vms); ("percent", VFloat percent)] in
      tts <- read_tts_instance ;;
      ret (JSONResponse (VDict [
        ("status", VStr "healthy");
        ("model_loaded", VBool (bool_decide (is_Some tts)));
        ("device", VStr (match tts with
                         | Some t => device t
                         | None => "unknown"
                         end));
        ("uptime", VFloat (Py.round2 uptime));
        ("memory_usage", memory_info)]))
  end.

(** Entry [e] of a listing describes the entry named [n] of [outputs/]. *)
Definition listed (pf : Platform) (w : World) (n : string) (e : value) : Prop :=
  exists node s,
    fs w !! (cwd w ++ ["outputs"; n]) = Some node
    /\ strftime_local pf (Os.ctime node) = inr s
    /\ e = VDict [("filename", VStr n);
                  ("size", VInt (st_size pf node));
                  ("created_time", VFloat (Os.ctime node));
                  ("created_time_str", VStr s);
                  ("download_url", VStr ("/download/" +:+ n))].

(** The [files] list of a listing answer. *)
Definition listing_files (r : exn + response) : list value :=
  match r with
  | inr (JSONResponse v) =>
      match get_key "files" v with
      | Some (VList l) => l
      | _ => []
      end
  | _ => []
  end.

(** Newest first. *)
Definition newer_or_equal (a b : value) : Prop :=
  (created_time b <= created_time a)%Q.

(** [m] neither calls the engine nor touches the collector or the
    engine handle. *)
Definition engine_idle {A} (m : M A) : Prop :=
  forall w, engine_calls (m w).2 = engine_calls w
            /\ stats (m w).2 = stats w
            /\ tts_instance (m w).2 = tts_instance w.


(** The outcome of a synthesis request that names the existing reference
    [prompt] and no output path: the engine is called once, on the
    request's text and parameters and on a fresh path under [outputs/];
    the answer and the recording follow what the engine did. *)
Definition synthesis_answer (w : World) (tts : IndexTTS) (request : TTSRequest.t)
    (prompt : string) (r : (exn + response) * World) : Prop :=
  let out := "outputs/" +:+ Uuid.str (uuid_source w (uuid_reads w)) +:+ ".wav" in
  let call := infer tts (engine_calls w) prompt (TTSRequest.text request) out
                (TTSRequest.verbose request) (TTSRequest.params request) (fs w) in
  let elapsed := (clock w (S (clock_reads w)) - clock w (clock_reads w))%Q in
  engine_calls r.2 = S (engine_calls w)
  /\ fs r.2 = call.2
  /\ tts_instance r.2 = tts_instance w
  /\ stats r.2 = update_stats (bool_decide (call.1 = None)) elapsed (stats w)
  /\ r.1 = match call.1 with
           | None =>
               inr (JSONResponse (VDict [
                 ("success", VBool true);
                 ("output_path", VStr out);
                 ("inference_time", VFloat (Py.round2 elapsed));
                 ("text_length",
                  VInt (Z.of_nat (String.length (TTSRequest.text request))));
                 ("message", VStr "TTS推理完成")]))
           | Some msg => inl (HTTPException 500 ("TTS推理失败: " +:+ msg))
           end.

(** A host whose clock rendering is the whole second count, and whose
    directories report 4096 bytes. *)
Module Host.
Definition linux : Platform :=
  {| strftime_local := fun q => inr (pretty (Qfloor q)); dir_st_size := 4096 |}.
End Host.

(** The entry a batch item without a usable reference audio gets. *)
Definition no_reference_entry (i : nat) : value :=
  VDict [("index", VInt (Z.of_nat i));
         ("success", VBool false);
         ("error", VStr "参考音频文件不存在")].



(** ** The launch scripts: free ports, directories, model files *)

(** What [s.bind(('localhost', port))] raises on a fresh socket. The
    host name is resolved first, and [localhost] is taken to resolve;
    the port is then checked, an [OverflowError] when it is not in
    0..65535; only then is the system asked to bind, an [OSError] when
    it refuses the address (in use, not permitted). *)
Inductive bind_error := AddressRefused | PortOutOfRange.

(** The network as the probes see it: the ports whose binding is
    refused. *)
Definition socket_bind (refused : Z -> bool) (port : Z) : bind_error + unit :=
  if bool_decide (0 <= port <= 65535)
  then if refused port then inl AddressRefused else inr tt
  else inl PortOutOfRange.

(** What reading [checkpoints/config.yaml] gives the model-file checks.
    [YamlFails] stands for every exception raised inside their [try]
    block: an unreadable or malformed file, a document that is not a
    mapping (an empty file loads as [None], which has no [get]) and, in
    [start_api.py], which imports it there, a missing [yaml] module. The
    checkpoint names a mapping gives are strings. *)
Inductive yaml_load :=
| YamlFails
| YamlMapping (get : string -> option string).

(** [p.exists()] as a function of the tree. *)
Definition exists_path (f : fsmap) (cwd : list string) (p : Path) : bool :=
  Os.exists_at f (Os.resolve f cwd p).

Module RunApi.

(** The loop of [find_available_port]: [port] is the next element of
    the range, [attempts] the number of elements left. Only [OSError]
    is caught. *)
Fixpoint probe (refused : Z -> bool) (port : Z) (attempts : nat)
  : bind_error + option Z :=
  match attempts with
  | O => inr None
  | S attempts' =>
      match socket_bind refused port with
      | inr _ => inr (Some port)
      | inl AddressRefused => probe refused (port + 1) attempts'
      | inl PortOutOfRange => inl PortOutOfRange
      end
  end.

(** [find_available_port(start_port, max_attempts)] of [run_api.py]:
    [range(start_port, start_port + max_attempts)] has
    [max(0, max_attempts)] elements. *)
Definition find_available_port (refused : Z -> bool) (start_port max_attempts : Z)
  : bind_error + option Z :=
  probe refused start_port (Z.to_nat max_attempts).

(** What [main] ends in: a message and a return, or the server run on
    an address. *)
Inductive launch :=
| ConfigMissing
| NoFreePort
| Serve (host : string) (port : Z) (reload : bool).

(** [main()] of [run_api.py], up to the call of [uvicorn.run]. *)
Definition main (f : fsmap) (cwd : list string) (refused : Z -> bool)
  : bind_error + launch :=
  let config_path := Pathlib.of_str "checkpoints/config.yaml" in
  if negb (Os.exists_at f (Os.resolve f cwd config_path)) then inr ConfigMissing
  else
    match find_available_port refused 8000 10 with
    | inl e => inl e
    | inr None => inr NoFreePort
    | inr (Some port) => inr (Serve "127.0.0.1" port true)
    end.

End RunApi.

Module StartApi.

(** [check_port_available(port)]. *)
Definition check_port_available (refused : Z -> bool) (port : Z) : bind_error + bool :=
  match socket_bind refused port with
  | inr _ => inr true
  | inl AddressRefused => inr false
  | inl PortOutOfRange => inl PortOutOfRange
  end.

Fixpoint probe (refused : Z -> bool) (port : Z) (attempts : nat)
  : bind_error + option Z :=
  match attempts with
  | O => inr None
  | S attempts' =>
      match check_port_available refused port with
      | inl e => inl e
      | inr true => inr (Some port)
      | inr false => probe refused (port + 1) attempts'
      end
  end.

(** [find_available_port(start_port, max_attempts)] of [start_api.py]. *)
Definition find_available_port (refused : Z -> bool) (start_port max_attempts : Z)
  : bind_error + option Z :=
  probe refused start_port (Z.to_nat max_attempts).

(** [create_directories()]. *)
Definition create_directories : M unit :=
  for_each ["outputs"; "uploads"]
    (fun directory _ => mkdir_exist_ok (Pathlib.of_str directory)) tt.

(** [check_model_files()] of [start_api.py]. *)
Definition check_model_files (f : fsmap) (cwd : list string) (yaml : yaml_load)
  : bool :=
  let config_path := Pathlib.of_str "checkpoints/config.yaml" in
  if negb (exists_path f cwd config_path) then false
  else
    let required_files :=
      match yaml with
      | YamlMapping get =>
          let gpt_checkpoint := default "gpt.pth" (get "gpt_checkpoint") in
          let bigvgan_checkpoint :=
            default "bigvgan_generator.pth" (get "bigvgan_checkpoint") in
          let dvae_checkpoint := default "dvae.pth" (get "dvae_checkpoint") in
          ["checkpoints/config.yaml";
           "checkpoints/" +:+ gpt_checkpoint;
           "checkpoints/" +:+ bigvgan_checkpoint;
           "checkpoints/" +:+ dvae_checkpoint;
           "checkpoints/bpe.model"]
      | YamlFails =>
          ["checkpoints/config.yaml";
           "checkpoints/gpt.pth";
           "checkpoints/bigvgan_generator.pth";
           "checkpoints/dvae.pth";
           "checkpoints/bpe.model"]
      end in
    let missing_files :=
      List.filter (fun file_path => negb (exists_path f cwd (Pathlib.of_str file_path)))
        required_files in
    match missing_files with
    | [] => true
    | _ => false
    end.

End StartApi.

Module CheckPort.

(** [check_port(port)] of [check_port.py]. *)
Definition check_port (refused : Z -> bool) (port : Z) : bind_error + bool :=
  match socket_bind refused port with
  | inr _ => inr true
  | inl AddressRefused => inr false
  | inl PortOutOfRange => inl PortOutOfRange
  end.

End CheckPort.

(** Port [p] is the first port from [start] on that accepts a binding. *)
Definition first_free (refused : Z -> bool) (start p : Z) : Prop :=
  start <= p /\ refused p = false /\ forall q, start <= q < p -> refused q = true.

(** ** [config_api.py]: the default generation parameters *)

Module ConfigParams.

(** The environment variables behind the default parameters; a numeric
    variable is given by the number [int(...)] or [float(...)] reads from
    it, [None] when it is not set. *)
Record Environ := {
  env_MAX_TEXT_TOKENS : option Z;
  env_TOP_P : option Q;
  env_TOP_K : option Z;
  env_TEMPERATURE : option Q;
  env_LENGTH_PENALTY : option Q;
  env_NUM_BEAMS : option Z;
  env_REPETITION_PENALTY : option Q;
  env_MAX_MEL_TOKENS : option Z;
  env_FAST_MAX_TEXT_TOKENS : option Z;
  env_SENTENCES_BUCKET_SIZE : option Z
}.

(** [d[k] = v] on a dictionary in insertion order: a key that is present
    keeps its place and takes the new value, a new key goes last. *)
Definition dict_set (k : string) (v : value) (d : list (string * value))
  : list (string * value) :=
  if bool_decide (k ∈ d.*1)
  then (fun kv => if bool_decide (kv.1 = k) then (k, v) else kv) <$> d
  else d ++ [(k, v)].

(** A dictionary display [{k1: v1, ..., **d}]: the items are stored
    from left to right, those of an unpacked dictionary in its order. *)
Definition dict_display (items : list (string * value)) : list (string * value) :=
  fold_left (fun d kv => dict_set kv.1 kv.2 d) items [].

Definition DEFAULT_TTS_PARAMS (env : Environ) : list (string * value) :=
  dict_display [
    ("max_text_tokens_per_sentence", VInt (default 120 (env_MAX_TEXT_TOKENS env)));
    ("do_sample", VBool true);
    ("top_p", VFloat (default (8 # 10)%Q (env_TOP_P env)));
    ("top_k", VInt (default 30 (env_TOP_K env)));
    ("temperature", VFloat (default 1%Q (env_TEMPERATURE env)));
    ("length_penalty", VFloat (default 0%Q (env_LENGTH_PENALTY env)));
    ("num_beams", VInt (default 3 (env_NUM_BEAMS env)));
    ("repetition_penalty", VFloat (default 10%Q (env_REPETITION_PENALTY env)));
    ("max_mel_tokens", VInt (default 600 (env_MAX_MEL_TOKENS env)))].

Definition DEFAULT_FAST_TTS_PARAMS (env : Environ) : list (string * value) :=
  dict_display ([
    ("max_text_tokens_per_sentence",
     VInt (default 100 (env_FAST_MAX_TEXT_TOKENS env)));
    ("sentences_bucket_max_size",
     VInt (default 4 (env_SENTENCES_BUCKET_SIZE env)))]
    ++ DEFAULT_TTS_PARAMS env).

(** The environment with [FAST_MAX_TEXT_TOKENS] set or unset. *)
Definition with_FAST_MAX_TEXT_TOKENS (v : option Z) (env : Environ) : Environ :=
  {| env_MAX_TEXT_TOKENS := env_MAX_TEXT_TOKENS env;
     env_TOP_P := env_TOP_P env;
     env_TOP_K := env_TOP_K env;
     env_TEMPERATURE := env_TEMPERATURE env;
     env_LENGTH_PENALTY := env_LENGTH_PENALTY env;
     env_NUM_BEAMS := env_NUM_BEAMS env;
     env_REPETITION_PENALTY := env_REPETITION_PENALTY env;
     env_MAX_MEL_TOKENS := env_MAX_MEL_TOKENS env;
     env_FAST_MAX_TEXT_TOKENS := v;
     env_SENTENCES_BUCKET_SIZE := env_SENTENCES_BUCKET_SIZE env |}.

End ConfigParams.

(** ** [check_models.py] *)

Module CheckModels.

(** [check_model_files()] of [check_models.py]. The values of
    [model_files] are visited in insertion order; the optional files are
    only reported. *)
Definition check_model_files (f : fsmap) (cwd : list string) (yaml : yaml_load)
  : bool :=
  let checkpoints_dir := Pathlib.of_str "checkpoints" in
  if negb (exists_path f cwd checkpoints_dir) then false
  else
    let config_path := checkpoints_dir </> "config.yaml" in
    if negb (exists_path f cwd config_path) then false
    else
      match yaml with
      | YamlFails => false
      | YamlMapping get =>
          let model_files :=
            [default "gpt.pth" (get "gpt_checkpoint");
             default "bigvgan_generator.pth" (get "bigvgan_checkpoint");
             default "dvae.pth" (get "dvae_checkpoint");
             "bpe.model"] in
          fold_left
            (fun all_files_exist filename =>
               if exists_path f cwd (checkpoints_dir </> filename)
               then all_files_exist else false)
            model_files true
      end.

End CheckModels.


(** The checkpoint names of a configuration are relative paths. *)
Definition relative_names (get : string -> option string) : Prop :=
  forall k v, get k = Some v -> Py.startswith "/" v = false.

(** * Properties *)

(** ** The primitives on concrete inputs *)

Example split_keeps_empty_fields :
  Py.split "/" "a//b/" = ["a"; ""; "b"; ""].
Proof. reflexivity. Qed.

Example lower_is_ascii_lowercase : Py.lower "Voice.WaV" = "voice.wav".
Proof. reflexivity. Qed.

Example round2_ties_to_even :
  Py.round2 (12345 # 1000) = (1234 # 100)%Q
  /\ Py.round2 (12355 # 1000) = (1236 # 100)%Q
  /\ Py.round2 (12356 # 1000) = (1236 # 100)%Q.
Proof. repeat apply conj; vm_compute; reflexivity. Qed.

Example suffix_of_names :
  Pathlib.suffix (Pathlib.of_str "take.1.WAV") = ".WAV"
  /\ Pathlib.suffix (Pathlib.of_str "dir.d/notes") = ""
  /\ Pathlib.suffix (Pathlib.of_str ".hidden") = ""
  /\ Pathlib.suffix (Pathlib.of_str "trailing.") = "".
Proof. repeat apply conj; vm_compute; reflexivity. Qed.

Example truediv_keeps_dotdot_and_yields_to_absolute :
  Pathlib.str (Pathlib.of_str "outputs" </> "./a/../b.wav") = "outputs/a/../b.wav"
  /\ Pathlib.str (Pathlib.of_str "outputs" </> "/etc/passwd") = "/etc/passwd".
Proof. repeat apply conj; vm_compute; reflexivity. Qed.

Example uuid_text_form :
  Uuid.str 0x550e8400e29b41d4a716446655440000%N
  = "550e8400-e29b-41d4-a716-446655440000".
Proof. vm_compute. reflexivity. Qed.

Example walk_resolves_dotdot :
  Os.resolve Fixture.files ["srv"] (Pathlib.of_str "outputs" </> "../uploads/ref.wav")
  = inr ["srv"; "uploads"; "ref.wav"]
  /\ Os.resolve Fixture.files ["srv"] (Pathlib.of_str "missing" </> "../uploads/ref.wav")
     = inl Os.ENOENT
  /\ Os.resolve_str Fixture.files ["srv"] "uploads/ref.wav/" = inl Os.ENOTDIR.
Proof. repeat apply conj; vm_compute; reflexivity. Qed.

Example scandir_lists_children :
  Os.scandir Fixture.files ["srv"; "outputs"] pat_wav ≡ₚ ["a.wav"; "b.wav"].
Proof. vm_compute. apply Permutation_swap. Qed.

Example synthesis_on_the_fixture :
  let r := post_tts (Fixture.request "hello" (Some "uploads/ref.wav")) Fixture.ready in
  r.1 = inr (JSONResponse (VDict [
          ("success", VBool true);
          ("output_path", VStr "outputs/00000000-0000-0000-0000-000000000000.wav");
          ("inference_time", VFloat (100 # 100));
          ("text_length", VInt 5);
          ("message", VStr "TTS推理完成")]))
  /\ total_requests (stats r.2) = 1
  /\ successful_requests (stats r.2) = 1.
Proof. repeat apply conj; vm_compute; reflexivity. Qed.

Example fast_synthesis_without_reference :
  let r := post_tts_fast (Fixture.fast_request "hello" None) Fixture.ready in
  r.1 = inl (HTTPException 500 "快速TTS推理失败: 400: 参考音频文件不存在")
  /\ failed_requests (stats r.2) = 1.
Proof. repeat apply conj; vm_compute; reflexivity. Qed.

(** ** Running the monad step by step *)

Lemma bind_ok {A B} (m : M A) (k : A -> M B) w a w1 :
  m w = (inr a, w1) -> bind m k w = k a w1.
Proof. intros H. unfold bind. rewrite H. reflexivity. Qed.

Lemma bind_err {A B} (m : M A) (k : A -> M B) w e w1 :
  m w = (inl e, w1) -> bind m k w = (inl e, w1).
Proof. intros H. unfold bind. rewrite H. reflexivity. Qed.

Lemma try_ok {A} (m : M A) (h : exn -> M A) w a w1 :
  m w = (inr a, w1) -> try_except m h w = (inr a, w1).
Proof. intros H. unfold try_except. rewrite H. reflexivity. Qed.

Lemma try_err {A} (m : M A) (h : exn -> M A) w e w1 :
  m w = (inl e, w1) -> try_except m h w = h e w1.
Proof. intros H. unfold try_except. rewrite H. reflexivity. Qed.

(** ** Path strings: splitting, joining, resolution *)

Lemma split_not_nil (sep : ascii) (s : string) : Py.split sep s <> [].
Proof. destruct s as [|c s]; simpl; [discriminate|]. repeat case_match; discriminate. Qed.

Lemma split_free (sep : ascii) (s : string) :
  Py.contains sep s = false -> Py.split sep s = [s].
Proof.
  induction s as [|c s IH]; simpl; [reflexivity|].
  intros H. apply orb_false_iff in H as [Hc Hs].
  apply bool_decide_eq_false in Hc.
  destruct (decide (c = sep)); [contradiction|].
  rewrite (IH Hs). reflexivity.
Qed.

Lemma split_parts_free (sep : ascii) (s : string) :
  Forall (fun x => Py.contains sep x = false) (Py.split sep s).
Proof.
  induction s as [|c s IH]; simpl.
  - repeat constructor.
  - destruct (decide (c = sep)) as [->|Hne].
    + constructor; [reflexivity | exact IH].
    + destruct (Py.split sep s) as [|x xs] eqn:E.
      * repeat constructor. simpl. rewrite bool_decide_eq_false_2 by exact Hne. reflexivity.
      * inversion IH; subst. constructor; [|assumption].
        simpl. rewrite bool_decide_eq_false_2 by exact Hne. assumption.
Qed.

Lemma split_app_sep (sep : ascii) (x rest : string) :
  Py.contains sep x = false ->
  Py.split sep (x +:+ String sep rest) = x :: Py.split sep rest.
Proof.
  induction x as [|c x IH]; simpl; intros H.
  - destruct (decide (sep = sep)); [reflexivity | contradiction].
  - apply orb_false_iff in H as [Hc Hx]. apply bool_decide_eq_false in Hc.
    destruct (decide (c = sep)); [contradiction|].
    rewrite (IH Hx). reflexivity.
Qed.

Lemma split_join (l : list string) :
  l <> [] ->
  Forall (fun x => Py.contains "/" x = false) l ->
  Py.split "/" (Py.join "/" l) = l.
Proof.
  induction l as [|x l IH]; [contradiction|]. intros _ Hall.
  inversion Hall as [|? ? Hx Hl]; subst.
  destruct l as [|y l].
  - simpl. apply split_free, Hx.
  - change (Py.join "/" (x :: y :: l)) with (x +:+ "/" +:+ Py.join "/" (y :: l)).
    change ("/" +:+ Py.join "/" (y :: l)) with (String "/" (Py.join "/" (y :: l))).
    rewrite split_app_sep by exact Hx.
    rewrite IH; [reflexivity | discriminate | exact Hl].
Qed.

Lemma of_str_parts_ok (s : string) :
  Forall part_ok (Pathlib.parts (Pathlib.of_str s)).
Proof.
  unfold Pathlib.of_str; simpl.
  apply List.Forall_forall. intros x Hx. apply List.filter_In in Hx as [Hx Hk].
  pose proof (split_parts_free "/" s) as H.
  rewrite List.Forall_forall in H. split; [apply H, Hx|].
  unfold Pathlib.keep_part in Hk. intros ->. discriminate Hk.
Qed.

Lemma truediv_parts_ok (p : Path) (s : string) :
  Forall part_ok (Pathlib.parts p) ->
  Forall part_ok (Pathlib.parts (p </> s)).
Proof.
  intros Hp. unfold Pathlib.truediv.
  destruct (Pathlib.absolute (Pathlib.of_str s)).
  - apply of_str_parts_ok.
  - simpl. apply Forall_app. split; [exact Hp | apply of_str_parts_ok].
Qed.

Lemma str_app_cons (c : ascii) (s t : string) :
  String c s +:+ t = String c (s +:+ t).
Proof. reflexivity. Qed.

Lemma str_app_nil_r (s : string) : s +:+ "" = s.
Proof. induction s as [|c s IH]; [reflexivity|]. rewrite str_app_cons, IH. reflexivity. Qed.

Lemma join_cons (x : string) (l : list string) :
  exists rest, Py.join "/" (x :: l) = x +:+ rest.
Proof.
  destruct l as [|y l]; simpl.
  - exists "". rewrite str_app_nil_r. reflexivity.
  - eexists. reflexivity.
Qed.

Lemma join_head_ok (x : string) (l : list string) :
  part_ok x ->
  Py.join "/" (x :: l) <> "" /\ Py.startswith "/" (Py.join "/" (x :: l)) = false.
Proof.
  intros [Hfree Hne]. destruct (join_cons x l) as [rest ->].
  destruct x as [|c x]; [contradiction|]. rewrite str_app_cons. simpl in *.
  apply orb_false_iff in Hfree as [Hc _]. split; [discriminate|].
  apply bool_decide_eq_false in Hc. apply bool_decide_eq_false_2. exact Hc.
Qed.

Lemma resolve_str_of_path (f : fsmap) (cwd : list string) (p : Path) :
  Forall part_ok (Pathlib.parts p) ->
  Pathlib.absolute p = true \/ Pathlib.parts p <> [] ->
  Os.resolve_str f cwd (Pathlib.str p) = Os.resolve f cwd p.
Proof.
  intros Hok Hne.
  assert (Hfree : Forall (fun x => Py.contains "/" x = false) (Pathlib.parts p)).
  { eapply Forall_impl; [exact Hok|]. intros x [H _]. exact H. }
  unfold Os.resolve_str, Os.resolve, Pathlib.str.
  destruct p as [[|] ps]; cbn [Pathlib.absolute Pathlib.parts] in *.
  - rewrite bool_decide_eq_false_2 by discriminate.
    change (Py.startswith "/" ("/" +:+ Py.join "/" ps)) with true. cbv iota.
    change ("/" +:+ Py.join "/" ps) with (String "/" (Py.join "/" ps)).
    change (Py.split "/" (String "/" (Py.join "/" ps)))
      with ("" :: Py.split "/" (Py.join "/" ps)).
    destruct ps as [|x ps].
    + reflexivity.
    + rewrite split_join by (done || discriminate). reflexivity.
  - destruct Hne as [Hne|Hne]; [discriminate|].
    destruct ps as [|x ps]; [contradiction|].
    inversion Hok as [|? ? Hx _]; subst.
    destruct (join_head_ok x ps Hx) as [Hj Hs].
    rewrite bool_decide_eq_false_2 by exact Hj.
    rewrite Hs. rewrite split_join by (done || discriminate). reflexivity.
Qed.

Lemma outputs_child_shape (filename : string) :
  let p := Pathlib.of_str "outputs" </> filename in
  Forall part_ok (Pathlib.parts p)
  /\ (Pathlib.absolute p = true \/ Pathlib.parts p <> []).
Proof.
  intros p. split.
  - apply truediv_parts_ok, of_str_parts_ok.
  - subst p. unfold Pathlib.truediv.
    destruct (Pathlib.absolute (Pathlib.of_str filename)) eqn:E.
    + left. exact E.
    + right. discriminate.
Qed.

(** ** Identifiers and storage names *)

Lemma contains_app (c : ascii) (a b : string) :
  Py.contains c (a +:+ b) = Py.contains c a || Py.contains c b.
Proof.
  induction a as [|x a IH]; [reflexivity|].
  rewrite str_app_cons. simpl. rewrite IH. apply orb_assoc.
Qed.

Lemma hex_digit_cases (d : N) :
  Py.contains (Uuid.hex_digit d) "0123456789abcdef" = true
  /\ Uuid.hex_digit d <> "/"%char.
Proof.
  unfold Uuid.hex_digit.
  pose proof (N.mod_upper_bound d 16 ltac:(discriminate)) as Hlt.
  set (m := (d mod 16)%N) in *. clearbody m.
  assert (Hm : In m (List.map N.of_nat (seq 0 16))).
  { apply List.in_map_iff. exists (N.to_nat m). split; [lia|].
    apply List.in_seq. lia. }
  simpl in Hm.
  repeat (destruct Hm as [<-|Hm]; [vm_compute; split; [reflexivity | discriminate]|]).
  contradiction.
Qed.

Lemma hex_fixed_free (width : nat) (n : N) :
  Py.contains "/" (Uuid.hex_fixed width n) = false.
Proof.
  revert n. induction width as [|k IH]; intros n; [reflexivity|].
  simpl. rewrite contains_app, IH. simpl.
  destruct (hex_digit_cases n) as [_ H].
  rewrite bool_decide_eq_false_2 by exact H. reflexivity.
Qed.

Lemma hex_fixed_headed (k : nat) (n : N) :
  hex_headed (Uuid.hex_fixed (S k) n).
Proof.
  revert n. induction k as [|k IH]; intros n.
  - exists (Uuid.hex_digit n), "". split; [reflexivity|]. apply hex_digit_cases.
  - destruct (IH (n / 16)%N) as (c & rest & E & Hc).
    change (Uuid.hex_fixed (S (S k)) n)
      with (Uuid.hex_fixed (S k) (n / 16) +:+ String (Uuid.hex_digit n) "").
    rewrite E, str_app_cons. eexists _, _. split; [reflexivity | exact Hc].
Qed.

Lemma hex_headed_app (s t : string) : hex_headed s -> hex_headed (s +:+ t).
Proof.
  intros (c & rest & -> & Hc). rewrite str_app_cons. eexists _, _. split; [reflexivity | exact Hc].
Qed.

Lemma uuid_str_free (n : N) : Py.contains "/" (Uuid.str n) = false.
Proof.
  unfold Uuid.str. rewrite !contains_app, !hex_fixed_free. reflexivity.
Qed.

Lemma uuid_str_headed (n : N) : hex_headed (Uuid.str n).
Proof. unfold Uuid.str. apply hex_headed_app, hex_fixed_headed. Qed.

(** A slash-free name that starts with a hexadecimal digit is a single
    path component, and none of the special ones. *)
Lemma of_str_single (name : string) :
  Py.contains "/" name = false -> hex_headed name ->
  Pathlib.of_str name = Pathlib.mkPath false [name]
  /\ name <> "" /\ name <> "." /\ name <> "..".
Proof.
  intros Hfree (c & rest & -> & Hc).
  assert (Hdot : c <> "."%char).
  { intros ->. vm_compute in Hc. discriminate. }
  assert (Hsl : c <> "/"%char).
  { intros ->. vm_compute in Hc. discriminate. }
  assert (H1 : String c rest <> "") by discriminate.
  assert (H2 : String c rest <> ".") by congruence.
  assert (H3 : String c rest <> "..") by congruence.
  split; [|auto].
  unfold Pathlib.of_str. rewrite split_free by exact Hfree.
  simpl. unfold Pathlib.keep_part.
  rewrite (bool_decide_eq_false_2 _ Hsl).
  rewrite (bool_decide_eq_false_2 _ H1), (bool_decide_eq_false_2 _ H2).
  reflexivity.
Qed.

(** ** Walking into a directory *)

Lemma lookup_node_snoc (f : fsmap) (p : list string) (x : string) :
  Os.lookup_node f (p ++ [x]) = f !! (p ++ [x]).
Proof. destruct p; reflexivity. Qed.

Lemma is_dir_lookup (f : fsmap) (p : list string) :
  Os.is_dir f p = true -> exists c, Os.lookup_node f p = Some (Os.Dir c).
Proof.
  unfold Os.is_dir. destruct (Os.lookup_node f p) as [[|c]|]; try discriminate.
  eauto.
Qed.

Lemma walk_child (f : fsmap) (cur : list string) (seg : string) (rest : list string) :
  Os.is_dir f cur = true -> seg <> "" -> seg <> "." -> seg <> ".." ->
  Os.walk f cur (seg :: rest) = Os.walk f (cur ++ [seg]) rest.
Proof.
  intros Hd H1 H2 H3. apply is_dir_lookup in Hd as [c Hc]. simpl. rewrite Hc.
  rewrite (bool_decide_eq_false_2 _ H1), (bool_decide_eq_false_2 _ H2),
    (bool_decide_eq_false_2 _ H3). reflexivity.
Qed.

(** [mkdir(exist_ok=True)] of a directory [d] of the working directory:
    it succeeds when the working directory exists and [d] is not a
    regular file, and changes nothing but the entry of [d]. *)
Lemma mkdir_child (d : string) (w : World) :
  Pathlib.of_str d = Pathlib.mkPath false [d] ->
  d <> "" -> d <> "." -> d <> ".." ->
  Os.is_dir (fs w) (cwd w) = true ->
  Os.is_file (fs w) (cwd w ++ [d]) = false ->
  exists w1,
    mkdir_exist_ok (Pathlib.of_str d) w = (inr tt, w1)
    /\ Os.is_dir (fs w1) (cwd w ++ [d]) = true
    /\ (forall p, p <> cwd w ++ [d] -> fs w1 !! p = fs w !! p)
    /\ cwd w1 = cwd w /\ config w1 = config w /\ stats w1 = stats w
    /\ clock w1 = clock w /\ uuid_source w1 = uuid_source w
    /\ uuid_reads w1 = uuid_reads w /\ tts_instance w1 = tts_instance w
    /\ engine_calls w1 = engine_calls w.
Proof.
  intros Hp H1 H2 H3 Hcwd Hfile.
  unfold mkdir_exist_ok, Os.resolve. rewrite Hp. cbn [Pathlib.absolute Pathlib.parts].
  rewrite walk_child by assumption. cbn [Os.walk].
  unfold Os.is_file in Hfile.
  destruct (Os.lookup_node (fs w) (cwd w ++ [d])) as [[c b|c]|] eqn:E.
  - discriminate.
  - exists w. unfold Os.is_dir. rewrite E. repeat split; reflexivity.
  - eexists. split; [reflexivity|]. simpl.
    unfold Os.is_dir. rewrite lookup_node_snoc, lookup_insert_eq.
    repeat split; try reflexivity.
    intros p Hne. rewrite lookup_insert_ne by congruence. reflexivity.
Qed.

Lemma is_dir_frame (f1 f : fsmap) (p q : list string) :
  (forall r, r <> q -> f1 !! r = f !! r) -> p <> q ->
  Os.is_dir f1 p = Os.is_dir f p.
Proof.
  intros H Hne. unfold Os.is_dir, Os.lookup_node.
  destruct p; [reflexivity|]. rewrite H by exact Hne. reflexivity.
Qed.

Lemma app_snoc_ne {A} (p : list A) (x y z : A) : p ++ [x; y] <> p ++ [z].
Proof.
  intros H. apply (f_equal length) in H. rewrite !length_app in H. simpl in H. lia.
Qed.

Lemma app_snoc_self_ne {A} (p : list A) (x : A) : p <> p ++ [x].
Proof.
  intros H. apply (f_equal length) in H. rewrite !length_app in H. simpl in H. lia.
Qed.

(** ** The response-time window *)

Lemma slice_last_length {A} (n : nat) (l : list A) :
  length (Py.slice_last n l) = Nat.min n (length l).
Proof. unfold Py.slice_last. rewrite length_drop. lia. Qed.

Lemma slice_last_short {A} (n : nat) (l : list A) :
  (length l <= n)%nat -> Py.slice_last n l = l.
Proof.
  intros H. unfold Py.slice_last.
  replace (length l - n)%nat with 0%nat by lia. reflexivity.
Qed.

Lemma slice_last_app {A} (n : nat) (a b : list A) :
  Py.slice_last n (Py.slice_last n a ++ b) = Py.slice_last n (a ++ b).
Proof.
  unfold Py.slice_last.
  rewrite !length_app, length_drop.
  set (k := (length a - n)%nat).
  assert (Hk : k = length (take k a)) by (rewrite length_take; lia).
  replace (a ++ b) with (take k a ++ (drop k a ++ b))
    by (rewrite (assoc_L (++)), take_drop; reflexivity).
  replace (length a + length b - n)%nat
    with (k + (length a - k + length b - n))%nat by lia.
  rewrite drop_app_add' by exact Hk. reflexivity.
Qed.

Lemma update_stats_window (b : bool) (t : Q) (s : Stats) :
  response_times (update_stats b t s) = Py.slice_last 1000 (response_times s ++ [t]).
Proof.
  unfold update_stats; simpl. case_bool_decide; [reflexivity|].
  symmetry. apply slice_last_short. lia.
Qed.

Lemma record_all_window (samples : list (bool * Q)) (s : Stats) :
  (length (response_times s) <= 1000)%nat ->
  response_times (record_all samples s)
  = Py.slice_last 1000 (response_times s ++ samples.*2).
Proof.
  revert s. induction samples as [|[b t] samples IH]; intros s Hs.
  - simpl. rewrite app_nil_r. symmetry. by apply slice_last_short.
  - unfold record_all in *. simpl. rewrite IH.
    + rewrite update_stats_window, slice_last_app, <- app_assoc. reflexivity.
    + rewrite update_stats_window, slice_last_length. lia.
Qed.

(** C8. Whatever is recorded, in whatever order, the response-time window
    of [stats] never holds more than 1000 samples, after any prefix of
    the recordings; and once 1001 samples have been recorded the window
    holds exactly the last 1000 of them, in recording order, the first
    one having been dropped. *)
Theorem response_window_capacity (t0 : Q) (samples : list (bool * Q)) :
  (forall n : nat,
      (length (response_times (record_all (take n samples) (initial_stats t0)))
       <= 1000)%nat)
  /\ (length samples = 1001%nat ->
      response_times (record_all samples (initial_stats t0)) = drop 1 samples.*2
      /\ length (response_times (record_all samples (initial_stats t0))) = 1000%nat).
Proof.
  split.
  - intros n. rewrite record_all_window by (simpl; lia).
    rewrite slice_last_length. lia.
  - intros Hlen. rewrite record_all_window by (simpl; lia). simpl.
    unfold Py.slice_last. rewrite !length_fmap, Hlen. simpl.
    split; [reflexivity|].
    destruct samples as [|x samples]; simpl in *; [lia|].
    rewrite drop_0, length_fmap. lia.
Qed.

(** The window after the 1001 recordings of the fixture. *)
Lemma response_window_capacity_witness :
  length Fixture.samples_1001 = 1001%nat
  /\ response_times (record_all Fixture.samples_1001 (initial_stats 0))
     = drop 1 Fixture.samples_1001.*2
  /\ length (response_times (record_all Fixture.samples_1001 (initial_stats 0)))
     = 1000%nat.
Proof.
  split; [reflexivity|].
  apply (response_window_capacity 0 Fixture.samples_1001). reflexivity.
Defined.

(** ** Requests while the engine is not initialized *)

(** C2, as stated, fails: a standard-synthesis request issued while
    [tts_instance] is [None] is answered with status 503, but the
    collector does not count it: it is not the case that the request is
    rejected with 503 and that [failed_requests] and [total_requests]
    both grow by one. *)
Lemma uninitialized_request_not_counted :
  let w := Fixture.uninitialized in
  let r := post_tts (Fixture.request "hello" (Some "uploads/ref.wav")) w in
  ~ (status_of r.1 = 503
     /\ failed_requests (stats r.2) = failed_requests (stats w) + 1
     /\ total_requests (stats r.2) = total_requests (stats w) + 1).
Proof. vm_compute. intros (_ & H & _). discriminate H. Qed.

(** C2, amended. While [tts_instance] is [None], every synthesis route
    (standard, fast-path, batch) is answered by the exception raised in
    [get_tts_instance], status 503, before the handler body is entered:
    the world, and with it every counter of [stats], is left exactly as
    it was. *)
Theorem uninitialized_engine_rejects (w : World) :
  tts_instance w = None ->
  let unavailable := HTTPException 503 "TTS模型未初始化，请稍后重试" in
  (forall request, post_tts request w = (inl unavailable, w))
  /\ (forall request, post_tts_fast request w = (inl unavailable, w))
  /\ (forall request, post_batch_tts request w = (inl unavailable, w)).
Proof.
  intros Hnone unavailable.
  unfold post_tts, post_tts_fast, post_batch_tts, bind, get_tts_instance.
  rewrite Hnone. repeat split.
Qed.

(** The three routes on the fixture without an engine; the fast-path
    request is rejected in the same way. *)
Lemma uninitialized_engine_rejects_witness :
  let w := Fixture.uninitialized in
  let unavailable := HTTPException 503 "TTS模型未初始化，请稍后重试" in
  tts_instance w = None
  /\ post_tts (Fixture.request "hello" (Some "uploads/ref.wav")) w = (inl unavailable, w)
  /\ post_tts_fast (Fixture.fast_request "hello" None) w = (inl unavailable, w)
  /\ status_of (post_batch_tts (BatchTTSRequest.mk []) w).1 = 503.
Proof.
  intros w unavailable.
  pose proof (uninitialized_engine_rejects w eq_refl) as (H1 & H2 & H3).
  split; [reflexivity|]. split; [apply H1|]. split; [apply H2|].
  rewrite H3. reflexivity.
Defined.

(** ** Download and delete: where the file name may lead *)



(** What the two handlers answer when [outputs/<filename>] does not
    exist. *)
Lemma delete_audio_file_absent (w : World) (filename : string) :
  Os.exists_at (fs w)
    (Os.resolve (fs w) (cwd w) (Pathlib.of_str "outputs" </> filename)) = false ->
  delete_audio_file filename w
  = (inl (HTTPException 500 "删除文件失败: 404: 文件不存在"), w).
Proof.
  intros H. unfold delete_audio_file.
  match goal with
  | |- try_except ?body _ _ = _ =>
      assert (Hbody : body w = (inl (HTTPException 404 "文件不存在"), w))
  end.
  { rewrite (bind_ok (path_exists _) _ w false w)
      by (unfold path_exists; rewrite H; reflexivity).
    reflexivity. }
  rewrite (try_err _ _ _ _ _ Hbody). reflexivity.
Qed.

Lemma download_audio_absent (w : World) (filename : string) :
  Os.exists_at (fs w)
    (Os.resolve (fs w) (cwd w) (Pathlib.of_str "outputs" </> filename)) = false ->
  download_audio filename w = (inl (HTTPException 404 "文件不存在"), w).
Proof.
  intros H. unfold download_audio.
  rewrite (bind_ok (path_exists _) _ w false w) by (unfold path_exists; rewrite H; reflexivity).
  reflexivity.
Qed.

(** C7, on the code. Deleting a file that is absent from the outputs
    directory is not answered with status 404: the 404 raised inside the
    [try] block is caught by its own [except Exception] clause and
    re-raised with status 500. The same happens on the second delete of a
    file that the first delete removed. [download_audio], which has no
    such clause, answers 404 for the same name. *)
Theorem delete_absent_file_status :
  let w := Fixture.ready in
  let answer := delete_audio_file "missing.wav" w in
  let sibling := download_audio "missing.wav" w in
  let first := delete_audio_file "b.wav" w in
  let second := delete_audio_file "b.wav" first.2 in
  (answer = (inl (HTTPException 500 "删除文件失败: 404: 文件不存在"), w)
   /\ status_of answer.1 = 500)
  /\ sibling = (inl (HTTPException 404 "文件不存在"), w)
  /\ (status_of first.1 = 200
      /\ fs first.2 !! ["srv"; "outputs"; "b.wav"] = None
      /\ second = (inl (HTTPException 500 "删除文件失败: 404: 文件不存在"), first.2)).
Proof.
  intros w answer sibling first second.
  assert (Hanswer : answer
                    = (inl (HTTPException 500 "删除文件失败: 404: 文件不存在"), w))
    by (apply delete_audio_file_absent; vm_compute; reflexivity).
  split; [split; [exact Hanswer | rewrite Hanswer; reflexivity]|].
  split; [apply download_audio_absent; vm_compute; reflexivity|].
  split; [vm_compute; reflexivity|].
  split; [vm_compute; reflexivity|].
  apply delete_audio_file_absent. vm_compute. reflexivity.
Qed.

(** ** Uploads *)

(** What [upload_audio] does with an extension outside the allow-list:
    two clock readings, one failure recorded, status 500, and a file
    system that is not touched. *)
Lemma upload_audio_bad_extension (w : World) (file : UploadFile.t) :
  Py.lower (Pathlib.suffix (Pathlib.of_str (UploadFile.filename file)))
    ∉ ConfigApi.allowed_audio_formats (config w) ->
  upload_audio file w
  = (inl (HTTPException 500
            ("文件上传失败: 400: 不支持的文件格式。支持格式: "
             +:+ Py.join ", " (ConfigApi.allowed_audio_formats (config w)))),
     set_stats
       (update_stats false
          (clock w (S (clock_reads w)) - clock w (clock_reads w)) (stats w))
       (tick_clock (tick_clock w))).
Proof.
  intros Hext. unfold upload_audio.
  rewrite (bind_ok time_time _ w _ _ eq_refl).
  match goal with
  | |- try_except ?body _ _ = _ =>
      assert (Hbody : body (tick_clock w)
                      = (inl (HTTPException 400
                                ("不支持的文件格式。支持格式: "
                                 +:+ Py.join ", "
                                       (ConfigApi.allowed_audio_formats (config w)))),
                         tick_clock w))
  end.
  { rewrite (bind_ok read_config _ _ _ _ eq_refl).
    apply bind_err. cbn [tick_clock config].
    rewrite bool_decide_eq_false_2 by exact Hext. reflexivity. }
  rewrite (try_err _ _ _ _ _ Hbody). reflexivity.
Qed.

(** C6, on the code. An upload named [notes.txt] writes nothing and
    leaves the file system as it was, but it is not answered with status
    400: the 400 raised by the extension check is caught by the handler's
    own [except Exception] clause and re-raised with status 500. *)
Theorem upload_bad_extension_status :
  let w := Fixture.ready in
  let r := upload_audio (UploadFile.mk "notes.txt" None [Byte.x68; Byte.x69]) w in
  r.1 = inl (HTTPException 500
               "文件上传失败: 400: 不支持的文件格式。支持格式: .wav, .mp3, .flac, .m4a")
  /\ status_of r.1 = 500
  /\ fs r.2 = fs w.
Proof.
  intros w r. subst r. rewrite upload_audio_bad_extension.
  - repeat apply conj; reflexivity.
  - vm_compute. intros H. repeat (inversion H as [|? ? ? H']; clear H; rename H' into H).
Qed.

(** ** Who calls [update_stats], and how often *)

Create HintDb frames discriminated.

Ltac frames_prim :=
  intros w; repeat case_match; repeat split; simpl; try reflexivity; lia.

Lemma frames_ret {A} (a : A) : frames (ret a).
Proof. frames_prim. Qed.

Lemma frames_raise {A} (e : exn) : frames (@raise A e).
Proof. frames_prim. Qed.

Lemma frames_bind {A B} (m : M A) (k : A -> M B) :
  frames m -> (forall a, frames (k a)) -> frames (bind m k).
Proof.
  intros Hm Hk w. unfold bind. specialize (Hm w).
  destruct (m w) as [[e|a] w1]; simpl in *; [exact Hm|].
  destruct (Hk a w1) as (H1 & H2 & H3), Hm as (H4 & H5 & H6).
  repeat split; [congruence|congruence|lia].
Qed.

Lemma frames_try_except {A} (m : M A) (h : exn -> M A) :
  frames m -> (forall e, frames (h e)) -> frames (try_except m h).
Proof.
  intros Hm Hh w. unfold try_except. specialize (Hm w).
  destruct (m w) as [[e|a] w1]; simpl in *; [|exact Hm].
  destruct (Hh e w1) as (H1 & H2 & H3), Hm as (H4 & H5 & H6).
  repeat split; [congruence|congruence|lia].
Qed.

Lemma frames_raise_if (c : bool) (e : exn) : frames (raise_if c e).
Proof. destruct c; [apply frames_raise | apply frames_ret]. Qed.

Lemma frames_for_each {A S} (l : list A) (body : A -> S -> M S) (acc : S) :
  (forall x a, frames (body x a)) -> frames (for_each l body acc).
Proof.
  intros Hb. revert acc. induction l as [|x l IH]; intros acc; simpl.
  - apply frames_ret.
  - apply frames_bind; [apply Hb | exact IH].
Qed.

Lemma frames_time_time : frames time_time.
Proof. frames_prim. Qed.

Lemma frames_uuid4 : frames uuid4.
Proof. frames_prim. Qed.

Lemma frames_read_config : frames read_config.
Proof. frames_prim. Qed.

Lemma frames_path_exists p : frames (path_exists p).
Proof. frames_prim. Qed.

Lemma frames_os_path_exists s : frames (os_path_exists s).
Proof. frames_prim. Qed.

Lemma frames_mkdir_exist_ok p : frames (mkdir_exist_ok p).
Proof. unfold mkdir_exist_ok. frames_prim. Qed.

Lemma frames_write_bytes p c : frames (write_bytes p c).
Proof. unfold write_bytes. frames_prim. Qed.

Lemma frames_unlink p : frames (unlink p).
Proof. unfold unlink. frames_prim. Qed.

Lemma frames_tts_infer tts a t o v p : frames (tts_infer tts a t o v p).
Proof. unfold tts_infer. frames_prim. Qed.

Lemma frames_tts_infer_fast tts a t o v b p : frames (tts_infer_fast tts a t o v b p).
Proof. unfold tts_infer_fast. frames_prim. Qed.

#[local] Hint Resolve frames_ret frames_raise frames_raise_if frames_time_time
  frames_uuid4 frames_read_config frames_path_exists frames_os_path_exists
  frames_mkdir_exist_ok frames_write_bytes frames_unlink frames_tts_infer
  frames_tts_infer_fast : frames.

Ltac frames_tac :=
  repeat first
    [ progress intros
    | apply frames_bind
    | apply frames_try_except
    | apply frames_for_each
    | solve [auto with frames]
    | match goal with
      | |- frames (if ?c then _ else _) => destruct c
      | |- frames (let '(_, _) := ?x in _) => destruct x
      end ].

Lemma records_on_return_bind {A B} start (m : M A) (k : A -> M B) :
  frames m -> (forall a, records_on_return start (k a)) ->
  records_on_return start (bind m k).
Proof.
  intros Hm Hk w. unfold bind. destruct (Hm w) as (Hs & Hc & Hn).
  destruct (m w) as [[e|a] w1]; simpl in *; [repeat split; assumption|].
  destruct (Hk a w1) as [Hc1 H1]. split; [congruence|].
  unfold last_reading in *.
  destruct ((k a w1).1).
  - destruct H1 as [H1 H2]. split; [congruence|lia].
  - destruct H1 as [H1 H2]. split; [|lia]. rewrite H1, Hc, Hs. reflexivity.
Qed.

Lemma records_on_return_finish {A} (start : Q) (resp : Q -> A) :
  records_on_return start
    (end_time <- time_time ;;
     update_stats_m true (end_time - start) ;;; ret (resp end_time)).
Proof.
  intros w. split; [reflexivity|]. simpl. split; [reflexivity|lia].
Qed.

Lemma records_once_handler {A} (body : Q -> M A) (msg : string) :
  (forall start, records_on_return start (body start)) ->
  records_once
    (start_time <- time_time ;;
     try_except (body start_time)
       (fun e =>
          end_time <- time_time ;;
          update_stats_m false (end_time - start_time) ;;;
          raise (HTTPException 500 (msg +:+ str_exn e)))).
Proof.
  intros Hb w.
  destruct (Hb (clock w (clock_reads w)) (tick_clock w)) as [Hc Hr].
  cbv [bind try_except time_time update_stats_m raise].
  destruct (body (clock w (clock_reads w)) (tick_clock w)) as [[e|a] w1];
    unfold last_reading in *; simpl in *.
  - destruct Hr as [Hr Hn]. split; [|lia]. rewrite Hr, Hc. reflexivity.
  - destruct Hr as [Hr Hn]. split; [|lia]. rewrite Hr. reflexivity.
Qed.

Lemma text_to_speech_records_once request tts :
  records_once (text_to_speech request tts).
Proof.
  unfold text_to_speech. apply records_once_handler. intros start.
  apply records_on_return_bind; [frames_tac|]. intros rq.
  cbv zeta.
  apply records_on_return_bind; [frames_tac|]. intros found.
  apply records_on_return_bind; [frames_tac|]. intros _.
  apply records_on_return_bind; [frames_tac|]. intros _.
  apply (records_on_return_finish start (fun end_time => JSONResponse _)).
Qed.

Lemma text_to_speech_fast_records_once request tts :
  records_once (text_to_speech_fast request tts).
Proof.
  unfold text_to_speech_fast. apply records_once_handler. intros start.
  apply records_on_return_bind; [frames_tac|]. intros rq.
  cbv zeta.
  apply records_on_return_bind; [frames_tac|]. intros found.
  apply records_on_return_bind; [frames_tac|]. intros _.
  apply records_on_return_bind; [frames_tac|]. intros _.
  apply (records_on_return_finish start (fun end_time => JSONResponse _)).
Qed.

Lemma frames_batch_item tts dir it acc : frames (batch_item tts dir it acc).
Proof. unfold batch_item. destruct it as [i rq]. frames_tac. Qed.

Lemma batch_text_to_speech_records_once request tts :
  records_once (batch_text_to_speech request tts).
Proof.
  unfold batch_text_to_speech. apply records_once_handler. intros start.
  cbv zeta.
  apply records_on_return_bind; [frames_tac|]. intros _.
  apply records_on_return_bind;
    [apply frames_for_each; intros; apply frames_batch_item|]. intros results.
  apply (records_on_return_finish start (fun end_time => JSONResponse _)).
Qed.

Lemma upload_audio_records_once file :
  records_once (upload_audio file).
Proof.
  unfold upload_audio. apply records_once_handler. intros start.
  apply records_on_return_bind; [frames_tac|]. intros cfg.
  cbv zeta.
  apply records_on_return_bind; [frames_tac|]. intros _.
  apply records_on_return_bind; [frames_tac|]. intros _.
  apply records_on_return_bind; [frames_tac|]. intros _.
  apply records_on_return_bind; [frames_tac|]. intros u.
  apply records_on_return_bind; [frames_tac|]. intros _.
  apply (records_on_return_finish start (fun end_time => JSONResponse _)).
Qed.

Lemma update_stats_total b t s :
  total_requests (update_stats b t s) = total_requests s + 1.
Proof. reflexivity. Qed.

(** C5, as stated, fails on its second half: a batch of two items, one
    of which fails, is counted once, not once plus once per item. *)
Lemma batch_items_not_recorded :
  let w := Fixture.ready in
  let b := BatchTTSRequest.mk
             [Fixture.request "hello" (Some "uploads/ref.wav");
              Fixture.request "boom" (Some "uploads/ref.wav")] in
  ~ (total_requests (stats (post_batch_tts b w).2)
     = total_requests (stats w) + 1
       + Z.of_nat (length (BatchTTSRequest.requests b))).
Proof. vm_compute. discriminate. Qed.

(** C5, amended. Once the handler body of a standard, fast-path, upload
    or batch request is entered, [update_stats] is applied to the
    collector exactly once, whatever the outcome: with the flag telling
    whether the handler returned or raised, and with the duration from
    the handler's first clock reading to its last one. A batch is
    recorded once as a whole: [total_requests] grows by exactly one for
    any number of items, which are not recorded individually. *)
Theorem stats_recorded_once (tts : IndexTTS) :
  (forall request, records_once (text_to_speech request tts))
  /\ (forall request, records_once (text_to_speech_fast request tts))
  /\ (forall file, records_once (upload_audio file))
  /\ (forall request,
        records_once (batch_text_to_speech request tts)
        /\ forall w,
             total_requests (stats (batch_text_to_speech request tts w).2)
             = total_requests (stats w) + 1).
Proof.
  split; [intros request; apply text_to_speech_records_once|].
  split; [intros request; apply text_to_speech_fast_records_once|].
  split; [intros file; apply upload_audio_records_once|].
  intros request. split; [apply batch_text_to_speech_records_once|].
  intros w. destruct (batch_text_to_speech_records_once request tts w) as [-> _].
  reflexivity.
Qed.

(** ** Uploads: the size check *)

Lemma encoded_length_app (a b : string) :
  Os.encoded_length (a +:+ b) = (Os.encoded_length a + Os.encoded_length b)%nat.
Proof.
  induction a as [|c a IH]; [reflexivity|].
  rewrite str_app_cons. simpl. rewrite IH. lia.
Qed.

Lemma walk_create_child (f : fsmap) (cur : list string) (seg : string)
    (rest : list string) :
  Os.is_dir f cur = true -> seg <> "" -> seg <> "." -> seg <> ".." ->
  (Os.encoded_length seg <= Os.NAME_MAX)%nat ->
  Os.walk_create f cur (seg :: rest) = Os.walk_create f (cur ++ [seg]) rest.
Proof.
  intros Hd H1 H2 H3 Hfit. apply is_dir_lookup in Hd as [c Hc]. simpl. rewrite Hc.
  rewrite (bool_decide_eq_false_2 _ H1), (bool_decide_eq_false_2 _ H2),
    (bool_decide_eq_false_2 _ H3). simpl.
  rewrite bool_decide_eq_false_2 by lia. reflexivity.
Qed.

(** Where [open] creates a storable name directly under [uploads/]. *)
Lemma resolve_create_upload (f : fsmap) (cwd : list string) (name : string) :
  Pathlib.of_str name = Pathlib.mkPath false [name] ->
  name <> "" -> name <> "." -> name <> ".." ->
  storable_name name = true ->
  Os.is_dir f cwd = true -> Os.is_dir f (cwd ++ ["uploads"]) = true ->
  Py.contains "000" (Pathlib.str (Pathlib.of_str "uploads" </> name)) = false
  /\ Os.resolve_create f cwd (Pathlib.of_str "uploads" </> name)
     = inr (cwd ++ ["uploads"; name]).
Proof.
  intros Hof H1 H2 H3 Hst Hcwd Hup.
  unfold storable_name in Hst. apply andb_true_iff in Hst as [Hnul Hlen].
  apply negb_true_iff in Hnul. apply bool_decide_eq_true in Hlen.
  assert (Hstr : Pathlib.str (Pathlib.of_str "uploads" </> name) = "uploads/" +:+ name).
  { unfold Pathlib.truediv. rewrite Hof. reflexivity. }
  split.
  - rewrite Hstr, contains_app, Hnul. reflexivity.
  - unfold Os.resolve_create. rewrite Hstr, encoded_length_app.
    rewrite bool_decide_eq_false_2
      by (change (Os.encoded_length "uploads/") with 8%nat;
          unfold Os.PATH_MAX, Os.NAME_MAX in *; lia).
    unfold Pathlib.truediv. rewrite Hof. cbn [Pathlib.absolute Pathlib.parts].
    change (Pathlib.parts (Pathlib.of_str "uploads") ++ [name]) with ["uploads"; name].
    change (Pathlib.absolute (Pathlib.of_str "uploads")) with false. cbv iota.
    rewrite walk_create_child
      by (assumption || discriminate || (vm_compute; lia)).
    rewrite walk_create_child by assumption.
    simpl. rewrite <- (assoc_L (++)). reflexivity.
Qed.

(** The body of [upload_audio] past the two checks. *)
Lemma upload_store (w : World) (file : UploadFile.t) (start : Q) :
  let name := Uuid.str (uuid_source w (uuid_reads w)) +:+ "_"
              +:+ UploadFile.filename file in
  let target := cwd w ++ ["uploads"; name] in
  Py.contains "/" (UploadFile.filename file) = false ->
  storable_name name = true ->
  Os.is_dir (fs w) (cwd w) = true ->
  Os.is_file (fs w) (cwd w ++ ["uploads"]) = false ->
  Os.is_dir (fs w) target = false ->
  forall (k : string -> Q -> response),
  exists c e w',
    (let upload_dir := Pathlib.of_str "uploads" in
     mkdir_exist_ok upload_dir ;;;
     u <- uuid4 ;;
     let file_path := upload_dir </> (u +:+ "_" +:+ UploadFile.filename file) in
     let content := UploadFile.body file in
     write_bytes file_path content ;;;
     end_time <- time_time ;;
     update_stats_m true (end_time - start) ;;;
     ret (k u end_time)) w
    = (inr (k (Uuid.str (uuid_source w (uuid_reads w))) e), w')
    /\ fs w' !! target = Some (Os.File c (UploadFile.body file)).
Proof.
  intros name target Hfree Hfit Hcwd Hup Htarget k. cbv zeta.
  destruct (mkdir_child "uploads" w) as (w1 & Hmk & Hd1 & Hfr & Hcwd1 & _ & _ & _ & Hus & Hur & _);
    [reflexivity | discriminate.. | assumption | assumption |].
  rewrite (bind_ok _ _ _ _ _ Hmk).
  rewrite (bind_ok uuid4 _ w1 _ _ eq_refl).
  rewrite Hus, Hur. fold name.
  assert (Hname : Py.contains "/" name = false).
  { unfold name. rewrite !contains_app, uuid_str_free, Hfree. reflexivity. }
  assert (Hhead : hex_headed name).
  { unfold name. apply hex_headed_app, uuid_str_headed. }
  destruct (of_str_single name Hname Hhead) as (Hof & Hn1 & Hn2 & Hn3).
  assert (Hcwd_dir1 : Os.is_dir (fs w1) (cwd w) = true).
  { rewrite (is_dir_frame _ (fs w) _ _ Hfr); [assumption | apply app_snoc_self_ne]. }
  destruct (resolve_create_upload (fs w1) (cwd w) name Hof Hn1 Hn2 Hn3 Hfit
              Hcwd_dir1 Hd1) as [Hnul Hres].
  assert (Hlook : Os.lookup_node (fs w1) target = Os.lookup_node (fs w) target).
  { unfold target. change ["uploads"; name] with (["uploads"] ++ [name]).
    rewrite (assoc_L (++)), !lookup_node_snoc. apply Hfr.
    rewrite <- (assoc_L (++)). apply app_snoc_ne. }
  assert (Hwr : exists c w2,
             write_bytes (Pathlib.of_str "uploads" </> name) (UploadFile.body file)
               (tick_uuid w1) = (inr tt, w2)
             /\ fs w2 !! target = Some (Os.File c (UploadFile.body file))).
  { unfold write_bytes. rewrite Hnul.
    cbn [tick_uuid fs cwd]. rewrite Hcwd1, Hres. fold target. rewrite Hlook.
    unfold Os.is_dir in Htarget.
    destruct (Os.lookup_node (fs w) target) as [[c b|c]|]; try discriminate;
      eexists _, _; (split; [reflexivity|]); cbn [set_fs fs];
      apply lookup_insert_eq. }
  destruct Hwr as (c & w2 & Hwr & Hfile).
  rewrite (bind_ok _ _ _ _ _ Hwr).
  exists c, (clock w2 (clock_reads w2)). eexists. split; [reflexivity|].
  exact Hfile.
Qed.

Lemma upload_audio_cases (w : World) (file : UploadFile.t) :
  let name := Uuid.str (uuid_source w (uuid_reads w)) +:+ "_"
              +:+ UploadFile.filename file in
  Py.lower (Pathlib.suffix (Pathlib.of_str (UploadFile.filename file)))
    ∈ ConfigApi.allowed_audio_formats (config w) ->
  Py.contains "/" (UploadFile.filename file) = false ->
  storable_name name = true ->
  Os.is_dir (fs w) (cwd w) = true ->
  Os.is_file (fs w) (cwd w ++ ["uploads"]) = false ->
  Os.is_dir (fs w) (cwd w ++ ["uploads"; name]) = false ->
  if declared_oversize (config w) file
  then upload_rejected w (upload_audio file w)
  else upload_stored file w (upload_audio file w).
Proof.
  intros name Hext Hfree Hfit Hcwd Hup Htarget.
  unfold upload_audio.
  rewrite (bind_ok time_time _ w _ _ eq_refl).
  set (start := clock w (clock_reads w)).
  set (w0 := tick_clock w).
  destruct (declared_oversize (config w) file) eqn:Hbig.
  - erewrite try_err.
    2:{ rewrite (bind_ok read_config _ w0 _ _ eq_refl).
        erewrite bind_ok.
        2:{ subst w0; cbn [tick_clock config].
            rewrite bool_decide_eq_true_2 by exact Hext. reflexivity. }
        apply bind_err. subst w0; cbn [tick_clock config].
        unfold declared_oversize in Hbig. rewrite Hbig. reflexivity. }
    split; [eexists; reflexivity | reflexivity].
  - destruct (upload_store w0 file start Hfree Hfit Hcwd Hup Htarget
                (fun u end_time => JSONResponse (VDict [
                   ("success", VBool true);
                   ("file_path",
                    VStr (Pathlib.str (Pathlib.of_str "uploads"
                                       </> (u +:+ "_" +:+ UploadFile.filename file))));
                   ("filename", VStr (UploadFile.filename file));
                   ("file_size", VInt (Z.of_nat (length (UploadFile.body file))));
                   ("message", VStr "音频文件上传成功")])))
      as (c & e & w' & Hrun & Hfile).
    erewrite try_ok.
    2:{ rewrite (bind_ok read_config _ w0 _ _ eq_refl).
        erewrite bind_ok.
        2:{ subst w0; cbn [tick_clock config].
            rewrite bool_decide_eq_true_2 by exact Hext. reflexivity. }
        erewrite bind_ok.
        2:{ subst w0; cbn [tick_clock config].
            unfold declared_oversize in Hbig. rewrite Hbig. reflexivity. }
        exact Hrun. }
    exists c. split; [|exact Hfile].
    cbn [fst]. do 4 f_equal.
    assert (Hname : Py.contains "/" name = false).
    { unfold name. rewrite !contains_app, uuid_str_free, Hfree. reflexivity. }
    assert (Hhead : hex_headed name).
    { unfold name. apply hex_headed_app, uuid_str_headed. }
    destruct (of_str_single name Hname Hhead) as (Hof & _).
    subst w0. cbn [tick_clock uuid_source uuid_reads]. fold name.
    unfold Pathlib.truediv. rewrite Hof. reflexivity.
Qed.

(** C10. Take an upload with an allowed extension and a plain file name,
    in a world where [uploads/] can be created or exists and the storage
    name [<uuid>_<filename>] is free and one the system accepts (no
    character 0, at most 255 bytes). If its declared size is absent or
    0, no size check takes place: the whole body is written under
    [uploads/<uuid>_<filename>] and [file_size] is the length of the
    written body, whatever that length is. The check reads the declared
    size only: a declared size within the ceiling lets any body through,
    and a declared non-zero size above the ceiling rejects the upload,
    writing nothing, whatever the body. *)
Theorem upload_size_check_declared (w : World) (file : UploadFile.t) :
  let name := Uuid.str (uuid_source w (uuid_reads w)) +:+ "_"
              +:+ UploadFile.filename file in
  Py.lower (Pathlib.suffix (Pathlib.of_str (UploadFile.filename file)))
    ∈ ConfigApi.allowed_audio_formats (config w) ->
  Py.contains "/" (UploadFile.filename file) = false ->
  storable_name name = true ->
  Os.is_dir (fs w) (cwd w) = true ->
  Os.is_file (fs w) (cwd w ++ ["uploads"]) = false ->
  Os.is_dir (fs w) (cwd w ++ ["uploads"; name]) = false ->
  (UploadFile.size file = None \/ UploadFile.size file = Some 0 ->
   upload_stored file w (upload_audio file w))
  /\ (forall sz, UploadFile.size file = Some sz ->
                 sz <= ConfigApi.max_file_size (config w) ->
                 upload_stored file w (upload_audio file w))
  /\ (forall sz, UploadFile.size file = Some sz ->
                 sz <> 0 -> ConfigApi.max_file_size (config w) < sz ->
                 upload_rejected w (upload_audio file w)).
Proof.
  intros name Hext Hfree Hfit Hcwd Hup Htarget.
  pose proof (upload_audio_cases w file Hext Hfree Hfit Hcwd Hup Htarget) as H.
  unfold declared_oversize in H.
  split; [|split].
  - intros [E|E]; rewrite E in H; exact H.
  - intros sz E Hle. rewrite E in H.
    rewrite (bool_decide_eq_false_2 (ConfigApi.max_file_size (config w) < sz)) in H
      by lia.
    rewrite andb_false_r in H. exact H.
  - intros sz E Hnz Hgt. rewrite E in H.
    rewrite (bool_decide_eq_false_2 (sz = 0)) in H by exact Hnz.
    rewrite (bool_decide_eq_true_2 (ConfigApi.max_file_size (config w) < sz)) in H
      by exact Hgt.
    exact H.
Qed.

(** With a ceiling of 0 bytes: an upload of two bytes that declares no
    size is stored, an empty upload that declares 5 bytes is rejected. *)
Lemma upload_size_check_declared_witness :
  let w := Fixture.no_room in
  let unsized := UploadFile.mk "voice.WAV" None [Byte.x68; Byte.x69] in
  let oversized := UploadFile.mk "voice.WAV" (Some 5) [] in
  ConfigApi.max_file_size (config w) = 0
  /\ upload_stored unsized w (upload_audio unsized w)
  /\ upload_rejected w (upload_audio oversized w).
Proof.
  intros w unsized oversized. split; [reflexivity|]. split.
  - refine (proj1 (upload_size_check_declared w unsized _ _ _ _ _ _) _).
    + vm_compute. constructor.
    + reflexivity.
    + vm_compute. reflexivity.
    + reflexivity.
    + reflexivity.
    + vm_compute. reflexivity.
    + left. reflexivity.
  - refine (proj2 (proj2 (upload_size_check_declared w oversized _ _ _ _ _ _)) 5 _ _ _).
    + vm_compute. constructor.
    + reflexivity.
    + vm_compute. reflexivity.
    + reflexivity.
    + reflexivity.
    + vm_compute. reflexivity.
    + reflexivity.
    + discriminate.
    + vm_compute. reflexivity.
Defined.

(** ** Batches *)










(** ** Age-based cleanup *)

Lemma fs_wf_entry (f : fsmap) (p : list string) (n : string) (node : Os.node) :
  fs_wf f = true -> f !! (p ++ [n]) = Some node ->
  name_ok n = true /\ Os.is_dir f p = true.
Proof.
  intros Hwf Hl. unfold fs_wf in Hwf. rewrite forallb_forall in Hwf.
  specialize (Hwf (p ++ [n], node)). cbn beta iota in Hwf.
  rewrite rev_app_distr in Hwf. simpl in Hwf. rewrite rev_involutive in Hwf.
  apply andb_true_iff. apply Hwf.
  apply list_elem_of_In, elem_of_map_to_list, Hl.
Qed.

Lemma name_ok_spec (n : string) :
  name_ok n = true ->
  Py.contains "/" n = false /\ n <> "" /\ n <> "." /\ n <> "..".
Proof.
  unfold name_ok. rewrite !andb_true_iff, !negb_true_iff.
  intros [[[H1 H2] H3] H4]. apply bool_decide_eq_false in H2, H3, H4. auto.
Qed.

Lemma of_str_name (n : string) :
  name_ok n = true -> Pathlib.of_str n = Pathlib.mkPath false [n].
Proof.
  intros H. apply name_ok_spec in H as (Hfree & H1 & H2 & _).
  unfold Pathlib.of_str. rewrite split_free by exact Hfree.
  simpl. unfold Pathlib.keep_part.
  rewrite (bool_decide_eq_false_2 _ H1), (bool_decide_eq_false_2 _ H2). simpl.
  destruct n as [|c n]; [contradiction|]. simpl in *.
  apply orb_false_iff in Hfree as [Hc _]. rewrite Hc. reflexivity.
Qed.

Lemma scandir_elem (f : fsmap) (d : list string) (pat : string -> bool) (n : string) :
  n ∈ Os.scandir f d pat <-> is_Some (f !! (d ++ [n])) /\ pat n = true.
Proof.
  unfold Os.scandir. rewrite list_elem_of_omap. split.
  - intros ([p node] & Hin & Hf).
    apply elem_of_map_to_list in Hin.
    destruct (List.rev p) as [|m pre] eqn:E; [discriminate|].
    destruct (bool_decide (List.rev pre = d)) eqn:Hd; [|discriminate].
    destruct (pat m) eqn:Hp; [|discriminate].
    simpl in Hf. injection Hf as ->.
    apply bool_decide_eq_true in Hd.
    assert (p = d ++ [n]) as ->.
    { rewrite <- (rev_involutive p), E. simpl. rewrite Hd. reflexivity. }
    split; [eauto | exact Hp].
  - intros [[node Hl] Hp]. exists (d ++ [n], node). split.
    + apply elem_of_map_to_list, Hl.
    + rewrite rev_app_distr. simpl. rewrite rev_involutive.
      rewrite bool_decide_eq_true_2 by reflexivity. rewrite Hp. reflexivity.
Qed.

Lemma NoDup_omap_inj {A B} (g : A -> option B) (l : list A) :
  (forall x y z, x ∈ l -> y ∈ l -> g x = Some z -> g y = Some z -> x = y) ->
  NoDup l -> NoDup (omap g l).
Proof.
  intros Hinj Hnd. induction Hnd as [|x l Hx Hnd IH]; simpl; [constructor|].
  assert (IH' : NoDup (omap g l)).
  { apply IH. intros a b z Ha Hb. apply Hinj; right; assumption. }
  destruct (g x) as [z|] eqn:E; [|exact IH'].
  constructor; [|exact IH'].
  intros Hz. apply list_elem_of_omap in Hz as (y & Hy & Hgy).
  assert (x = y) by (eapply Hinj; [left | right; exact Hy | exact E | exact Hgy]).
  subst y. contradiction.
Qed.

Lemma scandir_NoDup (f : fsmap) (d : list string) (pat : string -> bool) :
  NoDup (Os.scandir f d pat).
Proof.
  unfold Os.scandir. apply NoDup_omap_inj; [|apply NoDup_map_to_list].
  intros [p1 n1] [p2 n2] z H1 H2 E1 E2.
  apply elem_of_map_to_list in H1, H2.
  assert (Hkey : forall p, (match List.rev p with
                            | n :: pre => if bool_decide (List.rev pre = d) && pat n
                                          then Some n else None
                            | [] => None end) = Some z -> p = d ++ [z]).
  { intros p Hp. destruct (List.rev p) as [|m pre] eqn:E; [discriminate|].
    destruct (bool_decide (List.rev pre = d)) eqn:Hd; [|discriminate].
    destruct (pat m); [|discriminate]. simpl in Hp. injection Hp as ->.
    apply bool_decide_eq_true in Hd.
    rewrite <- (rev_involutive p), E. simpl. rewrite Hd. reflexivity. }
  apply Hkey in E1, E2. subst p1 p2. f_equal. congruence.
Qed.

Lemma holds_files_entry (f : fsmap) (d : list string) (pat : string -> bool)
    (n : string) (node : Os.node) :
  holds_files f d pat = true -> f !! (d ++ [n]) = Some node -> pat n = true ->
  exists c b, node = Os.File c b.
Proof.
  intros H Hl Hp. unfold holds_files in H. rewrite forallb_forall in H.
  specialize (H n). unfold Os.is_file in H. rewrite lookup_node_snoc, Hl in H.
  destruct node as [c b|c]; [eauto|].
  discriminate H. apply list_elem_of_In, scandir_elem. eauto.
Qed.

Lemma resolve_child (f : fsmap) (cwd : list string) (d n : string) :
  name_ok d = true -> name_ok n = true ->
  Os.is_dir f cwd = true -> Os.is_dir f (cwd ++ [d]) = true ->
  Os.resolve f cwd (Pathlib.of_str d </> n) = inr (cwd ++ [d; n])
  /\ Pathlib.str (Pathlib.of_str d </> n) = d +:+ "/" +:+ n.
Proof.
  intros Hd Hn Hcwd Hdir.
  unfold Pathlib.truediv. rewrite (of_str_name d Hd), (of_str_name n Hn).
  cbn [Pathlib.absolute Pathlib.parts]. split; [|reflexivity].
  apply name_ok_spec in Hd as (_ & Hd1 & Hd2 & Hd3).
  apply name_ok_spec in Hn as (_ & Hn1 & Hn2 & Hn3).
  unfold Os.resolve. cbn [Pathlib.absolute Pathlib.parts app].
  rewrite walk_child by assumption. rewrite walk_child by assumption.
  simpl. rewrite <- (assoc_L (++)). reflexivity.
Qed.

Lemma is_dir_delete_file (f : fsmap) (t q : list string) c b :
  f !! t = Some (Os.File c b) ->
  Os.is_dir (delete t f) q = Os.is_dir f q.
Proof.
  intros Ht. unfold Os.is_dir, Os.lookup_node. destruct q as [|x q]; [reflexivity|].
  destruct (decide (t = x :: q)) as [->|Hne].
  - rewrite lookup_delete_eq, Ht. reflexivity.
  - rewrite lookup_delete_ne by exact Hne. reflexivity.
Qed.

Lemma child_inj {A} (l : list A) (x y z : A) : l ++ [x; y] = l ++ [x; z] -> y = z.
Proof. intros H. apply app_inv_head in H. congruence. Qed.

Lemma cleanup_loop (d : string) (cutoff : Q) (ns : list string) :
  forall (acc : list string) (w : World),
    name_ok d = true ->
    Os.is_dir (fs w) (cwd w) = true ->
    Os.is_dir (fs w) (cwd w ++ [d]) = true ->
    NoDup ns ->
    (forall n, n ∈ ns ->
               name_ok n = true
               /\ exists c b, fs w !! (cwd w ++ [d; n]) = Some (Os.File c b)) ->
    exists cleaned w',
      for_each (List.map (fun n => Pathlib.of_str d </> n) ns) (cleanup_step cutoff) acc w
      = (inr (acc ++ cleaned), w')
      /\ w' = set_fs (fs w') w
      /\ removed_exactly (fs w) (fs w')
           (fun p node => exists n, n ∈ ns /\ p = cwd w ++ [d; n]
                                    /\ expired cutoff node = true)
      /\ (forall s, s ∈ cleaned <->
                    exists n node, n ∈ ns /\ s = d +:+ "/" +:+ n
                                   /\ fs w !! (cwd w ++ [d; n]) = Some node
                                   /\ expired cutoff node = true).
Proof.
  induction ns as [|n ns IH]; intros acc w Hd Hcwd Hdir Hnd Hall.
  - exists [], w. rewrite app_nil_r. split; [reflexivity|].
    split; [destruct w; reflexivity|]. split.
    + intros p. destruct (fs w !! p) as [node|] eqn:E; [|reflexivity].
      right. split; [|reflexivity]. intros (n & Hn & _). inversion Hn.
    + intros s. split; [intros Hs; inversion Hs|].
      intros (n & _ & Hn & _). inversion Hn.
  - inversion Hnd as [|? ? Hnotin Hnd']; subst.
    destruct (Hall n ltac:(left)) as (Hn & c & b & Hfile).
    destruct (resolve_child (fs w) (cwd w) d n Hd Hn Hcwd Hdir) as [Hres Hstr].
    set (t := cwd w ++ [d; n]) in *.
    assert (Hnode : Os.lookup_node (fs w) t = Some (Os.File c b)).
    { unfold t. change [d; n] with ([d] ++ [n]).
      rewrite (assoc_L (++)), lookup_node_snoc, <- (assoc_L (++)). exact Hfile. }
    assert (Hstat : stat_st_ctime (Pathlib.of_str d </> n) w
                    = (inr (Os.ctime (Os.File c b)), w)).
    { unfold stat_st_ctime. rewrite Hres, Hnode. reflexivity. }
    cbn [List.map for_each].
    destruct (Py.flt c cutoff) eqn:Hexp.
    + (* the entry is older than the cutoff: it is unlinked *)
      assert (Hun : unlink (Pathlib.of_str d </> n) w
                    = (inr tt, set_fs (delete t (fs w)) w)).
      { unfold unlink. rewrite Hres, Hnode. reflexivity. }
      set (w1 := set_fs (delete t (fs w)) w) in *.
      assert (Hstep : cleanup_step cutoff (Pathlib.of_str d </> n) acc w
                      = (inr (acc ++ [Pathlib.str (Pathlib.of_str d </> n)]), w1)).
      { unfold cleanup_step. rewrite (bind_ok _ _ _ _ _ Hstat). cbn [Os.ctime].
        rewrite Hexp. rewrite (bind_ok _ _ _ _ _ Hun). reflexivity. }
      rewrite (bind_ok _ _ _ _ _ Hstep).
      destruct (IH (acc ++ [Pathlib.str (Pathlib.of_str d </> n)]) w1)
        as (cleaned & w' & Hrun & Hw' & Hrem & Hcl).
      * exact Hd.
      * cbn [w1 set_fs fs cwd]. rewrite (is_dir_delete_file _ _ _ _ _ Hfile). exact Hcwd.
      * cbn [w1 set_fs fs cwd]. rewrite (is_dir_delete_file _ _ _ _ _ Hfile). exact Hdir.
      * exact Hnd'.
      * intros m Hm. destruct (Hall m ltac:(right; exact Hm)) as (Hmok & c' & b' & Hm').
        split; [exact Hmok|]. exists c', b'. cbn [w1 set_fs fs cwd].
        rewrite lookup_delete_ne; [exact Hm'|].
        intros E. apply child_inj in E. subst m. contradiction.
      * exists (Pathlib.str (Pathlib.of_str d </> n) :: cleaned), w'.
        split; [rewrite Hrun, <- (assoc_L (++)); reflexivity|].
        split; [rewrite Hw'; reflexivity|]. split.
        -- intros p. specialize (Hrem p). cbn [w1 set_fs fs cwd] in Hrem.
           destruct (decide (p = t)) as [->|Hne].
           ++ rewrite lookup_delete_eq in Hrem. rewrite Hfile. left.
              split; [|exact Hrem]. exists n. split; [left|]. split; [reflexivity|exact Hexp].
           ++ rewrite lookup_delete_ne in Hrem by congruence.
              destruct (fs w !! p) as [node|]; [|exact Hrem].
              destruct Hrem as [[(m & Hm & Hp & He) Hnone]|[Hnot Hsome]].
              ** left. split; [|exact Hnone]. exists m. split; [right; exact Hm|]. auto.
              ** right. split; [|exact Hsome]. intros (m & Hm & Hp & He).
                 apply elem_of_cons in Hm as [->|Hm]; [contradiction|].
                 apply Hnot. exists m. auto.
        -- intros s. rewrite elem_of_cons, Hcl. cbn [w1 set_fs fs cwd]. split.
           ++ intros [->|(m & node & Hm & Hs & Hl & He)].
              ** exists n, (Os.File c b). split; [left|]. split; [exact Hstr|].
                 split; [exact Hfile | exact Hexp].
              ** exists m, node. split; [right; exact Hm|]. split; [exact Hs|].
                 split; [|exact He].
                 rewrite lookup_delete_ne in Hl; [exact Hl|].
                 intros E. apply child_inj in E. subst m. contradiction.
           ++ intros (m & node & Hm & Hs & Hl & He).
              apply elem_of_cons in Hm as [->|Hm].
              ** left. rewrite Hs. symmetry. exact Hstr.
              ** right. exists m, node. split; [exact Hm|]. split; [exact Hs|].
                 split; [|exact He].
                 rewrite lookup_delete_ne; [exact Hl|].
                 intros E. apply child_inj in E. subst m. contradiction.
    + (* the entry is recent enough: it is kept *)
      assert (Hstep : cleanup_step cutoff (Pathlib.of_str d </> n) acc w
                      = (inr acc, w)).
      { unfold cleanup_step. rewrite (bind_ok _ _ _ _ _ Hstat). cbn [Os.ctime].
        rewrite Hexp. reflexivity. }
      rewrite (bind_ok _ _ _ _ _ Hstep).
      destruct (IH acc w Hd Hcwd Hdir Hnd')
        as (cleaned & w' & Hrun & Hw' & Hrem & Hcl).
      { intros m Hm. apply Hall. right. exact Hm. }
      exists cleaned, w'. split; [exact Hrun|]. split; [exact Hw'|]. split.
      * intros p. specialize (Hrem p).
        destruct (fs w !! p) as [node|] eqn:Ep; [|exact Hrem].
        destruct Hrem as [[(m & Hm & Hp & He) Hnone]|[Hnot Hsome]].
        -- left. split; [|exact Hnone]. exists m. split; [right; exact Hm|]. auto.
        -- right. split; [|exact Hsome]. intros (m & Hm & Hp & He).
           apply elem_of_cons in Hm as [->|Hm].
           ++ subst p. fold t in Ep. rewrite Hfile in Ep. injection Ep as <-.
              unfold expired in He. simpl in He. congruence.
           ++ apply Hnot. exists m. auto.
      * intros s. rewrite Hcl. split.
        -- intros (m & node & Hm & Hrest). exists m, node. split; [right; exact Hm | exact Hrest].
        -- intros (m & node & Hm & Hs & Hl & He).
           apply elem_of_cons in Hm as [->|Hm].
           ++ fold t in Hl. rewrite Hfile in Hl. injection Hl as <-.
              unfold expired in He. simpl in He. congruence.
           ++ exists m, node. auto.
Qed.

Lemma removed_exactly_iff (f f' : fsmap) (R R' : list string -> Os.node -> Prop) :
  (forall p node, f !! p = Some node -> (R p node <-> R' p node)) ->
  removed_exactly f f' R -> removed_exactly f f' R'.
Proof.
  intros Hiff H p. specialize (H p). destruct (f !! p) as [node|] eqn:E; [|exact H].
  specialize (Hiff p node E). tauto.
Qed.

Lemma removed_exactly_trans (f f1 f2 : fsmap) (R1 R2 : list string -> Os.node -> Prop) :
  removed_exactly f f1 R1 -> removed_exactly f1 f2 R2 ->
  removed_exactly f f2 (fun p node => R1 p node \/ R2 p node).
Proof.
  intros H1 H2 p. specialize (H1 p). specialize (H2 p).
  destruct (f !! p) as [node|].
  - destruct H1 as [[HR E1]|[HR E1]]; rewrite E1 in H2.
    + left. auto.
    + destruct H2 as [[HR2 E2]|[HR2 E2]]; [left; auto | right; tauto].
  - rewrite H1 in H2. exact H2.
Qed.

Lemma removed_exactly_lookup (f f' : fsmap) R p node :
  removed_exactly f f' R -> f' !! p = Some node -> f !! p = Some node.
Proof.
  intros H E. specialize (H p). destruct (f !! p) as [node'|].
  - destruct H as [[_ E']|[_ E']]; congruence.
  - congruence.
Qed.

Section Phase.

Variables (d : string) (pat : string -> bool) (cutoff : Q).
Variable w : World.
Hypothesis Hd : name_ok d = true.
Hypothesis Hwf : forall p n node,
    fs w !! (p ++ [n]) = Some node -> name_ok n = true /\ Os.is_dir (fs w) p = true.
Hypothesis Hcwd : Os.is_dir (fs w) (cwd w) = true.
Hypothesis Hfiles : forall n node,
    fs w !! (cwd w ++ [d; n]) = Some node -> pat n = true ->
    exists c b, node = Os.File c b.

Lemma snoc2 (n : string) : (cwd w ++ [d]) ++ [n] = cwd w ++ [d; n].
Proof. rewrite <- (assoc_L (++)). reflexivity. Qed.

(** One of the two scans of [cleanup_old_files]. *)
Lemma cleanup_phase (acc : list string) :
  exists cleaned w',
    (found <- path_exists (Pathlib.of_str d) ;;
     if found then
       files <- glob (Pathlib.of_str d) pat ;;
       for_each files (cleanup_step cutoff) acc
     else ret acc) w
    = (inr (acc ++ cleaned), w')
    /\ w' = set_fs (fs w') w
    /\ removed_exactly (fs w) (fs w')
         (fun p node => exists n, p = cwd w ++ [d; n] /\ pat n = true
                                  /\ expired cutoff node = true)
    /\ (forall s, s ∈ cleaned <->
                  exists n node, s = d +:+ "/" +:+ n
                                 /\ fs w !! (cwd w ++ [d; n]) = Some node
                                 /\ pat n = true
                                 /\ expired cutoff node = true).
Proof.
  pose proof (name_ok_spec d Hd) as (_ & Hd1 & Hd2 & Hd3).
  assert (Hres : Os.resolve (fs w) (cwd w) (Pathlib.of_str d) = inr (cwd w ++ [d])).
  { rewrite (of_str_name d Hd). unfold Os.resolve. cbn [Pathlib.absolute Pathlib.parts].
    rewrite walk_child by assumption. reflexivity. }
  destruct (Os.is_dir (fs w) (cwd w ++ [d])) eqn:Hdir.
  - (* the directory exists: it is scanned *)
    set (ns := Os.scandir (fs w) (cwd w ++ [d]) pat).
    destruct (cleanup_loop d cutoff ns acc w Hd Hcwd Hdir) as
      (cleaned & w' & Hrun & Hw' & Hrem & Hcl).
    { apply scandir_NoDup. }
    { intros n Hn. apply scandir_elem in Hn as [[node Hl] Hp].
      split; [exact (proj1 (Hwf _ _ _ Hl))|].
      rewrite snoc2 in Hl. destruct (Hfiles n node Hl Hp) as (c & b & ->). eauto. }
    exists cleaned, w'. split.
    { erewrite bind_ok.
      2:{ unfold path_exists. rewrite Hres. unfold Os.exists_at.
          apply is_dir_lookup in Hdir as [c Hc]. rewrite Hc.
          rewrite bool_decide_eq_true_2 by eauto. reflexivity. }
      cbv iota. erewrite bind_ok.
      2:{ unfold glob. rewrite Hres, Hdir. reflexivity. }
      exact Hrun. }
    split; [exact Hw'|]. split.
    + eapply removed_exactly_iff; [|exact Hrem]. intros p node Hp. split.
      * intros (n & Hn & -> & He). apply scandir_elem in Hn as [_ Hpat]. eauto.
      * intros (n & -> & Hpat & He). exists n. split; [|auto].
        apply scandir_elem. rewrite snoc2. split; [eauto | exact Hpat].
    + intros s. rewrite Hcl. split.
      * intros (n & node & Hn & Hs & Hl & He).
        apply scandir_elem in Hn as [_ Hpat]. eauto 10.
      * intros (n & node & Hs & Hl & Hpat & He). exists n, node.
        split; [|auto]. apply scandir_elem. rewrite snoc2. eauto.
  - (* no such directory: nothing to scan, and nothing lies below it *)
    assert (Hnone : forall n node, fs w !! (cwd w ++ [d; n]) = Some node -> False).
    { intros n node Hl. rewrite <- snoc2 in Hl.
      destruct (Hwf _ _ _ Hl) as [_ Hdir']. congruence. }
    exists [], w. rewrite app_nil_r. split.
    { erewrite bind_ok by (unfold path_exists; rewrite Hres; reflexivity).
      destruct (Os.exists_at _ _); [|reflexivity].
      erewrite bind_ok by (unfold glob; rewrite Hres, Hdir; reflexivity).
      reflexivity. }
    split; [destruct w; reflexivity|]. split.
    + intros p. destruct (fs w !! p) as [node|] eqn:E; [|reflexivity].
      right. split; [|reflexivity]. intros (n & -> & _). eauto.
    + intros s. split; [intros Hs; inversion Hs|].
      intros (n & node & _ & Hl & _). exfalso. eauto.
Qed.

(** The same scan, followed by the rest of the handler. *)
Lemma cleanup_phase_then (acc : list string) :
  exists cleaned w',
    (forall B (K : list string -> M B),
        (found <- path_exists (Pathlib.of_str d) ;;
         cleaned_files <-
           (if found then
              files <- glob (Pathlib.of_str d) pat ;;
              for_each files (cleanup_step cutoff) acc
            else ret acc) ;;
         K cleaned_files) w
        = K (acc ++ cleaned) w')
    /\ w' = set_fs (fs w') w
    /\ removed_exactly (fs w) (fs w')
         (fun p node => exists n, p = cwd w ++ [d; n] /\ pat n = true
                                  /\ expired cutoff node = true)
    /\ (forall s, s ∈ cleaned <->
                  exists n node, s = d +:+ "/" +:+ n
                                 /\ fs w !! (cwd w ++ [d; n]) = Some node
                                 /\ pat n = true
                                 /\ expired cutoff node = true).
Proof.
  destruct (cleanup_phase acc) as (cleaned & w' & Hrun & Hrest).
  exists cleaned, w'. split; [|exact Hrest].
  intros B K. unfold bind in *.
  destruct (path_exists (Pathlib.of_str d) w) as [[e|found] wa]; [discriminate|].
  rewrite Hrun. reflexivity.
Qed.

End Phase.

Lemma removed_exactly_is_dir (f f' : fsmap) (R : list string -> Os.node -> Prop)
    (q : list string) :
  removed_exactly f f' R ->
  (forall p node, f !! p = Some node -> R p node -> exists c b, node = Os.File c b) ->
  Os.is_dir f q = true -> Os.is_dir f' q = true.
Proof.
  intros Hrem Hfile. unfold Os.is_dir, Os.lookup_node.
  destruct q as [|x q]; [auto|]. specialize (Hrem (x :: q)).
  destruct (f !! (x :: q)) as [[c b|c]|] eqn:E; try discriminate. intros _.
  destruct Hrem as [[HR _]|[_ ->]]; [|reflexivity].
  destruct (Hfile _ _ E HR) as (? & ? & ?). discriminate.
Qed.

Lemma expired_age (now age : Q) (node : Os.node) :
  expired (now - age) node = true <-> (age < now - Os.ctime node)%Q.
Proof.
  unfold expired, Py.flt. rewrite negb_true_iff.
  destruct (Qle_bool (now - age) (Os.ctime node)) eqn:E.
  - apply Qle_bool_iff in E. split; [discriminate | intros H; lra].
  - split; [intros _ | reflexivity].
    destruct (Qlt_le_dec age (now - Os.ctime node)) as [H|H]; [exact H|].
    assert (Hle : (now - age <= Os.ctime node)%Q) by lra.
    apply Qle_bool_iff in Hle. congruence.
Qed.

Lemma fs_wf_entries (f : fsmap) :
  fs_wf f = true ->
  forall p n node, f !! (p ++ [n]) = Some node ->
                   name_ok n = true /\ Os.is_dir f p = true.
Proof. intros H p n node. apply fs_wf_entry, H. Qed.

Lemma holds_files_entries (f : fsmap) (cwd : list string) (d : string)
    (pat : string -> bool) :
  holds_files f (cwd ++ [d]) pat = true ->
  forall n node, f !! (cwd ++ [d; n]) = Some node -> pat n = true ->
                 exists c b, node = Os.File c b.
Proof.
  intros H n node Hl Hp. eapply holds_files_entry; [exact H | | exact Hp].
  rewrite <- (assoc_L (++)). exact Hl.
Qed.

(** C4, amended. With auto-cleanup disabled, [cleanup_old_files] deletes
    nothing, reads no clock, and its answer reports that the feature is
    disabled. With auto-cleanup enabled, in a well-formed tree whose
    working directory exists and whose candidates are regular files, the
    handler succeeds and removes exactly these entries: the entries of
    [outputs/] named [*.wav], and all entries of [uploads/], whose age at
    the handler's clock reading is strictly greater than the configured
    maximum. Every other entry is kept as it was, and the returned list
    holds exactly the paths of the removed entries. *)
Theorem cleanup_old_files_removes (w : World) :
  let now := clock w (clock_reads w) in
  let max_age := inject_Z (ConfigApi.max_file_age (config w)) in
  (ConfigApi.auto_cleanup (config w) = false ->
   cleanup_old_files w
   = (inl (HTTPException 500 "清理旧文件失败: 400: 自动清理功能未启用"), w))
  /\ (ConfigApi.auto_cleanup (config w) = true ->
      fs_wf (fs w) = true ->
      Os.is_dir (fs w) (cwd w) = true ->
      holds_files (fs w) (cwd w ++ ["outputs"]) pat_wav = true ->
      holds_files (fs w) (cwd w ++ ["uploads"]) pat_any = true ->
      exists cleaned w',
        cleanup_old_files w
        = (inr (JSONResponse (VDict [
                  ("success", VBool true);
                  ("cleaned_files", VList (VStr <$> cleaned));
                  ("message",
                   VStr ("清理了 " +:+ pretty (length cleaned) +:+ " 个旧文件"))])),
           w')
        /\ removed_exactly (fs w) (fs w')
             (fun p node => (exists s, cleanup_target w s p)
                            /\ (max_age < now - Os.ctime node)%Q)
        /\ forall s, s ∈ cleaned <->
                     exists p node, cleanup_target w s p
                                    /\ fs w !! p = Some node
                                    /\ (max_age < now - Os.ctime node)%Q).
Proof.
  intros now max_age. split.
  - intros Hoff. unfold cleanup_old_files.
    match goal with
    | |- try_except ?body _ _ = _ =>
        assert (Hbody : body w = (inl (HTTPException 400 "自动清理功能未启用"), w))
    end.
    { rewrite (bind_ok read_config _ w _ w eq_refl). apply bind_err.
      rewrite Hoff. reflexivity. }
    rewrite (try_err _ _ _ _ _ Hbody). reflexivity.
  - intros Hon Hwf Hcwd Hout Hup.
    set (cutoff := (now - max_age)%Q).
    set (w0 := tick_clock w).
    (* the scan of outputs/ *)
    destruct (cleanup_phase_then "outputs" pat_wav cutoff w0 eq_refl
                (fs_wf_entries _ Hwf) Hcwd
                (holds_files_entries _ _ _ _ Hout) [])
      as (cleaned1 & w1 & Hrun1 & Hw1 & Hrem1 & Hcl1).
    assert (Hcwd1 : cwd w1 = cwd w) by (rewrite Hw1; reflexivity).
    assert (Hfile1 : forall p node,
               fs w !! p = Some node ->
               (exists n, p = cwd w ++ ["outputs"; n] /\ pat_wav n = true
                          /\ expired cutoff node = true) ->
               exists c b, node = Os.File c b).
    { intros p node Hl (n & -> & Hp & _).
      exact (holds_files_entries _ _ _ _ Hout n node Hl Hp). }
    assert (Hkeep : forall n node,
               fs w1 !! (cwd w ++ ["uploads"; n]) = Some node
               <-> fs w !! (cwd w ++ ["uploads"; n]) = Some node).
    { intros n node. split.
      - apply (removed_exactly_lookup _ _ _ _ _ Hrem1).
      - intros Hl. specialize (Hrem1 (cwd w ++ ["uploads"; n])).
        cbn [w0 tick_clock fs cwd] in Hrem1. rewrite Hl in Hrem1.
        destruct Hrem1 as [[(m & E & _) _]|[_ E]]; [|exact E].
        apply app_inv_head in E. discriminate E. }
    (* the scan of uploads/ *)
    destruct (cleanup_phase_then "uploads" pat_any cutoff w1 eq_refl)
      with (acc := [] ++ cleaned1)
      as (cleaned2 & w2 & Hrun2 & Hw2 & Hrem2 & Hcl2).
    { intros p n node Hl.
      apply (removed_exactly_lookup _ _ _ _ _ Hrem1) in Hl.
      destruct (fs_wf_entries _ Hwf p n node Hl) as [Hn Hdir].
      split; [exact Hn|].
      exact (removed_exactly_is_dir _ _ _ _ Hrem1 Hfile1 Hdir). }
    { rewrite Hcwd1. exact (removed_exactly_is_dir _ _ _ _ Hrem1 Hfile1 Hcwd). }
    { intros n node Hl Hp. rewrite Hcwd1 in Hl. apply Hkeep in Hl.
      exact (holds_files_entries _ _ _ _ Hup n node Hl Hp). }
    rewrite Hcwd1 in Hrem2, Hcl2.
    exists (cleaned1 ++ cleaned2), w2. split.
    { unfold cleanup_old_files. erewrite try_ok; [reflexivity|].
      rewrite (bind_ok read_config _ w _ w eq_refl).
      rewrite Hon. rewrite (bind_ok (raise_if (negb true) _) _ w tt w eq_refl).
      rewrite (bind_ok time_time _ w _ _ eq_refl).
      cbv zeta. fold now. fold max_age. fold cutoff. fold w0.
      rewrite Hrun1. rewrite Hrun2. reflexivity. }
    split.
    + eapply removed_exactly_iff;
        [|exact (removed_exactly_trans _ _ _ _ _ Hrem1 Hrem2)].
      intros p node Hl. cbn [w0 tick_clock fs cwd]. unfold cleanup_target.
      unfold cutoff. setoid_rewrite expired_age. split.
      * intros [(n & -> & Hp & He)|(n & -> & _ & He)].
        -- split; [|exact He]. exists ("outputs/" +:+ n), n. left. auto.
        -- split; [|exact He]. exists ("uploads/" +:+ n), n. right. auto.
      * intros [(s & n & [(-> & -> & Hp)|(-> & ->)]) He].
        -- left. eauto.
        -- right. eauto.
    + intros s. rewrite elem_of_app, Hcl1, Hcl2. cbn [w0 tick_clock fs cwd].
      unfold cleanup_target, cutoff. setoid_rewrite expired_age.
      setoid_rewrite Hkeep. split.
      * intros [(n & node & -> & Hl & Hp & He)|(n & node & -> & Hl & _ & He)].
        -- exists (cwd w ++ ["outputs"; n]), node. split; [|auto]. exists n. left. auto.
        -- exists (cwd w ++ ["uploads"; n]), node. split; [|auto]. exists n. right. auto.
      * intros (p & node & (n & [(-> & -> & Hp)|(-> & ->)]) & Hl & He).
        -- left. eauto 10.
        -- right. eauto 10.
Qed.

(** C4, as stated, fails at the boundary: with a maximum age of 100 and
    the clock at 200, [outputs/a.wav], changed at 100, has age 100, which
    is not less than the maximum, and it is still there after the
    cleanup. *)
Lemma cleanup_keeps_boundary_file :
  let w := Fixture.ready in
  let w' := (cleanup_old_files w).2 in
  let now := clock w (clock_reads w) in
  let max_age := inject_Z (ConfigApi.max_file_age (config w)) in
  ~ (forall n node,
        fs w !! (cwd w ++ ["outputs"; n]) = Some node ->
        (fs w' !! (cwd w ++ ["outputs"; n]) = None
         <-> (max_age <= now - Os.ctime node)%Q)).
Proof.
  intros w w' now max_age H.
  destruct (H "a.wav" (Os.File 100 []) eq_refl) as [_ Hgone].
  assert (Hkept : fs w' !! (cwd w ++ ["outputs"; "a.wav"]) = Some (Os.File 100 []))
    by (vm_compute; reflexivity).
  rewrite Hgone in Hkept; [discriminate|].
  vm_compute. discriminate.
Qed.

(** Cleanup on the fixture, disabled and enabled: [outputs/b.wav], of
    age 101, goes. *)
Lemma cleanup_old_files_removes_witness :
  let w := Fixture.ready in
  let off := Fixture.cleanup_disabled in
  (ConfigApi.auto_cleanup (config off) = false
   /\ cleanup_old_files off
      = (inl (HTTPException 500 "清理旧文件失败: 400: 自动清理功能未启用"), off))
  /\ ConfigApi.auto_cleanup (config w) = true
  /\ fs_wf (fs w) = true
  /\ exists (cleaned : list string) w',
       (cleanup_old_files w).2 = w'
       /\ status_of (cleanup_old_files w).1 = 200
       /\ fs w' !! ["srv"; "outputs"; "b.wav"] = None
       /\ "outputs/b.wav" ∈ cleaned.
Proof.
  intros w off.
  split; [split; [reflexivity|exact (proj1 (cleanup_old_files_removes off) eq_refl)]|].
  assert (Hon : ConfigApi.auto_cleanup (config w) = true) by reflexivity.
  assert (Hwf : fs_wf (fs w) = true) by (vm_compute; reflexivity).
  split; [exact Hon|]. split; [exact Hwf|].
  destruct (proj2 (cleanup_old_files_removes w) Hon Hwf eq_refl eq_refl eq_refl)
    as (cleaned & w' & Hrun & Hrem & Hcl).
  exists cleaned, w'. rewrite Hrun. split; [reflexivity|]. split; [reflexivity|].
  split.
  - specialize (Hrem ["srv"; "outputs"; "b.wav"]).
    change (fs w !! ["srv"; "outputs"; "b.wav"]) with (Some (Os.File 99 [])) in Hrem.
    destruct Hrem as [[_ E]|[Hnot _]]; [exact E|].
    exfalso. apply Hnot. split.
    + exists "outputs/b.wav", "b.wav". left. repeat split.
    + vm_compute. reflexivity.
  - apply Hcl. exists ["srv"; "outputs"; "b.wav"], (Os.File 99 []).
    split; [exists "b.wav"; left; repeat split|].
    split; [reflexivity|]. vm_compute. reflexivity.
Defined.

(** ** The counters of the collector *)

Lemma record_all_app (l1 l2 : list (bool * Q)) (s : Stats) :
  record_all (l1 ++ l2) s = record_all l2 (record_all l1 s).
Proof. unfold record_all. apply fold_left_app. Qed.

Lemma record_all_counters (samples : list (bool * Q)) (s : Stats) :
  let s' := record_all samples s in
  total_requests s' = total_requests s + Z.of_nat (length samples)
  /\ successful_requests s'
     = successful_requests s + Z.of_nat (length (List.filter fst samples))
  /\ failed_requests s'
     = failed_requests s
       + Z.of_nat (length (List.filter (fun x => negb x.1) samples))
  /\ start_time s' = start_time s.
Proof.
  revert s. induction samples as [|[b t] samples IH]; intros s; simpl.
  - repeat split; lia.
  - destruct (IH (update_stats b t s)) as (H1 & H2 & H3 & H4).
    unfold record_all in *. simpl.
    rewrite H1, H2, H3, H4. destruct b; simpl; repeat split; lia.
Qed.

(** X1. After any sequence of recordings on a fresh collector, the
    counters agree with the history: [total_requests] is the number of
    recordings, [successful_requests] the number of those flagged as
    successes, the total is the sum of the success and failure counters,
    the window holds [min 1000 n] durations, and [start_time] is the one
    the collector was created with. *)
Theorem counters_consistent (t0 : Q) (samples : list (bool * Q)) :
  let s := record_all samples (initial_stats t0) in
  total_requests s = Z.of_nat (length samples)
  /\ successful_requests s = Z.of_nat (length (List.filter fst samples))
  /\ total_requests s = successful_requests s + failed_requests s
  /\ length (response_times s) = Nat.min 1000 (length samples)
  /\ start_time s = t0.
Proof.
  intros s. destruct (record_all_counters samples (initial_stats t0))
    as (H1 & H2 & H3 & H4). fold s in H1, H2, H3, H4. simpl in *.
  split; [lia|]. split; [lia|]. split.
  - rewrite H1, H2, H3. simpl.
    assert (length (List.filter fst samples)
            + length (List.filter (fun x => negb x.1) samples) = length samples)%nat.
    { clear. induction samples as [|[[] t] l IH]; simpl; lia. }
    lia.
  - split; [|exact H4]. unfold s.
    rewrite record_all_window by (simpl; lia). simpl.
    rewrite slice_last_length, length_fmap. reflexivity.
Qed.

(** ** The statistics report *)

Lemma round_half_even_comp (q q' : Q) :
  (q == q')%Q -> Py.round_half_even q = Py.round_half_even q'.
Proof.
  intros E. unfold Py.round_half_even.
  rewrite (Qfloor_comp _ _ E).
  assert (E2 : (q - inject_Z (Qfloor q') == q' - inject_Z (Qfloor q'))%Q)
    by (rewrite E; reflexivity).
  rewrite (Qcompare_comp _ _ E2 (1 # 2) (1 # 2) (Qeq_refl _)). reflexivity.
Qed.

Lemma round3_comp (q q' : Q) : (q == q')%Q -> round3 q = round3 q'.
Proof.
  intros E. unfold round3. f_equal. apply round_half_even_comp.
  rewrite E. reflexivity.
Qed.

Lemma fold_left_Qplus_replicate (n : nat) (t a : Q) :
  (fold_left Qplus (replicate n t) a == a + inject_Z (Z.of_nat n) * t)%Q.
Proof.
  revert a. induction n as [|n IH]; intros a.
  - simpl. ring.
  - cbn [replicate fold_left]. rewrite IH.
    rewrite Nat2Z.inj_succ. unfold Z.succ. rewrite inject_Z_plus. ring.
Qed.

Lemma window_average_replicate (n : nat) (t : Q) :
  (0 < n)%nat -> (window_average (replicate n t) == t)%Q.
Proof.
  intros Hn. destruct n as [|n]; [lia|].
  unfold window_average. cbn [replicate].
  change (t :: replicate n t) with (replicate (S n) t).
  unfold py_sum. rewrite fold_left_Qplus_replicate, length_replicate.
  assert (Hz : ~ (inject_Z (Z.of_nat (S n)) == 0)%Q).
  { unfold Qeq. simpl. lia. }
  field. exact Hz.
Qed.

Lemma slice_last_app_long {A} (n : nat) (a b : list A) :
  (n <= length b)%nat -> Py.slice_last n (a ++ b) = Py.slice_last n b.
Proof.
  intros H. unfold Py.slice_last. rewrite length_app.
  replace (length a + length b - n)%nat with (length a + (length b - n))%nat by lia.
  apply drop_app_add.
Qed.

Lemma glob_runs (p : Path) (pat : string -> bool) (w : World) :
  exists l, glob p pat w = (inr l, w).
Proof.
  unfold glob. destruct (Os.resolve (fs w) (cwd w) p) as [e|t];
    [|destruct (Os.is_dir (fs w) t)]; eexists; reflexivity.
Qed.

Lemma get_stats_runs (w : World) :
  exists n : nat,
    get_stats w
    = (inr (JSONResponse (VDict [
              ("total_requests", VInt (total_requests (stats w)));
              ("successful_requests", VInt (successful_requests (stats w)));
              ("failed_requests", VInt (failed_requests (stats w)));
              ("average_response_time",
               VFloat (round3 (window_average (response_times (stats w)))));
              ("total_audio_files", VInt (Z.of_nat n))])), w).
Proof.
  unfold get_stats.
  rewrite (bind_ok read_stats _ w _ w eq_refl). cbv zeta.
  rewrite (bind_ok (path_exists _) _ w _ w eq_refl).
  destruct (Os.exists_at _ _).
  - destruct (glob_runs (Pathlib.of_str "outputs") pat_wav w) as [l Hl].
    exists (length l).
    rewrite (bind_ok _ _ _ _ _ (bind_ok _ _ _ _ _ Hl)). reflexivity.
  - exists 0%nat. reflexivity.
Qed.

(** X2. The average that [get_stats] reports is taken over the window,
    not over the whole history: once the last 1000 recordings all took
    [t], the report gives [round(t, 3)] whatever the earlier recordings
    took, while [total_requests] still counts every recording. The
    report leaves the world as it was. *)
Theorem average_covers_last_1000 (t0 : Q) (history : list (bool * Q))
    (flags : list bool) (t : Q) (w : World) :
  (1000 <= length flags)%nat ->
  stats w = record_all (history ++ ((fun b => (b, t)) <$> flags)) (initial_stats t0) ->
  total_requests (stats w) = Z.of_nat (length history + length flags)
  /\ exists body,
       get_stats w = (inr (JSONResponse body), w)
       /\ get_key "average_response_time" body = Some (VFloat (round3 t)).
Proof.
  intros Hlen Hst.
  assert (Hsame : ((fun b => (b, t)) <$> flags).*2 = replicate (length flags) t).
  { clear. induction flags as [|b flags IH]; [reflexivity|].
    cbn. f_equal. exact IH. }
  assert (Hwin : response_times (stats w) = replicate 1000 t).
  { rewrite Hst, record_all_window by (simpl; lia).
    cbn [initial_stats response_times app].
    rewrite fmap_app, slice_last_app_long by (rewrite !length_fmap; lia).
    rewrite Hsame. unfold Py.slice_last.
    rewrite length_replicate, drop_replicate.
    replace (length flags - (length flags - 1000))%nat with 1000%nat by lia.
    reflexivity. }
  split.
  - rewrite Hst. destruct (record_all_counters
                             (history ++ ((fun b => (b, t)) <$> flags)) (initial_stats t0))
      as (H1 & _). rewrite H1. simpl. rewrite length_app, length_fmap. lia.
  - destruct (get_stats_runs w) as [n Hrun]. eexists. split; [exact Hrun|].
    rewrite Hwin.
    rewrite (round3_comp _ t (window_average_replicate 1000 t ltac:(lia))).
    generalize (round3 t), (stats w). intros q st. reflexivity.
Qed.

(** One slow failure followed by 1000 recordings of two seconds. *)
Lemma average_covers_last_1000_witness :
  let history := [(false, 500%Q)] in
  let flags := replicate 1000 true in
  let w := set_stats
             (record_all (history ++ ((fun b => (b, 2%Q)) <$> flags)) (initial_stats 0))
             Fixture.ready in
  total_requests (stats w) = Z.of_nat (length history + length flags)
  /\ exists body,
       get_stats w = (inr (JSONResponse body), w)
       /\ get_key "average_response_time" body = Some (VFloat (round3 2)).
Proof.
  intros history flags w.
  refine (average_covers_last_1000 0 history flags 2 w _ eq_refl).
  unfold flags. rewrite length_replicate. apply le_n.
Defined.

(** ** The listing of generated files *)


Lemma insert_desc_perm (key : value -> Q) (x : value) (l : list value) :
  insert_desc key x l ≡ₚ x :: l.
Proof.
  induction l as [|y l IH]; simpl; [reflexivity|].
  destruct (Py.flt (key x) (key y)); [|reflexivity].
  rewrite IH. apply Permutation_swap.
Qed.

Lemma sort_desc_perm (key : value -> Q) (l : list value) :
  sort_desc key l ≡ₚ l.
Proof.
  induction l as [|x l IH]; simpl; [reflexivity|].
  rewrite insert_desc_perm, IH. reflexivity.
Qed.

Lemma flt_false (x y : Q) : Py.flt x y = false -> (y <= x)%Q.
Proof.
  unfold Py.flt. rewrite negb_false_iff. apply Qle_bool_iff.
Qed.

Lemma flt_true (x y : Q) : Py.flt x y = true -> (x < y)%Q.
Proof.
  unfold Py.flt. rewrite negb_true_iff. intros H.
  destruct (Qlt_le_dec x y) as [Hlt|Hle]; [exact Hlt|].
  apply Qle_bool_iff in Hle. congruence.
Qed.

Lemma insert_desc_sorted (x : value) (l : list value) :
  Sorted newer_or_equal l -> Sorted newer_or_equal (insert_desc created_time x l).
Proof.
  induction l as [|y l IH]; intros Hs; simpl.
  - repeat constructor.
  - destruct (Py.flt (created_time x) (created_time y)) eqn:E.
    + inversion Hs as [|? ? Hl Hhd]; subst. constructor; [apply IH, Hl|].
      destruct l as [|z l]; simpl.
      * constructor. unfold newer_or_equal. apply flt_true in E. lra.
      * destruct (Py.flt (created_time x) (created_time z)).
        -- inversion Hhd; subst. constructor. assumption.
        -- constructor. unfold newer_or_equal. apply flt_true in E. lra.
    + constructor; [exact Hs|]. constructor. unfold newer_or_equal.
      apply flt_false in E. exact E.
Qed.

Lemma sort_desc_sorted (l : list value) :
  Sorted newer_or_equal (sort_desc created_time l).
Proof.
  induction l as [|x l IH]; simpl; [constructor|].
  apply insert_desc_sorted, IH.
Qed.

Lemma name_of_child (d n : string) :
  name_ok d = true -> name_ok n = true ->
  Pathlib.name (Pathlib.of_str d </> n) = n.
Proof.
  intros Hd Hn. unfold Pathlib.truediv.
  rewrite (of_str_name d Hd), (of_str_name n Hn). reflexivity.
Qed.

Lemma outputs_name_ok : name_ok "outputs" = true.
Proof. reflexivity. Qed.

Lemma path_exists_outputs (w : World) :
  Os.is_dir (fs w) (cwd w) = true ->
  path_exists (Pathlib.of_str "outputs") w
  = (inr (bool_decide (is_Some (fs w !! (cwd w ++ ["outputs"])))), w).
Proof.
  intros Hcwd. unfold path_exists, Os.resolve.
  change (Pathlib.of_str "outputs") with (Pathlib.mkPath false ["outputs"]).
  cbn [Pathlib.absolute Pathlib.parts].
  rewrite walk_child by (assumption || discriminate). cbn [Os.walk Os.exists_at].
  rewrite lookup_node_snoc. reflexivity.
Qed.

Lemma glob_outputs (w : World) (pat : string -> bool) :
  Os.is_dir (fs w) (cwd w) = true ->
  glob (Pathlib.of_str "outputs") pat w
  = (inr (if Os.is_dir (fs w) (cwd w ++ ["outputs"])
          then List.map (fun n => Pathlib.of_str "outputs" </> n)
                 (Os.scandir (fs w) (cwd w ++ ["outputs"]) pat)
          else []), w).
Proof.
  intros Hcwd. unfold glob, Os.resolve.
  change (Pathlib.of_str "outputs") with (Pathlib.mkPath false ["outputs"]).
  cbn [Pathlib.absolute Pathlib.parts].
  rewrite walk_child by (assumption || discriminate). cbn [Os.walk].
  destruct (Os.is_dir (fs w) (cwd w ++ ["outputs"])); reflexivity.
Qed.

Lemma list_loop (pf : Platform) (w : World) (ns : list string) :
  forall acc,
    fs_wf (fs w) = true ->
    Os.is_dir (fs w) (cwd w) = true ->
    Os.is_dir (fs w) (cwd w ++ ["outputs"]) = true ->
    (forall q, exists s, strftime_local pf q = inr s) ->
    (forall n, n ∈ ns -> is_Some (fs w !! (cwd w ++ ["outputs"; n]))) ->
    exists entries,
      for_each (List.map (fun n => Pathlib.of_str "outputs" </> n) ns)
        (list_entry pf) acc w = (inr (acc ++ entries), w)
      /\ Forall2 (listed pf w) ns entries.
Proof.
  induction ns as [|n ns IH]; intros acc Hwf Hcwd Hdir Hfmt Hin.
  - exists []. rewrite app_nil_r. split; [reflexivity|constructor].
  - destruct (Hin n) as [node Hnode]; [left|].
    replace (cwd w ++ ["outputs"; n]) with ((cwd w ++ ["outputs"]) ++ [n]) in Hnode
      by (rewrite <- (assoc_L (++)); reflexivity).
    destruct (fs_wf_entry _ _ _ _ Hwf Hnode) as [Hn _].
    destruct (resolve_child (fs w) (cwd w) "outputs" n outputs_name_ok Hn Hcwd Hdir)
      as [Hres _].
    destruct (Hfmt (Os.ctime node)) as [s Hs].
    assert (Hstat : path_stat (Pathlib.of_str "outputs" </> n) w = (inr node, w)).
    { unfold path_stat. rewrite Hres.
      replace (cwd w ++ ["outputs"; n]) with ((cwd w ++ ["outputs"]) ++ [n])
        by (rewrite <- (assoc_L (++)); reflexivity).
      rewrite lookup_node_snoc, Hnode. reflexivity. }
    assert (Hstep : list_entry pf (Pathlib.of_str "outputs" </> n) acc w
                    = (inr (acc ++ [VDict [
                         ("filename", VStr n);
                         ("size", VInt (st_size pf node));
                         ("created_time", VFloat (Os.ctime node));
                         ("created_time_str", VStr s);
                         ("download_url", VStr ("/download/" +:+ n))]]), w)).
    { unfold list_entry. rewrite (bind_ok _ _ _ _ _ Hstat). rewrite Hs.
      rewrite (name_of_child "outputs" n outputs_name_ok Hn). reflexivity. }
    destruct (IH (acc ++ [VDict [
                         ("filename", VStr n);
                         ("size", VInt (st_size pf node));
                         ("created_time", VFloat (Os.ctime node));
                         ("created_time_str", VStr s);
                         ("download_url", VStr ("/download/" +:+ n))]])
                Hwf Hcwd Hdir Hfmt) as (entries & Hrun & Hall).
    { intros m Hm. apply Hin. right. exact Hm. }
    eexists (_ :: entries). split.
    + cbn [List.map for_each]. rewrite (bind_ok _ _ _ _ _ Hstep). rewrite Hrun.
      rewrite <- (assoc_L (++)). reflexivity.
    + constructor; [|exact Hall].
      exists node, s. split; [|split; [exact Hs|reflexivity]].
      rewrite <- Hnode. rewrite <- (assoc_L (++)). reflexivity.
Qed.

Lemma Forall2_perm_r {A B} (R : A -> B -> Prop) (l : list A) (k k' : list B) :
  Forall2 R l k -> k ≡ₚ k' -> exists l', l' ≡ₚ l /\ Forall2 R l' k'.
Proof.
  intros HF HP. revert l HF.
  induction HP as [|x k k' HP IH|x y k|k1 k2 k3 H12 IH12 H23 IH23]; intros l HF.
  - inversion HF; subst. exists []. split; [reflexivity|constructor].
  - inversion HF as [|a ? l0 ? Ha HF']; subst.
    destruct (IH _ HF') as (l' & Hl' & HF2).
    exists (a :: l'). split; [rewrite Hl'; reflexivity|constructor; assumption].
  - inversion HF as [|a ? l0 ? Ha HF']; subst.
    inversion HF' as [|b ? l1 ? Hb HF'']; subst.
    exists (b :: a :: l1). split; [apply Permutation_swap|].
    constructor; [assumption|constructor; assumption].
  - destruct (IH12 _ HF) as (l1 & Hl1 & HF1).
    destruct (IH23 _ HF1) as (l2 & Hl2 & HF2).
    exists l2. split; [rewrite Hl2; exact Hl1|exact HF2].
Qed.

(** What [list_audio_files] computes when [outputs/] is a directory. *)
Lemma list_audio_files_runs (pf : Platform) (w : World) :
  fs_wf (fs w) = true ->
  Os.is_dir (fs w) (cwd w) = true ->
  Os.is_dir (fs w) (cwd w ++ ["outputs"]) = true ->
  (forall q, exists s, strftime_local pf q = inr s) ->
  exists entries,
    list_audio_files pf w
    = (inr (JSONResponse (VDict [("files", VList (sort_desc created_time entries))])), w)
    /\ Forall2 (listed pf w)
         (Os.scandir (fs w) (cwd w ++ ["outputs"]) pat_wav) entries.
Proof.
  intros Hwf Hcwd Hdir Hfmt.
  destruct (list_loop pf w (Os.scandir (fs w) (cwd w ++ ["outputs"]) pat_wav) []
              Hwf Hcwd Hdir Hfmt) as (entries & Hrun & Hall).
  { intros n Hn. apply scandir_elem in Hn as [Hn _].
    rewrite <- (assoc_L (++)) in Hn. exact Hn. }
  exists entries. split; [|exact Hall].
  unfold list_audio_files. apply try_ok.
  rewrite (bind_ok _ _ _ _ _ (path_exists_outputs w Hcwd)).
  apply is_dir_lookup in Hdir as Hsome. destruct Hsome as [c Hc].
  rewrite lookup_node_snoc in Hc.
  rewrite bool_decide_eq_true_2 by (rewrite Hc; eauto). cbn [negb].
  rewrite (bind_ok _ _ _ _ _ (glob_outputs w pat_wav Hcwd)). rewrite Hdir.
  rewrite (bind_ok _ _ _ _ _ Hrun). reflexivity.
Qed.

(** X3. In a well-formed tree whose [outputs/] directory exists, and on
    a platform that can render every timestamp, [list_audio_files]
    answers with exactly one entry for each entry of [outputs/] named
    [*.wav] (its name, size, change time, rendered time and download
    address [/download/<name>]), ordered by change time, newest first,
    and leaves the world as it was. *)
Theorem listing_newest_first (pf : Platform) (w : World) :
  fs_wf (fs w) = true ->
  Os.is_dir (fs w) (cwd w) = true ->
  Os.is_dir (fs w) (cwd w ++ ["outputs"]) = true ->
  (forall q, exists s, strftime_local pf q = inr s) ->
  exists files names,
    list_audio_files pf w
    = (inr (JSONResponse (VDict [("files", VList files)])), w)
    /\ names ≡ₚ Os.scandir (fs w) (cwd w ++ ["outputs"]) pat_wav
    /\ Forall2 (listed pf w) names files
    /\ Sorted newer_or_equal files.
Proof.
  intros Hwf Hcwd Hdir Hfmt.
  destruct (list_audio_files_runs pf w Hwf Hcwd Hdir Hfmt) as (entries & Hrun & Hall).
  destruct (Forall2_perm_r _ _ _ (sort_desc created_time entries) Hall) as (names & Hp & HF).
  { symmetry. apply sort_desc_perm. }
  exists (sort_desc created_time entries), names.
  repeat apply conj; [exact Hrun|exact Hp|exact HF|apply sort_desc_sorted].
Qed.

Lemma listing_newest_first_witness :
  let w := Fixture.ready in
  exists files names,
    list_audio_files Host.linux w
    = (inr (JSONResponse (VDict [("files", VList files)])), w)
    /\ names ≡ₚ Os.scandir (fs w) (cwd w ++ ["outputs"]) pat_wav
    /\ Forall2 (listed Host.linux w) names files
    /\ Sorted newer_or_equal files.
Proof.
  intros w. apply (listing_newest_first Host.linux w).
  - vm_compute. reflexivity.
  - vm_compute. reflexivity.
  - vm_compute. reflexivity.
  - intros q. eexists. reflexivity.
Defined.

Lemma get_stats_counts (w : World) :
  Os.is_dir (fs w) (cwd w) = true ->
  get_stats w
  = (inr (JSONResponse (VDict [
            ("total_requests", VInt (total_requests (stats w)));
            ("successful_requests", VInt (successful_requests (stats w)));
            ("failed_requests", VInt (failed_requests (stats w)));
            ("average_response_time",
             VFloat (round3 (window_average (response_times (stats w)))));
            ("total_audio_files",
             VInt (Z.of_nat
                     (if Os.is_dir (fs w) (cwd w ++ ["outputs"])
                      then length (Os.scandir (fs w) (cwd w ++ ["outputs"]) pat_wav)
                      else 0%nat)))])), w).
Proof.
  intros Hcwd. unfold get_stats.
  rewrite (bind_ok read_stats _ w _ w eq_refl). cbv zeta.
  rewrite (bind_ok _ _ _ _ _ (path_exists_outputs w Hcwd)).
  destruct (bool_decide (is_Some (fs w !! (cwd w ++ ["outputs"])))) eqn:E.
  - rewrite (bind_ok _ _ _ _ _ (bind_ok _ _ _ _ _ (glob_outputs w pat_wav Hcwd))).
    destruct (Os.is_dir (fs w) (cwd w ++ ["outputs"])).
    + unfold ret. rewrite length_map. reflexivity.
    + reflexivity.
  - apply bool_decide_eq_false in E.
    assert (Hd : Os.is_dir (fs w) (cwd w ++ ["outputs"]) = false).
    { unfold Os.is_dir. rewrite lookup_node_snoc.
      destruct (fs w !! (cwd w ++ ["outputs"])) eqn:E'; [|reflexivity].
      exfalso. apply E. eauto. }
    rewrite Hd. reflexivity.
Qed.

(** X4. The statistics report and the listing agree: under the
    conditions of the listing, [total_audio_files] of [get_stats] is the
    number of entries [list_audio_files] returns. *)
Theorem stats_count_listed_files (pf : Platform) (w : World) :
  fs_wf (fs w) = true ->
  Os.is_dir (fs w) (cwd w) = true ->
  Os.is_dir (fs w) (cwd w ++ ["outputs"]) = true ->
  (forall q, exists s, strftime_local pf q = inr s) ->
  exists body,
    get_stats w = (inr (JSONResponse body), w)
    /\ get_key "total_audio_files" body
       = Some (VInt (Z.of_nat (length (listing_files (list_audio_files pf w).1)))).
Proof.
  intros Hwf Hcwd Hdir Hfmt.
  destruct (list_audio_files_runs pf w Hwf Hcwd Hdir Hfmt) as (entries & Hrun & Hall).
  eexists. split; [apply (get_stats_counts w Hcwd)|].
  rewrite Hrun, Hdir. cbn [fst listing_files].
  replace (get_key "files" (VDict [("files", VList (sort_desc created_time entries))]))
    with (Some (VList (sort_desc created_time entries))) by reflexivity.
  rewrite (Permutation_length (sort_desc_perm created_time entries)).
  rewrite <- (Forall2_length _ _ _ Hall).
  generalize (length (Os.scandir (fs w) (cwd w ++ ["outputs"]) pat_wav)).
  generalize (round3 (window_average (response_times (stats w)))), (stats w).
  intros q st n. reflexivity.
Qed.

Lemma stats_count_listed_files_witness :
  let w := Fixture.ready in
  exists body,
    get_stats w = (inr (JSONResponse body), w)
    /\ get_key "total_audio_files" body
       = Some (VInt (Z.of_nat (length (listing_files (list_audio_files Host.linux w).1)))).
Proof.
  intros w. apply (stats_count_listed_files Host.linux w).
  - vm_compute. reflexivity.
  - vm_compute. reflexivity.
  - vm_compute. reflexivity.
  - intros q. eexists. reflexivity.
Defined.

(** A regular file directly inside [outputs/] is what a download of its
    name streams. *)
Lemma download_outputs_child (w : World) (n : string) c content :
  Os.is_dir (fs w) (cwd w) = true ->
  Os.is_dir (fs w) (cwd w ++ ["outputs"]) = true ->
  name_ok n = true ->
  fs w !! (cwd w ++ ["outputs"; n]) = Some (Os.File c content) ->
  download_audio n w = (inr (FileResponse ("outputs/" +:+ n) n "audio/wav"), w)
  /\ served_bytes w (FileResponse ("outputs/" +:+ n) n "audio/wav") = Some content.
Proof.
  intros Hcwd Hdir Hn Hfile.
  destruct (resolve_child (fs w) (cwd w) "outputs" n outputs_name_ok Hn Hcwd Hdir)
    as [Hres Hstr0].
  assert (Hstr : Pathlib.str (Pathlib.of_str "outputs" </> n) = "outputs/" +:+ n)
    by exact Hstr0.
  assert (Hlook : Os.lookup_node (fs w) (cwd w ++ ["outputs"; n])
                  = Some (Os.File c content)).
  { replace (cwd w ++ ["outputs"; n]) with ((cwd w ++ ["outputs"]) ++ [n])
      by (rewrite <- (assoc_L (++)); reflexivity).
    rewrite lookup_node_snoc. rewrite <- (assoc_L (++)). exact Hfile. }
  split.
  - unfold download_audio.
    rewrite (bind_ok (path_exists _) _ w true w).
    + rewrite Hstr. reflexivity.
    + unfold path_exists. rewrite Hres. unfold Os.exists_at. rewrite Hlook.
      rewrite bool_decide_eq_true_2 by eauto. reflexivity.
  - unfold served_bytes. rewrite <- Hstr.
    destruct (outputs_child_shape n) as [Hok Hne].
    rewrite resolve_str_of_path by assumption.
    rewrite Hres, Hlook. reflexivity.
Qed.

Lemma snoc_outputs (w : World) (n : string) :
  (cwd w ++ ["outputs"]) ++ [n] = cwd w ++ ["outputs"; n].
Proof. rewrite <- (assoc_L (++)). reflexivity. Qed.

(** X5. Every entry of the listing can be fetched: when the [*.wav]
    entries of [outputs/] are regular files, the address an entry
    carries is [/download/<name>], [download_audio] of that name answers
    with the file [outputs/<name>], and the bytes it streams are as many
    as the [size] the entry reports. *)
Theorem listed_file_downloads (pf : Platform) (w : World) (e : value) :
  fs_wf (fs w) = true ->
  Os.is_dir (fs w) (cwd w) = true ->
  Os.is_dir (fs w) (cwd w ++ ["outputs"]) = true ->
  (forall q, exists s, strftime_local pf q = inr s) ->
  holds_files (fs w) (cwd w ++ ["outputs"]) pat_wav = true ->
  e ∈ listing_files (list_audio_files pf w).1 ->
  exists n content,
    get_key "download_url" e = Some (VStr ("/download/" +:+ n))
    /\ download_audio n w = (inr (FileResponse ("outputs/" +:+ n) n "audio/wav"), w)
    /\ served_bytes w (FileResponse ("outputs/" +:+ n) n "audio/wav") = Some content
    /\ get_key "size" e = Some (VInt (Z.of_nat (length content))).
Proof.
  intros Hwf Hcwd Hdir Hfmt Hfiles He.
  destruct (list_audio_files_runs pf w Hwf Hcwd Hdir Hfmt) as (entries & Hrun & Hall).
  rewrite Hrun in He. cbn [fst listing_files] in He.
  replace (get_key "files" (VDict [("files", VList (sort_desc created_time entries))]))
    with (Some (VList (sort_desc created_time entries))) in He by reflexivity.
  rewrite sort_desc_perm in He.
  destruct (proj1 (list_elem_of_lookup _ _) He) as [i Hi].
  destruct (Forall2_lookup_r _ _ _ _ _ Hall Hi) as (n & Hn & Hlisted).
  destruct Hlisted as (node & s & Hnode & Hs & ->).
  assert (Hpat : pat_wav n = true).
  { apply (list_elem_of_lookup_2 _ _ _) in Hn. apply scandir_elem in Hn. tauto. }
  rewrite <- snoc_outputs in Hnode.
  destruct (holds_files_entry _ _ _ _ _ Hfiles Hnode Hpat) as (c & content & ->).
  destruct (fs_wf_entry _ _ _ _ Hwf Hnode) as [Hname _].
  rewrite snoc_outputs in Hnode.
  destruct (download_outputs_child w n c content Hcwd Hdir Hname Hnode) as [Hd Hb].
  exists n, content. repeat apply conj; [reflexivity|exact Hd|exact Hb|reflexivity].
Qed.

Lemma fs_wf_intro (f : fsmap) :
  (forall p n node, f !! (p ++ [n]) = Some node ->
                    name_ok n = true /\ Os.is_dir f p = true) ->
  fs_wf f = true.
Proof.
  intros H. unfold fs_wf. apply forallb_forall. intros [p node] Hin.
  apply list_elem_of_In, elem_of_map_to_list in Hin.
  destruct (List.rev p) as [|n pre] eqn:E; [reflexivity|].
  assert (Hp : p = List.rev pre ++ [n]).
  { rewrite <- (rev_involutive p), E. reflexivity. }
  rewrite Hp in Hin. destruct (H _ _ _ Hin) as [H1 H2].
  rewrite H1, H2. reflexivity.
Qed.

Lemma fs_wf_delete_file (f : fsmap) (t : list string) c b :
  fs_wf f = true -> f !! t = Some (Os.File c b) -> fs_wf (delete t f) = true.
Proof.
  intros Hwf Ht. apply fs_wf_intro. intros p n node Hl.
  destruct (decide (t = p ++ [n])) as [->|Hne].
  - rewrite lookup_delete_eq in Hl. discriminate.
  - rewrite lookup_delete_ne in Hl by exact Hne.
    destruct (fs_wf_entry _ _ _ _ Hwf Hl) as [H1 H2].
    split; [exact H1|]. rewrite (is_dir_delete_file _ _ _ _ _ Ht). exact H2.
Qed.

Lemma listing_elem (pf : Platform) (w : World) (e : value) :
  fs_wf (fs w) = true ->
  Os.is_dir (fs w) (cwd w) = true ->
  Os.is_dir (fs w) (cwd w ++ ["outputs"]) = true ->
  (forall q, exists s, strftime_local pf q = inr s) ->
  e ∈ listing_files (list_audio_files pf w).1
  <-> exists m, pat_wav m = true /\ listed pf w m e.
Proof.
  intros Hwf Hcwd Hdir Hfmt.
  destruct (list_audio_files_runs pf w Hwf Hcwd Hdir Hfmt) as (entries & Hrun & Hall).
  rewrite Hrun. cbn [fst listing_files].
  replace (get_key "files" (VDict [("files", VList (sort_desc created_time entries))]))
    with (Some (VList (sort_desc created_time entries))) by reflexivity.
  rewrite sort_desc_perm. split.
  - intros He. destruct (proj1 (list_elem_of_lookup _ _) He) as [i Hi].
    destruct (Forall2_lookup_r _ _ _ _ _ Hall Hi) as (m & Hm & Hl).
    exists m. split; [|exact Hl].
    apply (list_elem_of_lookup_2 _ _ _) in Hm. apply scandir_elem in Hm. tauto.
  - intros (m & Hpat & Hl).
    assert (Hm : m ∈ Os.scandir (fs w) (cwd w ++ ["outputs"]) pat_wav).
    { apply scandir_elem. split; [|exact Hpat].
      destruct Hl as (node & s & Hnode & _). rewrite snoc_outputs. eauto. }
    destruct (proj1 (list_elem_of_lookup _ _) Hm) as [i Hi].
    destruct (Forall2_lookup_l _ _ _ _ _ Hall Hi) as (e' & He' & Hl').
    assert (e' = e) as <-.
    { destruct Hl as (node & s & Hnode & Hs & ->).
      destruct Hl' as (node' & s' & Hnode' & Hs' & ->).
      assert (node' = node) as -> by congruence.
      assert (s' = s) as -> by congruence. reflexivity. }
    apply (list_elem_of_lookup_2 _ _ _ He').
Qed.

(** The entry of [a.wav] on the fixture. *)
Lemma listed_file_downloads_witness :
  let w := Fixture.ready in
  let e := VDict [("filename", VStr "a.wav");
                  ("size", VInt 0);
                  ("created_time", VFloat 100);
                  ("created_time_str", VStr "100");
                  ("download_url", VStr "/download/a.wav")] in
  exists n content,
    get_key "download_url" e = Some (VStr ("/download/" +:+ n))
    /\ download_audio n w = (inr (FileResponse ("outputs/" +:+ n) n "audio/wav"), w)
    /\ served_bytes w (FileResponse ("outputs/" +:+ n) n "audio/wav") = Some content
    /\ get_key "size" e = Some (VInt (Z.of_nat (length content))).
Proof.
  intros w e.
  assert (Hwf : fs_wf (fs w) = true) by (vm_compute; reflexivity).
  assert (Hcwd : Os.is_dir (fs w) (cwd w) = true) by (vm_compute; reflexivity).
  assert (Hdir : Os.is_dir (fs w) (cwd w ++ ["outputs"]) = true)
    by (vm_compute; reflexivity).
  assert (Hfmt : forall q, exists s, strftime_local Host.linux q = inr s)
    by (intros q; eexists; reflexivity).
  apply (listed_file_downloads Host.linux w e Hwf Hcwd Hdir Hfmt).
  - vm_compute. reflexivity.
  - apply (listing_elem Host.linux w e Hwf Hcwd Hdir Hfmt).
    exists "a.wav". split; [reflexivity|].
    exists (Os.File 100 []), "100". repeat apply conj; vm_compute; reflexivity.
Defined.

(** X6. Deleting a regular file of [outputs/] succeeds, and afterwards
    a download of the same name is answered 404, the listing no longer
    has an entry of that name, and every other entry of the listing is
    still there, unchanged. *)
Theorem deleted_file_unlisted (pf : Platform) (w : World) (n : string) c content :
  fs_wf (fs w) = true ->
  Os.is_dir (fs w) (cwd w) = true ->
  Os.is_dir (fs w) (cwd w ++ ["outputs"]) = true ->
  (forall q, exists s, strftime_local pf q = inr s) ->
  fs w !! (cwd w ++ ["outputs"; n]) = Some (Os.File c content) ->
  exists w',
    delete_audio_file n w
    = (inr (JSONResponse (VDict [
              ("success", VBool true);
              ("message", VStr ("文件 " +:+ n +:+ " 删除成功"))])), w')
    /\ download_audio n w' = (inl (HTTPException 404 "文件不存在"), w')
    /\ forall e,
         e ∈ listing_files (list_audio_files pf w').1
         <-> e ∈ listing_files (list_audio_files pf w).1
             /\ get_key "filename" e <> Some (VStr n).
Proof.
  intros Hwf Hcwd Hdir Hfmt Hfile.
  assert (Hfile' := Hfile). rewrite <- snoc_outputs in Hfile'.
  destruct (fs_wf_entry _ _ _ _ Hwf Hfile') as [Hn _].
  destruct (resolve_child (fs w) (cwd w) "outputs" n outputs_name_ok Hn Hcwd Hdir)
    as [Hres _].
  assert (Hlook : Os.lookup_node (fs w) (cwd w ++ ["outputs"; n])
                  = Some (Os.File c content)).
  { rewrite <- snoc_outputs, lookup_node_snoc. exact Hfile'. }
  set (t := cwd w ++ ["outputs"; n]) in *.
  set (w' := set_fs (delete t (fs w)) w).
  assert (Hcwd' : Os.is_dir (fs w') (cwd w') = true).
  { cbn. rewrite (is_dir_delete_file _ _ _ _ _ Hfile). exact Hcwd. }
  assert (Hdir' : Os.is_dir (fs w') (cwd w' ++ ["outputs"]) = true).
  { cbn. rewrite (is_dir_delete_file _ _ _ _ _ Hfile). exact Hdir. }
  assert (Hwf' : fs_wf (fs w') = true).
  { cbn. apply (fs_wf_delete_file _ _ _ _ Hwf Hfile). }
  exists w'. repeat apply conj.
  - unfold delete_audio_file. apply try_ok.
    rewrite (bind_ok (path_exists _) _ w true w).
    + cbn [negb raise_if]. rewrite (bind_ok (ret tt) _ w tt w eq_refl).
      rewrite (bind_ok (unlink _) _ w tt w'); [reflexivity|].
      unfold unlink. rewrite Hres. fold t. rewrite Hlook. reflexivity.
    + unfold path_exists. rewrite Hres. fold t. unfold Os.exists_at. rewrite Hlook.
      rewrite bool_decide_eq_true_2 by eauto. reflexivity.
  - apply download_audio_absent.
    destruct (resolve_child (fs w') (cwd w') "outputs" n outputs_name_ok Hn Hcwd' Hdir')
      as [Hres' _].
    rewrite Hres'. unfold Os.exists_at. cbn [cwd w' set_fs fs].
    rewrite <- snoc_outputs, lookup_node_snoc, snoc_outputs. fold t.
    rewrite lookup_delete_eq. apply bool_decide_eq_false_2. intros [x Hx]. discriminate.
  - intros e.
    rewrite (listing_elem pf w' e Hwf' Hcwd' Hdir' Hfmt).
    rewrite (listing_elem pf w e Hwf Hcwd Hdir Hfmt).
    split.
    + intros (m & Hpat & node & s & Hnode & Hs & ->).
      cbn [cwd w' set_fs fs] in Hnode.
      destruct (decide (m = n)) as [->|Hne].
      { fold t in Hnode. rewrite lookup_delete_eq in Hnode. discriminate. }
      rewrite lookup_delete_ne in Hnode
        by (unfold t; intros H; apply child_inj in H; congruence).
      split.
      * exists m. split; [exact Hpat|]. exists node, s. auto.
      * intros H. apply Hne. vm_compute in H. congruence.
    + intros [(m & Hpat & node & s & Hnode & Hs & ->) Hne].
      exists m. split; [exact Hpat|]. exists node, s. repeat apply conj; auto.
      cbn [cwd w' set_fs fs].
      rewrite lookup_delete_ne; [exact Hnode|].
      unfold t. intros H. apply child_inj in H. subst m. apply Hne. reflexivity.
Qed.

Lemma deleted_file_unlisted_witness :
  let w := Fixture.ready in
  exists w',
    delete_audio_file "b.wav" w
    = (inr (JSONResponse (VDict [
              ("success", VBool true);
              ("message", VStr ("文件 " +:+ "b.wav" +:+ " 删除成功"))])), w')
    /\ download_audio "b.wav" w' = (inl (HTTPException 404 "文件不存在"), w')
    /\ forall e,
         e ∈ listing_files (list_audio_files Host.linux w').1
         <-> e ∈ listing_files (list_audio_files Host.linux w).1
             /\ get_key "filename" e <> Some (VStr "b.wav").
Proof.
  intros w. apply (deleted_file_unlisted Host.linux w "b.wav" 99%Q []).
  - vm_compute. reflexivity.
  - vm_compute. reflexivity.
  - vm_compute. reflexivity.
  - intros q. eexists. reflexivity.
  - vm_compute. reflexivity.
Defined.

(** ** The engine's life cycle *)

Lemma shutdown_unloads (w : World) (request : TTSRequest.t) :
  (lifespan_shutdown w).1 = inr tt
  /\ post_tts request (lifespan_shutdown w).2
     = (inl (HTTPException 503 "TTS模型未初始化，请稍后重试"),
        (lifespan_shutdown w).2).
Proof.
  unfold lifespan_shutdown.
  destruct (tts_instance w) eqn:Ht; cbn; (split; [reflexivity|]);
    unfold post_tts, bind, get_tts_instance; cbn; rewrite ?Ht; reflexivity.
Qed.

(** X7. The engine handle over the life of the service, whatever
    building the engine does to the files. The start-up never raises.
    When the constructor raises, the handle keeps the engine loaded
    earlier, if any, and [init_model] answers 500. When it returns, the
    new engine is reported with its device and is the engine a valid
    synthesis request runs on from then on. Either way the files are
    the ones the constructor left. After the shutdown a synthesis
    request is answered 503. *)
Theorem engine_life_cycle (w : World) (construct : Constructor)
    (request : TTSRequest.t) :
  TTSRequest.valid request = true ->
  let built := construct (engine_calls w) (fs w) in
  let w0 := (lifespan_startup construct w).2 in
  let w1 := (init_model construct w).2 in
  (lifespan_startup construct w).1 = inr tt
  /\ fs w0 = built.2 /\ fs w1 = built.2
  /\ match built.1 with
     | inl _ =>
         (* a failed load does not replace the engine *)
         tts_instance w0 = tts_instance w
         /\ tts_instance w1 = tts_instance w
         /\ (init_model construct w).1
            = inl (HTTPException 500 "模型初始化失败")
     | inr tts =>
         (* a successful load is what synthesis runs on from then on *)
         tts_instance w0 = Some tts
         /\ (init_model construct w).1
            = inr (JSONResponse (VDict [("message", VStr "模型初始化成功");
                                        ("device", VStr (device tts))]))
         /\ post_tts request w1 = text_to_speech request tts w1
     end
  (* after the shutdown every synthesis route answers 503 *)
  /\ (let w2 := (lifespan_shutdown w0).2 in
      (lifespan_shutdown w0).1 = inr tt
      /\ post_tts request w2
         = (inl (HTTPException 503 "TTS模型未初始化，请稍后重试"), w2)).
Proof.
  intros Hval built w0 w1. subst built w0 w1.
  unfold lifespan_startup, init_model, init_tts_model, bind, ret, raise.
  destruct (construct (engine_calls w) (fs w)) as [[e|tts] fs'] eqn:Hc; cbn.
  - repeat apply conj; try reflexivity;
      first [ apply (proj1 (shutdown_unloads _ request))
            | apply (proj2 (shutdown_unloads _ request)) ].
  - repeat apply conj; try reflexivity.
    unfold post_tts, bind, get_tts_instance. cbn. rewrite Hval. reflexivity.
Qed.

Lemma engine_life_cycle_witness :
  let w := Fixture.uninitialized in
  let construct : Constructor :=
    fun calls f => match calls with
                   | O => (inl (EngineError "out of memory"), f)
                   | S _ => (inr Fixture.engine, f)
                   end in
  let request := Fixture.request "hello" (Some "uploads/ref.wav") in
  let w' := (lifespan_startup construct w).2 in
  init_model construct w = (inl (HTTPException 500 "模型初始化失败"), w')
  /\ (init_model construct w').1
     = inr (JSONResponse (VDict [("message", VStr "模型初始化成功");
                                 ("device", VStr "cpu")]))
  /\ post_tts request (init_model construct w').2
     = text_to_speech request Fixture.engine (init_model construct w').2.
Proof.
  intros w construct request w'.
  split; [reflexivity|].
  destruct (engine_life_cycle w' construct request eq_refl)
    as (_ & _ & _ & (_ & Hrun & Hpost) & _).
  split; [exact Hrun | exact Hpost].
Defined.

(** ** Synthesis requests *)

(** The [except] clause shared by the recording handlers. *)
Lemma handler_raises {A} (body : Q -> M A) (msg : string) (w w1 : World) (e : exn) :
  body (clock w (clock_reads w)) (tick_clock w) = (inl e, w1) ->
  (start_time <- time_time ;;
   try_except (body start_time)
     (fun e =>
        end_time <- time_time ;;
        update_stats_m false (end_time - start_time) ;;;
        raise (HTTPException 500 (msg +:+ str_exn e)))) w
  = (inl (HTTPException 500 (msg +:+ str_exn e)),
     set_stats (update_stats false
                  (clock w1 (clock_reads w1) - clock w (clock_reads w))
                  (stats w1)) (tick_clock w1)).
Proof.
  intros Hb. rewrite (bind_ok time_time _ w _ _ eq_refl).
  rewrite (try_err _ _ _ _ _ Hb). reflexivity.
Qed.

Lemma handler_returns {A} (body : Q -> M A) (msg : string) (w w1 : World) (a : A) :
  body (clock w (clock_reads w)) (tick_clock w) = (inr a, w1) ->
  (start_time <- time_time ;;
   try_except (body start_time)
     (fun e =>
        end_time <- time_time ;;
        update_stats_m false (end_time - start_time) ;;;
        raise (HTTPException 500 (msg +:+ str_exn e)))) w
  = (inr a, w1).
Proof.
  intros Hb. rewrite (bind_ok time_time _ w _ _ eq_refl).
  rewrite (try_ok _ _ _ _ _ Hb). reflexivity.
Qed.

Lemma engine_idle_bind {A B} (m : M A) (k : A -> M B) :
  engine_idle m -> (forall a, engine_idle (k a)) -> engine_idle (bind m k).
Proof.
  intros Hm Hk w. unfold bind. destruct (Hm w) as (H1 & H2 & H3).
  destruct (m w) as [[e|a] w1]; simpl in *; [auto|].
  destruct (Hk a w1) as (K1 & K2 & K3). repeat split; congruence.
Qed.

Lemma engine_idle_ret {A} (a : A) : engine_idle (ret a).
Proof. intros w. auto. Qed.

Lemma engine_idle_raise {A} (e : exn) : engine_idle (@raise A e).
Proof. intros w. auto. Qed.

Lemma engine_idle_raise_if c e : engine_idle (raise_if c e).
Proof. destruct c; intros w; auto. Qed.

Lemma engine_idle_uuid4 : engine_idle uuid4.
Proof. intros w. auto. Qed.

Lemma engine_idle_os_path_exists s : engine_idle (os_path_exists s).
Proof. intros w. auto. Qed.

Lemma engine_idle_mkdir p : engine_idle (mkdir_exist_ok p).
Proof. intros w. unfold mkdir_exist_ok. repeat case_match; auto. Qed.

Lemma falsy_default (o : option string) : Py.truthy o = false -> default "" o = "".
Proof.
  destruct o as [s|]; [|reflexivity]. simpl. rewrite negb_false_iff.
  intros H. apply bool_decide_eq_true in H. exact H.
Qed.

Lemma os_path_exists_empty (w : World) : os_path_exists "" w = (inr false, w).
Proof. reflexivity. Qed.

Lemma prepare_idle (request : TTSRequest.t) :
  engine_idle
    (if negb (Py.truthy (TTSRequest.output_path request)) then
       let output_dir := Pathlib.of_str "outputs" in
       mkdir_exist_ok output_dir ;;;
       u <- uuid4 ;;
       ret (TTSRequest.set_output_path request
              (Pathlib.str (output_dir </> (u +:+ ".wav"))))
     else ret request).
Proof.
  destruct (negb _); [|apply engine_idle_ret]. cbv zeta.
  apply engine_idle_bind; [apply engine_idle_mkdir|]. intros _.
  apply engine_idle_bind; [apply engine_idle_uuid4|]. intros u.
  apply engine_idle_ret.
Qed.

Lemma prepare_keeps_prompt (request : TTSRequest.t) (w w1 : World) rq :
  (if negb (Py.truthy (TTSRequest.output_path request)) then
     let output_dir := Pathlib.of_str "outputs" in
     mkdir_exist_ok output_dir ;;;
     u <- uuid4 ;;
     ret (TTSRequest.set_output_path request
            (Pathlib.str (output_dir </> (u +:+ ".wav"))))
   else ret request) w = (inr rq, w1) ->
  TTSRequest.audio_prompt_path rq = TTSRequest.audio_prompt_path request.
Proof.
  destruct (negb _); cbv zeta; unfold bind, ret.
  - destruct (mkdir_exist_ok _ w) as [[e|[]] w2]; [discriminate|].
    unfold uuid4. intros H. injection H as <- _. reflexivity.
  - intros H. injection H as <- _. reflexivity.
Qed.

Lemma prepare_idle_fast (request : FastTTSRequest.t) :
  engine_idle
    (if negb (Py.truthy (FastTTSRequest.output_path request)) then
       let output_dir := Pathlib.of_str "outputs" in
       mkdir_exist_ok output_dir ;;;
       u <- uuid4 ;;
       ret (FastTTSRequest.set_output_path request
              (Pathlib.str (output_dir </> (u +:+ ".wav"))))
     else ret request).
Proof.
  destruct (negb _); [|apply engine_idle_ret]. cbv zeta.
  apply engine_idle_bind; [apply engine_idle_mkdir|]. intros _.
  apply engine_idle_bind; [apply engine_idle_uuid4|]. intros u.
  apply engine_idle_ret.
Qed.

Lemma prepare_keeps_prompt_fast (request : FastTTSRequest.t) (w w1 : World) rq :
  (if negb (Py.truthy (FastTTSRequest.output_path request)) then
     let output_dir := Pathlib.of_str "outputs" in
     mkdir_exist_ok output_dir ;;;
     u <- uuid4 ;;
     ret (FastTTSRequest.set_output_path request
            (Pathlib.str (output_dir </> (u +:+ ".wav"))))
   else ret request) w = (inr rq, w1) ->
  FastTTSRequest.audio_prompt_path rq = FastTTSRequest.audio_prompt_path request.
Proof.
  destruct (negb _); cbv zeta; unfold bind, ret.
  - destruct (mkdir_exist_ok _ w) as [[e|[]] w2]; [discriminate|].
    unfold uuid4. intros H. injection H as <- _. reflexivity.
  - intros H. injection H as <- _. reflexivity.
Qed.

Lemma update_stats_failed t s :
  failed_requests (update_stats false t s) = failed_requests s + 1
  /\ successful_requests (update_stats false t s) = successful_requests s.
Proof. split; reflexivity. Qed.

(** X8. A synthesis request without a reference audio ([None] or the
    empty string), standard or fast, never reaches the engine: in every
    world the engine's call counter is unchanged, the answer is an
    [HTTPException] of status 500 (the 400 raised inside the [try] block
    is caught by the handler's own [except Exception] clause), and the
    request is recorded as one failure. When the request names its
    output path the files are untouched and the detail is the wrapped
    400 message. *)
Theorem synthesis_without_reference (w : World) (tts : IndexTTS) :
  (forall request,
     Py.truthy (TTSRequest.audio_prompt_path request) = false ->
     let r := text_to_speech request tts w in
     (exists d, r.1 = inl (HTTPException 500 d))
     /\ engine_calls r.2 = engine_calls w
     /\ failed_requests (stats r.2) = failed_requests (stats w) + 1
     /\ successful_requests (stats r.2) = successful_requests (stats w)
     /\ (Py.truthy (TTSRequest.output_path request) = true ->
         r.1 = inl (HTTPException 500 "TTS推理失败: 400: 参考音频文件不存在")
         /\ fs r.2 = fs w))
  /\ (forall request,
     Py.truthy (FastTTSRequest.audio_prompt_path request) = false ->
     let r := text_to_speech_fast request tts w in
     (exists d, r.1 = inl (HTTPException 500 d))
     /\ engine_calls r.2 = engine_calls w
     /\ failed_requests (stats r.2) = failed_requests (stats w) + 1
     /\ successful_requests (stats r.2) = successful_requests (stats w)
     /\ (Py.truthy (FastTTSRequest.output_path request) = true ->
         r.1 = inl (HTTPException 500 "快速TTS推理失败: 400: 参考音频文件不存在")
         /\ fs r.2 = fs w)).
Proof.
  split.
  - intros request Hfalsy r. subst r. unfold text_to_speech.
    pose proof (prepare_idle request (tick_clock w)) as Hidle.
    match type of Hidle with
    | engine_calls (?prep _).2 = _ /\ _ =>
        destruct (prep (tick_clock w)) as [[e|rq] w1] eqn:Hprep
    end.
    + destruct Hidle as (Hi1 & Hi2 & _). simpl in Hi1, Hi2.
      erewrite handler_raises by (rewrite (bind_err _ _ _ _ _ Hprep); reflexivity).
      cbn [fst snd]. repeat apply conj.
      * eauto.
      * cbn. exact Hi1.
      * cbn [stats set_stats]. rewrite Hi2. reflexivity.
      * cbn [stats set_stats]. rewrite Hi2. reflexivity.
      * intros Hout. rewrite Hout in Hprep. discriminate Hprep.
    + destruct Hidle as (Hi1 & Hi2 & _). simpl in Hi1, Hi2.
      pose proof (prepare_keeps_prompt _ _ _ _ Hprep) as Hkeep.
      erewrite handler_raises.
      2:{ rewrite (bind_ok _ _ _ _ _ Hprep). cbv zeta.
          rewrite Hkeep, (falsy_default _ Hfalsy), Hfalsy.
          rewrite (bind_ok _ _ _ _ _ (os_path_exists_empty w1)). reflexivity. }
      cbn [fst snd]. repeat apply conj.
      * eauto.
      * cbn. exact Hi1.
      * cbn [stats set_stats]. rewrite Hi2. reflexivity.
      * cbn [stats set_stats]. rewrite Hi2. reflexivity.
      * intros Hout. rewrite Hout in Hprep. injection Hprep as _ <-.
        split; reflexivity.
  - intros request Hfalsy r. subst r. unfold text_to_speech_fast.
    pose proof (prepare_idle_fast request (tick_clock w)) as Hidle.
    match type of Hidle with
    | engine_calls (?prep _).2 = _ /\ _ =>
        destruct (prep (tick_clock w)) as [[e|rq] w1] eqn:Hprep
    end.
    + destruct Hidle as (Hi1 & Hi2 & _). simpl in Hi1, Hi2.
      erewrite handler_raises by (rewrite (bind_err _ _ _ _ _ Hprep); reflexivity).
      cbn [fst snd]. repeat apply conj.
      * eauto.
      * cbn. exact Hi1.
      * cbn [stats set_stats]. rewrite Hi2. reflexivity.
      * cbn [stats set_stats]. rewrite Hi2. reflexivity.
      * intros Hout. rewrite Hout in Hprep. discriminate Hprep.
    + destruct Hidle as (Hi1 & Hi2 & _). simpl in Hi1, Hi2.
      pose proof (prepare_keeps_prompt_fast _ _ _ _ Hprep) as Hkeep.
      erewrite handler_raises.
      2:{ rewrite (bind_ok _ _ _ _ _ Hprep). cbv zeta.
          rewrite Hkeep, (falsy_default _ Hfalsy), Hfalsy.
          rewrite (bind_ok _ _ _ _ _ (os_path_exists_empty w1)). reflexivity. }
      cbn [fst snd]. repeat apply conj.
      * eauto.
      * cbn. exact Hi1.
      * cbn [stats set_stats]. rewrite Hi2. reflexivity.
      * cbn [stats set_stats]. rewrite Hi2. reflexivity.
      * intros Hout. rewrite Hout in Hprep. injection Hprep as _ <-.
        split; reflexivity.
Qed.

(** The path the handlers build for a generated name under a directory
    of the working directory. *)
Lemma generated_path (d name : string) :
  name_ok d = true -> Py.contains "/" name = false -> hex_headed name ->
  Pathlib.str (Pathlib.of_str d </> name) = d +:+ "/" +:+ name.
Proof.
  intros Hd Hfree Hhead.
  destruct (of_str_single name Hfree Hhead) as (Hof & _).
  unfold Pathlib.truediv. rewrite Hof, (of_str_name d Hd). reflexivity.
Qed.

Lemma mkdir_existing (d : string) (w : World) :
  name_ok d = true ->
  Os.is_dir (fs w) (cwd w) = true ->
  Os.is_dir (fs w) (cwd w ++ [d]) = true ->
  mkdir_exist_ok (Pathlib.of_str d) w = (inr tt, w).
Proof.
  intros Hd Hcwd Hdir. rewrite (of_str_name d Hd).
  apply name_ok_spec in Hd as (_ & H1 & H2 & H3).
  unfold mkdir_exist_ok, Os.resolve. cbn [Pathlib.absolute Pathlib.parts].
  rewrite walk_child by assumption. cbn [Os.walk].
  apply is_dir_lookup in Hdir as [c ->]. reflexivity.
Qed.

Lemma text_to_speech_default_output (w : World) (tts : IndexTTS)
    (request : TTSRequest.t) (prompt : string) :
  TTSRequest.audio_prompt_path request = Some prompt ->
  Py.truthy (TTSRequest.output_path request) = false ->
  Os.is_dir (fs w) (cwd w) = true ->
  Os.is_dir (fs w) (cwd w ++ ["outputs"]) = true ->
  Os.exists_at (fs w) (Os.resolve_str (fs w) (cwd w) prompt) = true ->
  synthesis_answer w tts request prompt (text_to_speech request tts w).
Proof.
  intros Hprompt Hout Hcwd Hdir Hex. unfold synthesis_answer.
  set (r := text_to_speech request tts w). cbv zeta.
  set (out := "outputs/" +:+ Uuid.str (uuid_source w (uuid_reads w)) +:+ ".wav").
  set (call := infer tts (engine_calls w) prompt (TTSRequest.text request) out
                (TTSRequest.verbose request) (TTSRequest.params request) (fs w)).
  set (elapsed := (clock w (S (clock_reads w)) - clock w (clock_reads w))%Q).
  assert (Hne : prompt <> "").
  { intros ->. vm_compute in Hex. discriminate. }
  set (u := Uuid.str (uuid_source w (uuid_reads w))).
  assert (Hpath : Pathlib.str (Pathlib.of_str "outputs" </> (u +:+ ".wav")) = out).
  { apply (generated_path "outputs" (u +:+ ".wav")); [reflexivity| |].
    - rewrite contains_app. unfold u. rewrite uuid_str_free. reflexivity.
    - apply hex_headed_app, uuid_str_headed. }
  set (rq := TTSRequest.set_output_path request out).
  assert (Hprep :
            (if negb (Py.truthy (TTSRequest.output_path request)) then
               let output_dir := Pathlib.of_str "outputs" in
               mkdir_exist_ok output_dir ;;;
               u <- uuid4 ;;
               ret (TTSRequest.set_output_path request
                      (Pathlib.str (output_dir </> (u +:+ ".wav"))))
             else ret request) (tick_clock w)
            = (inr rq, tick_uuid (tick_clock w))).
  { rewrite Hout. cbn [negb]. cbv zeta.
    rewrite (bind_ok _ _ _ _ _
               (mkdir_existing "outputs" (tick_clock w) eq_refl Hcwd Hdir)).
    rewrite (bind_ok uuid4 _ (tick_clock w) _ _ eq_refl).
    cbn [tick_clock uuid_source uuid_reads]. fold u. rewrite Hpath. reflexivity. }
  set (w1 := tick_uuid (tick_clock w)) in *.
  assert (Hfound : os_path_exists prompt w1 = (inr true, w1)).
  { unfold os_path_exists. cbn [w1 tick_uuid tick_clock fs cwd]. rewrite Hex.
    reflexivity. }
  assert (Hcheck :
            raise_if (negb (Py.truthy (TTSRequest.audio_prompt_path rq)) || negb true)
              (HTTPException 400 "参考音频文件不存在") w1 = (inr tt, w1)).
  { cbn [rq TTSRequest.set_output_path TTSRequest.audio_prompt_path].
    rewrite Hprompt. cbn [Py.truthy]. rewrite (bool_decide_eq_false_2 _ Hne).
    reflexivity. }
  assert (Hrq : default "" (TTSRequest.audio_prompt_path rq) = prompt).
  { cbn [rq TTSRequest.set_output_path TTSRequest.audio_prompt_path].
    rewrite Hprompt. reflexivity. }
  assert (Hinfer :
            tts_infer tts prompt (TTSRequest.text rq)
              (default "" (TTSRequest.output_path rq))
              (TTSRequest.verbose rq) (TTSRequest.params rq) w1
            = (match call.1 with
               | Some msg => inl (EngineError msg)
               | None => inr tt
               end, set_fs call.2 (tick_engine w1))).
  { unfold tts_infer. fold call.
    change (infer tts (engine_calls w1) prompt (TTSRequest.text rq)
              (default "" (TTSRequest.output_path rq)) (TTSRequest.verbose rq)
              (TTSRequest.params rq) (fs w1)) with call.
    destruct call as [[msg|] f]; reflexivity. }
  subst r. unfold text_to_speech.
  destruct (fst call) as [msg|] eqn:Hcall.
  - erewrite handler_raises.
    2:{ rewrite (bind_ok _ _ _ _ _ Hprep). cbv zeta.
        rewrite Hrq. rewrite (bind_ok _ _ _ _ _ Hfound).
        rewrite (bind_ok _ _ _ _ _ Hcheck).
        apply bind_err. exact Hinfer. }
    cbn. repeat apply conj; reflexivity.
  - erewrite handler_returns.
    2:{ rewrite (bind_ok _ _ _ _ _ Hprep). cbv zeta.
        rewrite Hrq. rewrite (bind_ok _ _ _ _ _ Hfound).
        rewrite (bind_ok _ _ _ _ _ Hcheck).
        rewrite (bind_ok _ _ _ _ _ Hinfer). reflexivity. }
    cbn. repeat apply conj; reflexivity.
Qed.



(** ** From an upload to a synthesis *)

Lemma is_dir_insert_file (f : fsmap) (t q : list string) c b :
  Os.is_dir f t = false ->
  Os.is_dir f q = true -> Os.is_dir (<[t := Os.File c b]> f) q = true.
Proof.
  intros Ht Hq. destruct (decide (t = q)) as [->|Hne]; [congruence|].
  unfold Os.is_dir, Os.lookup_node in *. destruct q as [|x q]; [reflexivity|].
  rewrite lookup_insert_ne by exact Hne. exact Hq.
Qed.

(** An accepted upload of a storable name into an existing [uploads/]:
    the world it leaves. *)
Lemma upload_audio_runs (w : World) (file : UploadFile.t) :
  let name := Uuid.str (uuid_source w (uuid_reads w)) +:+ "_"
              +:+ UploadFile.filename file in
  let target := cwd w ++ ["uploads"; name] in
  Py.lower (Pathlib.suffix (Pathlib.of_str (UploadFile.filename file)))
    ∈ ConfigApi.allowed_audio_formats (config w) ->
  declared_oversize (config w) file = false ->
  Py.contains "/" (UploadFile.filename file) = false ->
  storable_name name = true ->
  Os.is_dir (fs w) (cwd w) = true ->
  Os.is_dir (fs w) (cwd w ++ ["uploads"]) = true ->
  Os.is_dir (fs w) target = false ->
  exists w',
    upload_audio file w
    = (inr (JSONResponse (VDict [
              ("success", VBool true);
              ("file_path", VStr ("uploads/" +:+ name));
              ("filename", VStr (UploadFile.filename file));
              ("file_size", VInt (Z.of_nat (length (UploadFile.body file))));
              ("message", VStr "音频文件上传成功")])), w')
    /\ fs w' = <[target := Os.File (clock w (S (clock_reads w))) (UploadFile.body file)]> (fs w)
    /\ cwd w' = cwd w
    /\ engine_calls w' = engine_calls w
    /\ tts_instance w' = tts_instance w
    /\ config w' = config w
    /\ uuid_source w' = uuid_source w
    /\ uuid_reads w' = S (uuid_reads w).
Proof.
  intros name target Hext Hsz Hfree Hst Hcwd Hup Htarget.
  assert (Hname : Py.contains "/" name = false).
  { unfold name. rewrite !contains_app, uuid_str_free, Hfree. reflexivity. }
  assert (Hhead : hex_headed name).
  { unfold name. apply hex_headed_app, uuid_str_headed. }
  destruct (of_str_single name Hname Hhead) as (Hof & Hn1 & Hn2 & Hn3).
  assert (Hpath : Pathlib.str (Pathlib.of_str "uploads" </> name) = "uploads/" +:+ name).
  { apply (generated_path "uploads" name); [reflexivity|assumption..]. }
  set (w1 := tick_uuid (tick_clock w)).
  destruct (resolve_create_upload (fs w1) (cwd w1) name Hof Hn1 Hn2 Hn3 Hst Hcwd Hup)
    as [Hnul Hres].
  assert (Hwr : write_bytes (Pathlib.of_str "uploads" </> name) (UploadFile.body file) w1
                = (inr tt,
                   set_fs (<[target := Os.File (clock w (S (clock_reads w)))
                                        (UploadFile.body file)]> (fs w))
                     (tick_clock w1))).
  { unfold write_bytes. rewrite Hnul, Hres.
    cbn [w1 tick_uuid tick_clock fs cwd clock clock_reads]. fold target.
    unfold Os.is_dir in Htarget.
    destruct (Os.lookup_node (fs w) target) as [[c b|c]|]; try discriminate; reflexivity. }
  eexists. split.
  - unfold upload_audio. apply handler_returns.
    rewrite (bind_ok read_config _ _ _ _ eq_refl).
    cbn [tick_clock config]. cbv zeta.
    rewrite (bool_decide_eq_true_2 _ Hext). cbn [negb raise_if].
    rewrite (bind_ok (ret tt) _ _ _ _ eq_refl).
    fold (declared_oversize (config w) file). rewrite Hsz. cbn [raise_if].
    rewrite (bind_ok (ret tt) _ _ _ _ eq_refl).
    rewrite (bind_ok _ _ _ _ _
               (mkdir_existing "uploads" (tick_clock w) eq_refl Hcwd Hup)).
    rewrite (bind_ok uuid4 _ (tick_clock w) _ _ eq_refl).
    cbn [tick_clock uuid_source uuid_reads]. fold name. fold w1.
    change (tick_uuid _) with w1.
    rewrite (bind_ok _ _ _ _ _ Hwr). rewrite Hpath. reflexivity.
  - cbn. repeat apply conj; reflexivity.
Qed.

(** X10. What an upload returns can be used as it is. Take an accepted
    upload whose file name has no separator and whose stored name
    [<uuid4>_<filename>] the system can store (no NUL, at most 255
    bytes), in a working directory where [uploads/] and [outputs/] are
    directories and the stored name is not one. It answers with the
    [file_path] [uploads/<uuid4>_<filename>]; a synthesis request that
    names this path as its reference audio and leaves its output path
    to the service passes the reference check in the world the upload
    left, and the engine is called on that very path. *)
Theorem uploaded_file_serves_as_reference (w : World) (file : UploadFile.t)
    (tts : IndexTTS) (request : TTSRequest.t) :
  let name := Uuid.str (uuid_source w (uuid_reads w)) +:+ "_"
              +:+ UploadFile.filename file in
  let path := "uploads/" +:+ name in
  Py.lower (Pathlib.suffix (Pathlib.of_str (UploadFile.filename file)))
    ∈ ConfigApi.allowed_audio_formats (config w) ->
  declared_oversize (config w) file = false ->
  Py.contains "/" (UploadFile.filename file) = false ->
  storable_name name = true ->
  Os.is_dir (fs w) (cwd w) = true ->
  Os.is_dir (fs w) (cwd w ++ ["uploads"]) = true ->
  Os.is_dir (fs w) (cwd w ++ ["outputs"]) = true ->
  Os.is_dir (fs w) (cwd w ++ ["uploads"; name]) = false ->
  TTSRequest.audio_prompt_path request = Some path ->
  Py.truthy (TTSRequest.output_path request) = false ->
  exists body w',
    upload_audio file w = (inr (JSONResponse body), w')
    /\ get_key "file_path" body = Some (VStr path)
    /\ synthesis_answer w' tts request path (text_to_speech request tts w').
Proof.
  intros name path Hext Hsz Hfree Hst Hcwd Hup Hout Htarget Hprompt Hnoout.
  destruct (upload_audio_runs w file Hext Hsz Hfree Hst Hcwd Hup Htarget)
    as (w' & Hrun & Hfs & Hcwd' & _).
  fold name in Hrun, Hfs.
  eexists _, w'. split; [exact Hrun|].
  split; [reflexivity|].
  assert (Hname : Py.contains "/" name = false).
  { unfold name. rewrite !contains_app, uuid_str_free, Hfree. reflexivity. }
  assert (Hhead : hex_headed name).
  { unfold name. apply hex_headed_app, uuid_str_headed. }
  destruct (of_str_single name Hname Hhead) as (Hof & Hn1 & Hn2 & Hn3).
  assert (Hcwd1 : Os.is_dir (fs w') (cwd w') = true).
  { rewrite Hfs, Hcwd'. apply is_dir_insert_file; assumption. }
  assert (Hup1 : Os.is_dir (fs w') (cwd w' ++ ["uploads"]) = true).
  { rewrite Hfs, Hcwd'. apply is_dir_insert_file; assumption. }
  apply text_to_speech_default_output; try assumption.
  - rewrite Hfs, Hcwd'. apply is_dir_insert_file; assumption.
  - assert (Hstr : Pathlib.str (Pathlib.of_str "uploads" </> name) = path).
    { apply (generated_path "uploads" name); [reflexivity|assumption..]. }
    rewrite <- Hstr.
    assert (Hshape : Forall part_ok (Pathlib.parts (Pathlib.of_str "uploads" </> name))
                     /\ (Pathlib.absolute (Pathlib.of_str "uploads" </> name) = true
                         \/ Pathlib.parts (Pathlib.of_str "uploads" </> name) <> [])).
    { split.
      - apply truediv_parts_ok, of_str_parts_ok.
      - right. unfold Pathlib.truediv. rewrite Hof. discriminate. }
    destruct Hshape as [Hok Hne].
    rewrite resolve_str_of_path by assumption.
    unfold Pathlib.truediv. rewrite Hof. cbn [Pathlib.absolute Pathlib.parts].
    unfold Os.resolve. cbn [Pathlib.absolute Pathlib.parts].
    change (Pathlib.parts (Pathlib.of_str "uploads") ++ [name]) with ["uploads"; name].
    rewrite walk_child by (assumption || discriminate).
    rewrite walk_child by assumption.
    cbn [Os.walk Os.exists_at].
    rewrite lookup_node_snoc, <- (assoc_L (++)). cbn [app].
    rewrite Hfs, Hcwd', lookup_insert_eq. apply bool_decide_eq_true_2. eauto.
Qed.

(** The first upload on the fixture, then a request on what it returned. *)
Lemma uploaded_file_serves_as_reference_witness :
  let w := Fixture.ready in
  let file := UploadFile.mk "voice.wav" None [Byte.x68; Byte.x69] in
  let path := "uploads/" +:+ Uuid.str 0 +:+ "_voice.wav" in
  let request := Fixture.request "hello" (Some path) in
  exists body w',
    upload_audio file w = (inr (JSONResponse body), w')
    /\ get_key "file_path" body = Some (VStr path)
    /\ synthesis_answer w' Fixture.engine request path
         (text_to_speech request Fixture.engine w').
Proof.
  intros w file path request.
  apply (uploaded_file_serves_as_reference w file Fixture.engine request).
  - vm_compute. constructor.
  - reflexivity.
  - reflexivity.
  - vm_compute. reflexivity.
  - vm_compute. reflexivity.
  - vm_compute. reflexivity.
  - vm_compute. reflexivity.
  - vm_compute. reflexivity.
  - reflexivity.
  - reflexivity.
Defined.

(** ** Uploads stay inside [uploads/] *)

Lemma hex_headed_proper (s : string) :
  hex_headed s -> s <> "" /\ s <> "." /\ s <> "..".
Proof.
  intros (c & rest & -> & Hc).
  assert (Hdot : c <> "."%char).
  { intros ->. vm_compute in Hc. discriminate. }
  repeat split; congruence.
Qed.

Lemma split_headed (s : string) :
  hex_headed s ->
  exists first others, Py.split "/" s = first :: others /\ hex_headed first.
Proof.
  intros (c & rest & -> & Hc).
  assert (Hsl : c <> "/"%char).
  { intros ->. vm_compute in Hc. discriminate. }
  simpl. destruct (decide (c = "/"%char)) as [E|_]; [contradiction|].
  destruct (Py.split "/" rest) as [|x xs].
  - exists (String c ""), []. split; [reflexivity|]. exists c, "". auto.
  - exists (String c x), xs. split; [reflexivity|]. exists c, x. auto.
Qed.

(** The path an upload is stored under: relative, and at least two
    components long, the second one a proper name. *)
Lemma upload_path_parts (u filename : string) :
  hex_headed u ->
  exists c1 rest,
    Pathlib.of_str "uploads" </> (u +:+ "_" +:+ filename)
    = Pathlib.mkPath false ("uploads" :: c1 :: rest)
    /\ c1 <> "" /\ c1 <> "." /\ c1 <> "..".
Proof.
  intros Hu.
  assert (Hhead : hex_headed (u +:+ "_" +:+ filename)) by (apply hex_headed_app, Hu).
  destruct (split_headed _ Hhead) as (first & others & Hsplit & Hfirst).
  destruct (hex_headed_proper _ Hfirst) as (H1 & H2 & H3).
  exists first, (List.filter Pathlib.keep_part others).
  split; [|auto].
  assert (Hof : Pathlib.of_str (u +:+ "_" +:+ filename)
                = Pathlib.mkPath false (first :: List.filter Pathlib.keep_part others)).
  { unfold Pathlib.of_str. rewrite Hsplit. f_equal.
    - destruct Hhead as (c & tail & -> & Hc). simpl.
      apply bool_decide_eq_false_2. intros ->. vm_compute in Hc. discriminate.
    - cbn [List.filter]. unfold Pathlib.keep_part at 1.
      rewrite (bool_decide_eq_false_2 _ H1), (bool_decide_eq_false_2 _ H2).
      reflexivity. }
  unfold Pathlib.truediv. rewrite Hof. reflexivity.
Qed.

Lemma walk_create_confined (f : fsmap) (cur : list string) (d c1 : string)
    (rest t : list string) :
  d <> "" -> d <> "." -> d <> ".." ->
  c1 <> "" -> c1 <> "." -> c1 <> ".." ->
  Os.is_dir f (cur ++ [d; c1]) = false ->
  Os.walk_create f cur (d :: c1 :: rest) = inr t ->
  t = cur ++ [d; c1].
Proof.
  intros Hd1 Hd2 Hd3 Hc1 Hc2 Hc3 Hnodir Hwalk.
  simpl in Hwalk.
  destruct (Os.lookup_node f cur) as [[?|?]|]; try discriminate.
  rewrite (bool_decide_eq_false_2 _ Hd1), (bool_decide_eq_false_2 _ Hd2),
    (bool_decide_eq_false_2 _ Hd3) in Hwalk. simpl in Hwalk.
  destruct (bool_decide (Os.NAME_MAX < Os.encoded_length d)%nat); [discriminate|].
  destruct (Os.lookup_node f (cur ++ [d])) as [[?|?]|]; try discriminate.
  rewrite (bool_decide_eq_false_2 _ Hc1), (bool_decide_eq_false_2 _ Hc2),
    (bool_decide_eq_false_2 _ Hc3) in Hwalk. simpl in Hwalk.
  destruct (bool_decide (Os.NAME_MAX < Os.encoded_length c1)%nat); [discriminate|].
  rewrite <- (assoc_L (++)) in Hwalk. cbn [app] in Hwalk.
  destruct rest as [|s rest]; simpl in Hwalk; [congruence|].
  unfold Os.is_dir in Hnodir.
  destruct (Os.lookup_node f (cur ++ [d; c1])) as [[?|?]|]; discriminate.
Qed.

Lemma walk_one (f : fsmap) (cur : list string) (d : string) (t : list string) :
  d <> "" -> d <> "." -> d <> ".." ->
  Os.walk f cur [d] = inr t -> t = cur ++ [d].
Proof.
  intros Hd1 Hd2 Hd3 Hwalk. simpl in Hwalk.
  destruct (Os.lookup_node f cur) as [[?|?]|]; try discriminate.
  rewrite (bool_decide_eq_false_2 _ Hd1), (bool_decide_eq_false_2 _ Hd2),
    (bool_decide_eq_false_2 _ Hd3) in Hwalk. simpl in Hwalk. congruence.
Qed.

Lemma snoc_outputs_gen {A} (l : list A) (x y : A) :
  (l ++ [x]) ++ [y] = l ++ [x; y].
Proof. rewrite <- (assoc_L (++)). reflexivity. Qed.

(** What [mkdir(exist_ok=True)] of [uploads] may change. *)
Lemma mkdir_uploads_frame (w : World) :
  let r := mkdir_exist_ok (Pathlib.of_str "uploads") w in
  cwd r.2 = cwd w /\ uuid_source r.2 = uuid_source w /\ uuid_reads r.2 = uuid_reads w
  /\ forall p, p <> cwd w ++ ["uploads"] -> fs r.2 !! p = fs w !! p.
Proof.
  unfold mkdir_exist_ok, Os.resolve.
  change (Pathlib.of_str "uploads") with (Pathlib.mkPath false ["uploads"]).
  cbn [Pathlib.absolute Pathlib.parts].
  destruct (Os.walk (fs w) (cwd w) ["uploads"]) as [e|t] eqn:Hwalk; [cbn; auto|].
  apply walk_one in Hwalk; try discriminate. subst t.
  destruct (Os.lookup_node (fs w) (cwd w ++ ["uploads"])) as [[?|?]|]; cbn; auto.
  repeat split; try reflexivity.
  intros p Hp. rewrite lookup_insert_ne by congruence. reflexivity.
Qed.

(** The [except] clause of a recording handler leaves the files alone. *)
Lemma handler_fs {A} (body : Q -> M A) (msg : string) (w : World) :
  fs ((start_time <- time_time ;;
       try_except (body start_time)
         (fun e =>
            end_time <- time_time ;;
            update_stats_m false (end_time - start_time) ;;;
            raise (HTTPException 500 (msg +:+ str_exn e)))) w).2
  = fs (body (clock w (clock_reads w)) (tick_clock w)).2.
Proof.
  rewrite (bind_ok time_time _ w _ _ eq_refl). unfold try_except.
  destruct (body (clock w (clock_reads w)) (tick_clock w)) as [[e|a] w1]; reflexivity.
Qed.

Lemma holds_files_flat (f : fsmap) (d : list string) :
  holds_files f d pat_any = true ->
  forall m, Os.is_dir f (d ++ [m]) = false.
Proof.
  intros H m. unfold Os.is_dir. rewrite lookup_node_snoc.
  destruct (f !! (d ++ [m])) as [node|] eqn:E; [|reflexivity].
  destruct (holds_files_entry _ _ _ _ _ H E eq_refl) as (c & b & ->). reflexivity.
Qed.

(** X11. An upload cannot leave [uploads/]. When the entries of
    [uploads/] are regular files, whatever the file name of the upload
    is (separators and [..] components included) and whether the upload
    is accepted or fails, the only paths whose entry may differ
    afterwards are [uploads] itself, which may have been created, and
    one entry directly inside it. *)
Theorem upload_confined (w : World) (file : UploadFile.t) (p : list string) :
  holds_files (fs w) (cwd w ++ ["uploads"]) pat_any = true ->
  fs (upload_audio file w).2 !! p <> fs w !! p ->
  p = cwd w ++ ["uploads"] \/ exists m, p = cwd w ++ ["uploads"; m].
Proof.
  intros Hfiles Hdiff.
  assert (Hflat : forall m, Os.is_dir (fs w) (cwd w ++ ["uploads"; m]) = false).
  { intros m. rewrite <- snoc_outputs_gen. apply holds_files_flat, Hfiles. }
  unfold upload_audio in Hdiff. rewrite handler_fs in Hdiff.
  rewrite (bind_ok read_config _ _ _ _ eq_refl) in Hdiff. cbv zeta in Hdiff.
  match type of Hdiff with
  | context [raise_if ?c ?e] => destruct c
  end.
  { exfalso. apply Hdiff. reflexivity. }
  rewrite (bind_ok (raise_if false _) _ _ tt _ eq_refl) in Hdiff.
  match type of Hdiff with
  | context [raise_if ?c ?e] => destruct c
  end.
  { exfalso. apply Hdiff. reflexivity. }
  rewrite (bind_ok (raise_if false _) _ _ tt _ eq_refl) in Hdiff.
  pose proof (mkdir_uploads_frame (tick_clock w)) as Hmk. cbv zeta in Hmk.
  destruct (mkdir_exist_ok (Pathlib.of_str "uploads") (tick_clock w))
    as [[e|[]] w1] eqn:Emk.
  { rewrite (bind_err _ _ _ _ _ Emk) in Hdiff. cbn [snd] in *.
    destruct Hmk as (_ & _ & _ & Hfr).
    destruct (decide (p = cwd w ++ ["uploads"])) as [->|Hne]; [left; reflexivity|].
    exfalso. apply Hdiff. apply (Hfr p Hne). }
  rewrite (bind_ok _ _ _ _ _ Emk) in Hdiff. cbn [snd] in Hmk.
  destruct Hmk as (Hcwd & Hus & Hur & Hfr). cbn [tick_clock cwd uuid_source uuid_reads fs] in *.
  rewrite (bind_ok uuid4 _ w1 _ _ eq_refl) in Hdiff.
  set (u := Uuid.str (uuid_source w1 (uuid_reads w1))) in *.
  destruct (upload_path_parts u (UploadFile.filename file) (uuid_str_headed _))
    as (c1 & rest & Hpath & Hc1 & Hc2 & Hc3).
  destruct (decide (p = cwd w ++ ["uploads"])) as [->|Hne]; [left; reflexivity|].
  destruct (decide (p = cwd w ++ ["uploads"; c1])) as [->|Hne2]; [right; eauto|].
  exfalso. apply Hdiff. rewrite <- (Hfr p Hne).
  assert (Hnodir : Os.is_dir (fs w1) (cwd w ++ ["uploads"; c1]) = false).
  { etransitivity; [|exact (Hflat c1)]. unfold Os.is_dir.
    change ["uploads"; c1] with (["uploads"] ++ [c1]).
    rewrite (assoc_L (++)), !lookup_node_snoc. rewrite Hfr; [reflexivity|].
    rewrite <- (assoc_L (++)). apply app_snoc_ne. }
  unfold bind at 1.
  match goal with
  | |- context [write_bytes ?fp ?c ?w2] =>
      assert (Hwr : fs (write_bytes fp c w2).2 !! p = fs w1 !! p
                    /\ forall a w3, write_bytes fp c w2 = (inr a, w3) ->
                                    fs w3 !! p = fs w1 !! p)
  end.
  { unfold write_bytes. rewrite Hpath.
    destruct (Py.contains "000" _).
    { split; [reflexivity|]. intros a w3 H. discriminate. }
    unfold Os.resolve_create.
    destruct (bool_decide (Os.PATH_MAX <= _)%nat).
    { split; [reflexivity|]. intros a w3 H. discriminate. }
    cbn [Pathlib.absolute Pathlib.parts tick_uuid fs cwd]. rewrite Hcwd.
    destruct (Os.walk_create (fs w1) (cwd w) ("uploads" :: c1 :: rest))
      as [e|t] eqn:Hwalk.
    { split; [reflexivity|]. intros a w3 H. discriminate. }
    apply walk_create_confined in Hwalk; try assumption; try discriminate. subst t.
    destruct (Os.lookup_node (fs w1) (cwd w ++ ["uploads"; c1])) as [[?|?]|].
    - split; [cbn; apply lookup_insert_ne; congruence|].
      intros a w3 H. injection H as _ <-. cbn. apply lookup_insert_ne. congruence.
    - split; [reflexivity|]. intros a w3 H. discriminate.
    - split; [cbn; apply lookup_insert_ne; congruence|].
      intros a w3 H. injection H as _ <-. cbn. apply lookup_insert_ne. congruence. }
  destruct Hwr as [Hwr1 Hwr2].
  match goal with
  | |- context [write_bytes ?fp ?c ?w2] =>
      destruct (write_bytes fp c w2) as [[e|a] w3] eqn:Ewr
  end.
  - exact Hwr1.
  - cbn. apply (Hwr2 a w3 eq_refl).
Qed.

(** A stored upload on the fixture: the entry that appears. *)
Lemma upload_confined_witness :
  let w := Fixture.ready in
  let file := UploadFile.mk "voice.wav" None [Byte.x68; Byte.x69] in
  let p := ["srv"; "uploads"; Uuid.str 0 +:+ "_voice.wav"] in
  p = cwd w ++ ["uploads"] \/ exists m, p = cwd w ++ ["uploads"; m].
Proof.
  intros w file p. apply (upload_confined w file p).
  - vm_compute. reflexivity.
  - vm_compute. discriminate.
Defined.

(** ** Batches whose items name no reference audio *)

Lemma batch_item_no_reference tts dir i rq acc w :
  Py.truthy (TTSRequest.audio_prompt_path rq) = false ->
  exists w',
    batch_item tts dir (i, rq) acc w = (inr (acc ++ [no_reference_entry i]), w')
    /\ engine_calls w' = engine_calls w.
Proof.
  intros Hfalsy. unfold batch_item.
  destruct (negb (Py.truthy (TTSRequest.output_path rq))).
  - rewrite (bind_ok (bind uuid4 _) _ w _ (tick_uuid w) eq_refl).
    cbn [TTSRequest.set_output_path TTSRequest.audio_prompt_path].
    rewrite (falsy_default _ Hfalsy), Hfalsy.
    rewrite (bind_ok _ _ _ _ _ (os_path_exists_empty (tick_uuid w))).
    eexists. split; reflexivity.
  - rewrite (bind_ok (ret _) _ w _ w eq_refl).
    rewrite (falsy_default _ Hfalsy), Hfalsy.
    rewrite (bind_ok _ _ _ _ _ (os_path_exists_empty w)).
    eexists. split; reflexivity.
Qed.

Lemma batch_loop_no_reference tts dir (items : list (nat * TTSRequest.t)) :
  forall acc w,
    Forall (fun it => Py.truthy (TTSRequest.audio_prompt_path it.2) = false) items ->
    exists w',
      for_each items (batch_item tts dir) acc w
      = (inr (acc ++ ((fun it => no_reference_entry it.1) <$> items)), w')
      /\ engine_calls w' = engine_calls w.
Proof.
  induction items as [|[i rq] items IH]; intros acc w Hall.
  - exists w. rewrite app_nil_r. split; reflexivity.
  - inversion Hall as [|? ? Hrq Hrest]; subst.
    destruct (batch_item_no_reference tts dir i rq acc w Hrq) as (w1 & Hit & He1).
    destruct (IH (acc ++ [no_reference_entry i]) w1 Hrest) as (w' & Hrun & He2).
    exists w'. split; [|congruence].
    cbn [for_each]. rewrite (bind_ok _ _ _ _ _ Hit), Hrun.
    rewrite <- (assoc_L (++)). reflexivity.
Qed.

Lemma enumerate_snd_Forall {A} (P : A -> Prop) (l : list A) :
  Forall P l -> Forall (fun it => P it.2) (enumerate l).
Proof.
  intros H. unfold enumerate. apply Forall_forall. intros [i x] Hin.
  apply elem_of_zip_r in Hin. rewrite Forall_forall in H. apply H, Hin.
Qed.

(** X12. A batch whose items name no reference audio is still a
    success: where [outputs/] exists or can be created, the answer is
    returned (status 200) with [success] true and one failure entry per
    item, each carrying its index and the missing-reference message; the
    engine is never called; and the batch is recorded as one successful
    request, not as a failure. *)
Theorem batch_without_references (w : World) (tts : IndexTTS)
    (request : BatchTTSRequest.t) :
  let requests := BatchTTSRequest.requests request in
  Forall (fun rq => Py.truthy (TTSRequest.audio_prompt_path rq) = false) requests ->
  Os.is_dir (fs w) (cwd w) = true ->
  Os.is_file (fs w) (cwd w ++ ["outputs"]) = false ->
  let r := batch_text_to_speech request tts w in
  r.1 = inr (JSONResponse (VDict [
          ("success", VBool true);
          ("total_requests", VInt (Z.of_nat (length requests)));
          ("results", VList ((fun it => no_reference_entry it.1) <$> enumerate requests));
          ("message", VStr "批量TTS处理完成")]))
  /\ engine_calls r.2 = engine_calls w
  /\ successful_requests (stats r.2) = successful_requests (stats w) + 1
  /\ failed_requests (stats r.2) = failed_requests (stats w).
Proof.
  intros requests Hall Hcwd Hfile r.
  destruct (mkdir_child "outputs" (tick_clock w)) as (w1 & Hmk & _ & _ & _ & _ & _ & _ & _ & _ & _ & He1);
    [reflexivity | discriminate.. | assumption | assumption |].
  destruct (batch_loop_no_reference tts (Pathlib.of_str "outputs") (enumerate requests)
              [] w1 (enumerate_snd_Forall _ _ Hall)) as (w2 & Hloop & He2).
  assert (Hrun : r = (inr (JSONResponse (VDict [
          ("success", VBool true);
          ("total_requests", VInt (Z.of_nat (length requests)));
          ("results", VList ((fun it => no_reference_entry it.1) <$> enumerate requests));
          ("message", VStr "批量TTS处理完成")])),
          set_stats (update_stats true
                       (clock w2 (clock_reads w2) - clock w (clock_reads w)) (stats w2))
            (tick_clock w2))).
  { subst r. unfold batch_text_to_speech. apply handler_returns. cbv zeta.
    rewrite (bind_ok _ _ _ _ _ Hmk). fold requests.
    rewrite (bind_ok _ _ _ _ _ Hloop). reflexivity. }
  destruct (batch_text_to_speech_records_once request tts w) as [Hk _].
  fold r in Hk. rewrite Hk. rewrite Hrun. cbn [fst snd returned].
  repeat apply conj; try reflexivity.
  cbn. rewrite He2, He1. reflexivity.
Qed.

Lemma batch_without_references_witness :
  let w := Fixture.ready in
  let request := BatchTTSRequest.mk
                   [Fixture.request "first" None; Fixture.request "second" (Some "")] in
  let r := batch_text_to_speech request Fixture.engine w in
  r.1 = inr (JSONResponse (VDict [
          ("success", VBool true);
          ("total_requests", VInt 2);
          ("results", VList [no_reference_entry 0; no_reference_entry 1]);
          ("message", VStr "批量TTS处理完成")]))
  /\ engine_calls r.2 = engine_calls w
  /\ successful_requests (stats r.2) = successful_requests (stats w) + 1
  /\ failed_requests (stats r.2) = failed_requests (stats w).
Proof.
  intros w request.
  apply (batch_without_references w Fixture.engine request).
  - repeat constructor.
  - vm_compute. reflexivity.
  - vm_compute. reflexivity.
Defined.

(** ** The health probe *)

(** X13. The health probe does not look at the engine before answering:
    with [psutil] present it returns (status 200) with [status]
    ["healthy"] whether or not a model is loaded, reports [model_loaded]
    and the device accordingly (["unknown"] without an engine, while a
    synthesis request in the same world is answered 503), gives the
    rounded time since the collector was created, and changes neither
    the collector nor the files. With [psutil] absent the import at the
    head of the handler raises before the [try] block is entered, so the
    probe is answered 500 and the world is untouched. *)
Theorem health_check_reports (w : World) (request : TTSRequest.t) :
  (forall rss vms percent,
     let r := health_check (PsutilMemory rss vms percent) w in
     exists body,
       r.1 = inr (JSONResponse body)
       /\ get_key "status" body = Some (VStr "healthy")
       /\ get_key "model_loaded" body
          = Some (VBool (bool_decide (is_Some (tts_instance w))))
       /\ get_key "uptime" body
          = Some (VFloat (Py.round2 (clock w (clock_reads w) - start_time (stats w))))
       /\ get_key "memory_usage" body
          = Some (VDict [("rss", VInt rss); ("vms", VInt vms);
                         ("percent", VFloat percent)])
       /\ (tts_instance w = None ->
           get_key "device" body = Some (VStr "unknown")
           /\ status_of (post_tts request w).1 = 503)
       /\ (forall tts, tts_instance w = Some tts ->
                       get_key "device" body = Some (VStr (device tts)))
       /\ stats r.2 = stats w /\ fs r.2 = fs w)
  /\ status_of (health_check PsutilMissing w).1 = 500
  /\ (health_check PsutilMissing w).2 = w.
Proof.
  split; [|split; reflexivity].
  intros rss vms percent r. eexists. split; [reflexivity|].
  repeat apply conj; try reflexivity.
  - intros Hnone. unfold post_tts, bind, get_tts_instance. cbn.
    rewrite Hnone. split; reflexivity.
  - intros tts Htts. cbn. rewrite Htts. reflexivity.
Qed.

(** ** The launch scripts *)

Lemma probe_spec (refused : Z -> bool) (attempts : nat) :
  forall port,
    0 <= port -> port + Z.of_nat attempts <= 65536 ->
    match RunApi.probe refused port attempts with
    | inr (Some p) => p < port + Z.of_nat attempts /\ first_free refused port p
    | inr None => forall q, port <= q < port + Z.of_nat attempts -> refused q = true
    | inl _ => False
    end.
Proof.
  induction attempts as [|n IH]; intros port Hlo Hhi.
  - simpl. intros q Hq. lia.
  - cbn [RunApi.probe]. unfold socket_bind.
    rewrite bool_decide_eq_true_2 by lia.
    destruct (refused port) eqn:Hp.
    + specialize (IH (port + 1) ltac:(lia) ltac:(lia)).
      destruct (RunApi.probe refused (port + 1) n) as [e|[p|]].
      * exact IH.
      * destruct IH as (Hlt & Hge & Hfree & Hbelow).
        split; [lia|]. split; [lia|]. split; [exact Hfree|].
        intros q Hq. destruct (decide (q = port)) as [->|Hne]; [exact Hp|].
        apply Hbelow. lia.
      * intros q Hq. destruct (decide (q = port)) as [->|Hne]; [exact Hp|].
        apply IH. lia.
    + split; [lia|]. split; [lia|]. split; [exact Hp|]. intros q Hq. lia.
Qed.

(** X14. [find_available_port] of [run_api.py] returns the first port
    that can be bound. For a range inside 0..65535 it never raises; when
    it returns a port, that port lies in
    [start_port .. start_port + max_attempts - 1], its binding is
    accepted, and the binding of every earlier port of the range is
    refused; it returns [None] exactly when every port of the range is
    refused. *)
Theorem find_available_port_least (refused : Z -> bool) (start_port max_attempts : Z) :
  0 <= start_port ->
  start_port + max_attempts <= 65536 ->
  match RunApi.find_available_port refused start_port max_attempts with
  | inr (Some p) =>
      start_port <= p < start_port + max_attempts
      /\ refused p = false
      /\ forall q, start_port <= q < p -> refused q = true
  | inr None =>
      forall q, start_port <= q < start_port + max_attempts -> refused q = true
  | inl _ => False
  end.
Proof.
  intros Hlo Hhi. unfold RunApi.find_available_port.
  destruct (Z_le_gt_dec max_attempts 0) as [Hneg|Hpos].
  { replace (Z.to_nat max_attempts) with 0%nat by lia. simpl. intros q Hq. lia. }
  pose proof (probe_spec refused (Z.to_nat max_attempts) start_port Hlo ltac:(lia)) as H.
  destruct (RunApi.probe refused start_port (Z.to_nat max_attempts)) as [e|[p|]].
  - exact H.
  - destruct H as (Hlt & Hge & Hfree & Hbelow).
    repeat split; try assumption. lia.
  - intros q Hq. apply H. lia.
Qed.

Lemma find_available_port_least_witness :
  let refused := fun p => bool_decide (p = 8000 \/ p = 8001) in
  match RunApi.find_available_port refused 8000 10 with
  | inr (Some p) =>
      8000 <= p < 8000 + 10
      /\ refused p = false
      /\ forall q, 8000 <= q < p -> refused q = true
  | inr None => forall q, 8000 <= q < 8000 + 10 -> refused q = true
  | inl _ => False
  end.
Proof.
  intros refused. apply (find_available_port_least refused 8000 10); lia.
Defined.

Lemma probe_agree (refused : Z -> bool) (attempts : nat) :
  forall port, StartApi.probe refused port attempts = RunApi.probe refused port attempts.
Proof.
  induction attempts as [|n IH]; intros port; [reflexivity|].
  cbn [StartApi.probe RunApi.probe]. unfold StartApi.check_port_available.
  destruct (socket_bind refused port) as [[|]|[]]; try reflexivity. apply IH.
Qed.

(** X15. The two launchers agree: [find_available_port] of
    [start_api.py], which goes through [check_port_available], gives the
    same result as the one of [run_api.py] on every network and every
    range, exceptions included; and a port either of them returns is
    reported as available by [check_port] of [check_port.py] and by
    [check_port_available]. *)
Theorem launchers_choose_the_same_port (refused : Z -> bool)
    (start_port max_attempts : Z) :
  StartApi.find_available_port refused start_port max_attempts
  = RunApi.find_available_port refused start_port max_attempts
  /\ (forall p,
        RunApi.find_available_port refused start_port max_attempts = inr (Some p) ->
        CheckPort.check_port refused p = inr true
        /\ StartApi.check_port_available refused p = inr true).
Proof.
  split; [apply probe_agree|].
  unfold RunApi.find_available_port.
  generalize (Z.to_nat max_attempts) as n. intros n. revert start_port.
  induction n as [|n IH]; intros port p H; [discriminate|].
  cbn [RunApi.probe] in H.
  unfold CheckPort.check_port, StartApi.check_port_available.
  destruct (socket_bind refused port) as [[|]|[]] eqn:E.
  - apply (IH _ _ H).
  - discriminate.
  - injection H as <-. rewrite E. split; reflexivity.
Qed.

(** X16. [main] of [run_api.py] never fails while probing. It starts
    the server only when [checkpoints/config.yaml] exists, always on
    host [127.0.0.1], and on the first port from 8000 on whose binding is
    accepted, which is at most 8009; it gives up without a server
    exactly when the configuration file is missing or the ten ports
    8000..8009 are all refused. *)
Theorem run_api_main_serves (f : fsmap) (cwd : list string) (refused : Z -> bool) :
  match RunApi.main f cwd refused with
  | inr (RunApi.Serve host port reload) =>
      host = "127.0.0.1"
      /\ first_free refused 8000 port /\ port <= 8009
      /\ Os.exists_at f (Os.resolve f cwd (Pathlib.of_str "checkpoints/config.yaml")) = true
  | inr RunApi.NoFreePort => forall q, 8000 <= q <= 8009 -> refused q = true
  | inr RunApi.ConfigMissing =>
      Os.exists_at f (Os.resolve f cwd (Pathlib.of_str "checkpoints/config.yaml")) = false
  | inl _ => False
  end.
Proof.
  unfold RunApi.main. cbv zeta.
  destruct (Os.exists_at f _) eqn:E; cbn [negb]; [|reflexivity].
  unfold RunApi.find_available_port. change (Z.to_nat 10) with 10%nat.
  pose proof (probe_spec refused 10 8000 ltac:(lia) ltac:(lia)) as H.
  destruct (RunApi.probe refused 8000 10) as [e|[p|]].
  - exact H.
  - destruct H as (Hlt & Hfree). repeat split; try apply Hfree. lia.
  - intros q Hq. apply H. lia.
Qed.

Lemma probe_overflow (refused : Z -> bool) (attempts : nat) :
  forall port,
    0 <= port <= 65536 ->
    65536 < port + Z.of_nat attempts ->
    (forall q, port <= q <= 65535 -> refused q = true) ->
    RunApi.probe refused port attempts = inl PortOutOfRange.
Proof.
  induction attempts as [|n IH]; intros port Hlo Hhi Hall.
  - simpl in Hhi. lia.
  - cbn [RunApi.probe]. unfold socket_bind.
    destruct (Z_le_gt_dec port 65535) as [Hin|Hout].
    + rewrite bool_decide_eq_true_2 by lia. rewrite (Hall port) by lia.
      apply IH; [lia|lia|]. intros q Hq. apply Hall. lia.
    + rewrite bool_decide_eq_false_2 by lia. reflexivity.
Qed.

(** X17. A range that runs past port 65535 is not answered with [None]:
    when every port from [start_port] up to 65535 is refused, the next
    probe leaves the port range, [bind] raises [OverflowError], which the
    [except OSError] clause does not catch, and the exception leaves
    [find_available_port], in both launchers. *)
Theorem find_available_port_overflow (refused : Z -> bool)
    (start_port max_attempts : Z) :
  0 <= start_port <= 65536 ->
  65536 < start_port + max_attempts ->
  (forall q, start_port <= q <= 65535 -> refused q = true) ->
  RunApi.find_available_port refused start_port max_attempts = inl PortOutOfRange
  /\ StartApi.find_available_port refused start_port max_attempts = inl PortOutOfRange.
Proof.
  intros Hlo Hhi Hall.
  assert (H : RunApi.probe refused start_port (Z.to_nat max_attempts)
              = inl PortOutOfRange).
  { apply probe_overflow; [lia|lia|exact Hall]. }
  split; [exact H|].
  unfold StartApi.find_available_port. rewrite probe_agree. exact H.
Qed.

(** The last ten ports, all taken, probed with twenty attempts. *)
Lemma find_available_port_overflow_witness :
  RunApi.find_available_port (fun _ => true) 65526 20 = inl PortOutOfRange
  /\ StartApi.find_available_port (fun _ => true) 65526 20 = inl PortOutOfRange.
Proof.
  apply (find_available_port_overflow (fun _ => true) 65526 20); [lia|lia|].
  intros q Hq. reflexivity.
Defined.

Lemma is_file_frame (f1 f : fsmap) (p q : list string) :
  (forall r, r <> q -> f1 !! r = f !! r) -> p <> q ->
  Os.is_file f1 p = Os.is_file f p.
Proof.
  intros H Hne. unfold Os.is_file, Os.lookup_node.
  destruct p; [reflexivity|]. rewrite H by exact Hne. reflexivity.
Qed.

Lemma sibling_ne {A} (l : list A) (x y : A) : x <> y -> l ++ [x] <> l ++ [y].
Proof. intros Hne H. apply app_inv_head in H. congruence. Qed.

(** X18. [create_directories] of [start_api.py], run where the working
    directory exists and neither [outputs] nor [uploads] is a regular
    file, succeeds; afterwards both are directories and no other entry
    has changed; running it again changes nothing; and the [mkdir] with
    which the handlers of [api.py] begin finds its directory and changes
    nothing either. *)
Theorem create_directories_prepares (w : World) :
  Os.is_dir (fs w) (cwd w) = true ->
  Os.is_file (fs w) (cwd w ++ ["outputs"]) = false ->
  Os.is_file (fs w) (cwd w ++ ["uploads"]) = false ->
  exists w',
    StartApi.create_directories w = (inr tt, w')
    /\ Os.is_dir (fs w') (cwd w ++ ["outputs"]) = true
    /\ Os.is_dir (fs w') (cwd w ++ ["uploads"]) = true
    /\ (forall p, p <> cwd w ++ ["outputs"] -> p <> cwd w ++ ["uploads"] ->
                  fs w' !! p = fs w !! p)
    /\ StartApi.create_directories w' = (inr tt, w')
    /\ mkdir_exist_ok (Pathlib.of_str "outputs") w' = (inr tt, w')
    /\ mkdir_exist_ok (Pathlib.of_str "uploads") w' = (inr tt, w').
Proof.
  intros Hcwd Hout Hup.
  destruct (mkdir_child "outputs" w) as (w1 & Hmk1 & Hd1 & Hfr1 & Hcwd1 & _);
    [reflexivity | discriminate.. | assumption | assumption |].
  assert (Hcwd_dir1 : Os.is_dir (fs w1) (cwd w1) = true).
  { rewrite Hcwd1, (is_dir_frame _ (fs w) _ _ Hfr1); [assumption|apply app_snoc_self_ne]. }
  assert (Hup1 : Os.is_file (fs w1) (cwd w1 ++ ["uploads"]) = false).
  { rewrite Hcwd1, (is_file_frame _ (fs w) _ _ Hfr1); [assumption|].
    apply sibling_ne. discriminate. }
  destruct (mkdir_child "uploads" w1) as (w2 & Hmk2 & Hd2 & Hfr2 & Hcwd2 & _);
    [reflexivity | discriminate.. | assumption | assumption |].
  rewrite Hcwd1 in Hd2, Hfr2.
  assert (Hout2 : Os.is_dir (fs w2) (cwd w ++ ["outputs"]) = true).
  { rewrite (is_dir_frame _ (fs w1) _ _ Hfr2); [assumption|].
    apply sibling_ne. discriminate. }
  assert (Hcwd_dir2 : Os.is_dir (fs w2) (cwd w2) = true).
  { rewrite Hcwd2, Hcwd1, (is_dir_frame _ (fs w1) _ _ Hfr2).
    - rewrite <- Hcwd1. exact Hcwd_dir1.
    - apply app_snoc_self_ne. }
  assert (Hrun : StartApi.create_directories w = (inr tt, w2)).
  { unfold StartApi.create_directories. cbn [for_each].
    rewrite (bind_ok _ _ _ _ _ Hmk1), (bind_ok _ _ _ _ _ Hmk2). reflexivity. }
  assert (Hno1 : mkdir_exist_ok (Pathlib.of_str "outputs") w2 = (inr tt, w2)).
  { apply mkdir_existing; [reflexivity|assumption|].
    rewrite Hcwd2, Hcwd1. exact Hout2. }
  assert (Hno2 : mkdir_exist_ok (Pathlib.of_str "uploads") w2 = (inr tt, w2)).
  { apply mkdir_existing; [reflexivity|assumption|].
    rewrite Hcwd2, Hcwd1. exact Hd2. }
  exists w2. repeat apply conj; try assumption.
  - intros p H1 H2. rewrite (Hfr2 p H2). apply (Hfr1 p H1).
  - unfold StartApi.create_directories. cbn [for_each].
    rewrite (bind_ok _ _ _ _ _ Hno1), (bind_ok _ _ _ _ _ Hno2). reflexivity.
Qed.

(** The fixture without its two directories. *)
Lemma create_directories_prepares_witness :
  let w := set_fs (list_to_map [(["srv"], Os.Dir 0)]) Fixture.ready in
  exists w',
    StartApi.create_directories w = (inr tt, w')
    /\ Os.is_dir (fs w') (cwd w ++ ["outputs"]) = true
    /\ Os.is_dir (fs w') (cwd w ++ ["uploads"]) = true
    /\ (forall p, p <> cwd w ++ ["outputs"] -> p <> cwd w ++ ["uploads"] ->
                  fs w' !! p = fs w !! p)
    /\ StartApi.create_directories w' = (inr tt, w')
    /\ mkdir_exist_ok (Pathlib.of_str "outputs") w' = (inr tt, w')
    /\ mkdir_exist_ok (Pathlib.of_str "uploads") w' = (inr tt, w').
Proof.
  intros w. apply (create_directories_prepares w); vm_compute; reflexivity.
Defined.

(** X19. [create_directories] stops at the first directory it cannot
    create: when [outputs] is a regular file, [mkdir(exist_ok=True)]
    raises [FileExistsError] for it, the loop is left, and [uploads] is
    not created; the file system is as before. *)
Theorem create_directories_blocked (w : World) :
  Os.is_dir (fs w) (cwd w) = true ->
  Os.is_file (fs w) (cwd w ++ ["outputs"]) = true ->
  StartApi.create_directories w = (inl (OSError Os.EEXIST "outputs"), w).
Proof.
  intros Hcwd Hfile. unfold StartApi.create_directories. cbn [for_each].
  apply bind_err. unfold mkdir_exist_ok, Os.resolve.
  change (Pathlib.of_str "outputs") with (Pathlib.mkPath false ["outputs"]).
  cbn [Pathlib.absolute Pathlib.parts].
  rewrite walk_child by (assumption || discriminate). cbn [Os.walk].
  unfold Os.is_file in Hfile.
  destruct (Os.lookup_node (fs w) (cwd w ++ ["outputs"])) as [[c b|c]|];
    try discriminate. reflexivity.
Qed.

Lemma create_directories_blocked_witness :
  let w := set_fs (list_to_map [(["srv"], Os.Dir 0);
                                (["srv"; "outputs"], Os.File 1 [])]) Fixture.ready in
  StartApi.create_directories w = (inl (OSError Os.EEXIST "outputs"), w).
Proof.
  intros w. apply (create_directories_blocked w); vm_compute; reflexivity.
Defined.

(** ** The default generation parameters *)

Lemma default_fast_params_eq (env : ConfigParams.Environ) :
  ConfigParams.DEFAULT_FAST_TTS_PARAMS env
  = [("max_text_tokens_per_sentence",
      VInt (default 120 (ConfigParams.env_MAX_TEXT_TOKENS env)));
     ("sentences_bucket_max_size",
      VInt (default 4 (ConfigParams.env_SENTENCES_BUCKET_SIZE env)));
     ("do_sample", VBool true);
     ("top_p", VFloat (default (8 # 10)%Q (ConfigParams.env_TOP_P env)));
     ("top_k", VInt (default 30 (ConfigParams.env_TOP_K env)));
     ("temperature", VFloat (default 1%Q (ConfigParams.env_TEMPERATURE env)));
     ("length_penalty", VFloat (default 0%Q (ConfigParams.env_LENGTH_PENALTY env)));
     ("num_beams", VInt (default 3 (ConfigParams.env_NUM_BEAMS env)));
     ("repetition_penalty",
      VFloat (default 10%Q (ConfigParams.env_REPETITION_PENALTY env)));
     ("max_mel_tokens", VInt (default 600 (ConfigParams.env_MAX_MEL_TOKENS env)))].
Proof. reflexivity. Qed.

Lemma default_params_eq (env : ConfigParams.Environ) :
  ConfigParams.DEFAULT_TTS_PARAMS env
  = [("max_text_tokens_per_sentence",
      VInt (default 120 (ConfigParams.env_MAX_TEXT_TOKENS env)));
     ("do_sample", VBool true);
     ("top_p", VFloat (default (8 # 10)%Q (ConfigParams.env_TOP_P env)));
     ("top_k", VInt (default 30 (ConfigParams.env_TOP_K env)));
     ("temperature", VFloat (default 1%Q (ConfigParams.env_TEMPERATURE env)));
     ("length_penalty", VFloat (default 0%Q (ConfigParams.env_LENGTH_PENALTY env)));
     ("num_beams", VInt (default 3 (ConfigParams.env_NUM_BEAMS env)));
     ("repetition_penalty",
      VFloat (default 10%Q (ConfigParams.env_REPETITION_PENALTY env)));
     ("max_mel_tokens", VInt (default 600 (ConfigParams.env_MAX_MEL_TOKENS env)))].
Proof. reflexivity. Qed.

(** X20. The fast-path default for [max_text_tokens_per_sentence] is
    never the one [FAST_MAX_TEXT_TOKENS] asks for. The display of
    [DEFAULT_FAST_TTS_PARAMS] unpacks [DEFAULT_TTS_PARAMS] last, so every
    key the two share takes the standard value: the fast dictionary does
    not depend on [FAST_MAX_TEXT_TOKENS] at all, its
    [max_text_tokens_per_sentence] is the one of [MAX_TEXT_TOKENS] (120
    when unset, not 100), and on every key other than
    [sentences_bucket_max_size] it agrees with the standard
    dictionary. *)
Theorem fast_defaults_shadowed (env : ConfigParams.Environ) :
  (forall v,
     ConfigParams.DEFAULT_FAST_TTS_PARAMS (ConfigParams.with_FAST_MAX_TEXT_TOKENS v env)
     = ConfigParams.DEFAULT_FAST_TTS_PARAMS env)
  /\ get_key "max_text_tokens_per_sentence"
       (VDict (ConfigParams.DEFAULT_FAST_TTS_PARAMS env))
     = Some (VInt (default 120 (ConfigParams.env_MAX_TEXT_TOKENS env)))
  /\ (forall k,
        k <> "sentences_bucket_max_size" ->
        get_key k (VDict (ConfigParams.DEFAULT_FAST_TTS_PARAMS env))
        = get_key k (VDict (ConfigParams.DEFAULT_TTS_PARAMS env))).
Proof.
  split; [|split].
  - intros v. rewrite !default_fast_params_eq. reflexivity.
  - rewrite default_fast_params_eq. reflexivity.
  - intros k Hk. rewrite default_fast_params_eq, default_params_eq.
    unfold get_key. cbn [List.find fst].
    destruct (bool_decide ("max_text_tokens_per_sentence" = k)); [reflexivity|].
    rewrite (bool_decide_eq_false_2 ("sentences_bucket_max_size" = k)) by congruence.
    reflexivity.
Qed.

(** ** The two model-file checks *)

Lemma of_str_under (d name : string) :
  name_ok d = true -> Py.startswith "/" name = false ->
  Pathlib.of_str (d +:+ "/" +:+ name) = Pathlib.of_str d </> name.
Proof.
  intros Hd Hrel.
  pose proof (of_str_name d Hd) as Hof.
  apply name_ok_spec in Hd as (Hfree & H1 & H2 & _).
  unfold Pathlib.truediv. rewrite Hof.
  unfold Pathlib.of_str at 2. cbn [Pathlib.absolute]. rewrite Hrel.
  cbn [Pathlib.absolute Pathlib.parts].
  unfold Pathlib.of_str.
  change (d +:+ "/" +:+ name) with (d +:+ String "/" name).
  rewrite split_app_sep by exact Hfree.
  cbn [List.filter]. unfold Pathlib.keep_part at 1.
  rewrite (bool_decide_eq_false_2 _ H1), (bool_decide_eq_false_2 _ H2).
  cbn [negb andb app]. f_equal.
  destruct d as [|c d]; [contradiction|]. rewrite str_app_cons. simpl.
  simpl in Hfree. apply orb_false_iff in Hfree as [Hc _]. exact Hc.
Qed.

Lemma of_str_checkpoints (name : string) :
  Py.startswith "/" name = false ->
  Pathlib.of_str ("checkpoints/" +:+ name) = Pathlib.of_str "checkpoints" </> name.
Proof. exact (of_str_under "checkpoints" name eq_refl). Qed.

Lemma exists_under (f : fsmap) (cwd : list string) (d n : string) :
  name_ok d = true -> name_ok n = true ->
  exists_path f cwd (Pathlib.of_str d </> n) = true ->
  exists_path f cwd (Pathlib.of_str d) = true.
Proof.
  intros Hd Hn. unfold exists_path, Pathlib.truediv.
  rewrite (of_str_name d Hd), (of_str_name n Hn).
  cbn [Pathlib.absolute Pathlib.parts app]. unfold Os.resolve.
  cbn [Pathlib.absolute Pathlib.parts].
  apply name_ok_spec in Hd as (_ & Hd1 & Hd2 & Hd3).
  apply name_ok_spec in Hn as (_ & Hn1 & Hn2 & Hn3).
  cbn [Os.walk].
  destruct (Os.lookup_node f cwd) as [[?|?]|]; try discriminate.
  rewrite (bool_decide_eq_false_2 _ Hd1), (bool_decide_eq_false_2 _ Hd2),
    (bool_decide_eq_false_2 _ Hd3). cbn [orb].
  destruct (Os.lookup_node f (cwd ++ [d])) as [[?|?]|] eqn:E; try discriminate.
  intros _. cbn [Os.exists_at]. rewrite E. apply bool_decide_eq_true_2. eauto.
Qed.

Lemma default_relative (get : string -> option string) (k dflt : string) :
  relative_names get -> Py.startswith "/" dflt = false ->
  Py.startswith "/" (default dflt (get k)) = false.
Proof.
  intros Hrel Hd. destruct (get k) as [v|] eqn:E; [apply (Hrel k v E)|exact Hd].
Qed.

Lemma model_checks_mapping (f : fsmap) (cwd : list string)
    (get : string -> option string) :
  relative_names get ->
  CheckModels.check_model_files f cwd (YamlMapping get)
  = StartApi.check_model_files f cwd (YamlMapping get).
Proof.
  intros Hrel.
  unfold CheckModels.check_model_files, StartApi.check_model_files. cbv zeta.
  change (Pathlib.of_str "checkpoints/config.yaml")
    with (Pathlib.of_str "checkpoints" </> "config.yaml").
  destruct (exists_path f cwd (Pathlib.of_str "checkpoints" </> "config.yaml")) eqn:Ecfg.
  2:{ destruct (exists_path f cwd (Pathlib.of_str "checkpoints")); reflexivity. }
  rewrite (exists_under f cwd "checkpoints" "config.yaml" eq_refl eq_refl Ecfg).
  cbn [negb fold_left List.filter].
  change (Pathlib.of_str "checkpoints/config.yaml")
    with (Pathlib.of_str "checkpoints" </> "config.yaml").
  change (Pathlib.of_str "checkpoints/bpe.model")
    with (Pathlib.of_str "checkpoints" </> "bpe.model").
  rewrite Ecfg. cbn [negb].
  rewrite !of_str_checkpoints by (apply default_relative; [exact Hrel|reflexivity]).
  destruct (exists_path f cwd (Pathlib.of_str "checkpoints" </> default "gpt.pth" (get "gpt_checkpoint")));
    destruct (exists_path f cwd (Pathlib.of_str "checkpoints" </> default "bigvgan_generator.pth" (get "bigvgan_checkpoint")));
    destruct (exists_path f cwd (Pathlib.of_str "checkpoints" </> default "dvae.pth" (get "dvae_checkpoint")));
    destruct (exists_path f cwd (Pathlib.of_str "checkpoints" </> "bpe.model"));
    reflexivity.
Qed.

(** X21. The model-file check of [check_models.py] and the one of
    [start_api.py] give the same verdict whenever the configuration
    loads as a mapping whose checkpoint names are relative paths: both
    then require [checkpoints/config.yaml], the three checkpoint files
    the configuration names (or their default names) and
    [checkpoints/bpe.model]. They part when the configuration cannot be
    loaded: [check_models.py] answers [False], [start_api.py] goes on
    with the default file names, as for an empty mapping. *)
Theorem model_checks_agree (f : fsmap) (cwd : list string)
    (get : string -> option string) :
  relative_names get ->
  CheckModels.check_model_files f cwd (YamlMapping get)
  = StartApi.check_model_files f cwd (YamlMapping get)
  /\ CheckModels.check_model_files f cwd YamlFails = false
  /\ StartApi.check_model_files f cwd YamlFails
     = StartApi.check_model_files f cwd (YamlMapping (fun _ => None)).
Proof.
  intros Hrel. split; [apply model_checks_mapping, Hrel|]. split; [|reflexivity].
  unfold CheckModels.check_model_files. cbv zeta.
  repeat destruct (exists_path f cwd _); reflexivity.
Qed.

(** A configuration that renames the GPT checkpoint, all files in place. *)
Lemma model_checks_agree_witness :
  let f : fsmap :=
    list_to_map [(["srv"], Os.Dir 0);
                 (["srv"; "checkpoints"], Os.Dir 0);
                 (["srv"; "checkpoints"; "config.yaml"], Os.File 0 []);
                 (["srv"; "checkpoints"; "gpt_v2.pth"], Os.File 0 []);
                 (["srv"; "checkpoints"; "bigvgan_generator.pth"], Os.File 0 []);
                 (["srv"; "checkpoints"; "dvae.pth"], Os.File 0 []);
                 (["srv"; "checkpoints"; "bpe.model"], Os.File 0 [])] in
  let get := fun k => if bool_decide (k = "gpt_checkpoint")
                      then Some "gpt_v2.pth" else None in
  CheckModels.check_model_files f ["srv"] (YamlMapping get) = true
  /\ StartApi.check_model_files f ["srv"] (YamlMapping get) = true
  /\ StartApi.check_model_files f ["srv"] YamlFails = false.
Proof.
  intros f get.
  assert (Hrel : relative_names get).
  { intros k v. unfold get. destruct (bool_decide (k = "gpt_checkpoint")); [|discriminate].
    intros H. injection H as <-. reflexivity. }
  destruct (model_checks_agree f ["srv"] get Hrel) as (Hsame & _ & _).
  split; [vm_compute; reflexivity|].
  split; [rewrite <- Hsame; vm_compute; reflexivity|].
  vm_compute. reflexivity.
Defined.

(** ** Two uploads *)

Lemma str_app_length (a b : string) :
  String.length (a +:+ b) = (String.length a + String.length b)%nat.
Proof.
  induction a as [|c a IH]; [reflexivity|]. rewrite str_app_cons. simpl. congruence.
Qed.

Lemma hex_fixed_length (width : nat) (n : N) :
  String.length (Uuid.hex_fixed width n) = width.
Proof.
  revert n. induction width as [|k IH]; intros n; [reflexivity|].
  simpl. rewrite str_app_length, IH. simpl. lia.
Qed.

Lemma uuid_str_length (n : N) : String.length (Uuid.str n) = 36%nat.
Proof.
  unfold Uuid.str. rewrite !str_app_length, !hex_fixed_length. reflexivity.
Qed.

Lemma str_app_inj_prefix (a b x y : string) :
  String.length a = String.length b -> a +:+ x = b +:+ y -> a = b.
Proof.
  revert b. induction a as [|c a IH]; intros [|d b] Hlen H; try discriminate.
  - reflexivity.
  - rewrite !str_app_cons in H. injection H as -> H. simpl in Hlen.
    f_equal. apply IH; [lia|exact H].
Qed.

(** X22. Two uploads never share a stored file. When the identifier
    source gives two different values on consecutive reads, two accepted
    uploads made one after the other into an existing [uploads/] whose
    entries are regular files, each under a stored name
    [<uuid4>_<filename>] the system can store (no NUL, at most 255
    bytes), are stored under different names, even with the same file
    name, and after the second upload both files are there, each with
    the bytes of its own upload. *)
Theorem uploads_do_not_collide (w : World) (first second : UploadFile.t) :
  let u1 := Uuid.str (uuid_source w (uuid_reads w)) in
  let u2 := Uuid.str (uuid_source w (S (uuid_reads w))) in
  let name1 := u1 +:+ "_" +:+ UploadFile.filename first in
  let name2 := u2 +:+ "_" +:+ UploadFile.filename second in
  u1 <> u2 ->
  Py.lower (Pathlib.suffix (Pathlib.of_str (UploadFile.filename first)))
    ∈ ConfigApi.allowed_audio_formats (config w) ->
  Py.lower (Pathlib.suffix (Pathlib.of_str (UploadFile.filename second)))
    ∈ ConfigApi.allowed_audio_formats (config w) ->
  declared_oversize (config w) first = false ->
  declared_oversize (config w) second = false ->
  Py.contains "/" (UploadFile.filename first) = false ->
  Py.contains "/" (UploadFile.filename second) = false ->
  storable_name name1 = true ->
  storable_name name2 = true ->
  Os.is_dir (fs w) (cwd w) = true ->
  Os.is_dir (fs w) (cwd w ++ ["uploads"]) = true ->
  holds_files (fs w) (cwd w ++ ["uploads"]) pat_any = true ->
  exists body1 body2 w1 w2 c1 c2,
    upload_audio first w = (inr (JSONResponse body1), w1)
    /\ upload_audio second w1 = (inr (JSONResponse body2), w2)
    /\ get_key "file_path" body1 = Some (VStr ("uploads/" +:+ name1))
    /\ get_key "file_path" body2 = Some (VStr ("uploads/" +:+ name2))
    /\ name1 <> name2
    /\ fs w2 !! (cwd w ++ ["uploads"; name1]) = Some (Os.File c1 (UploadFile.body first))
    /\ fs w2 !! (cwd w ++ ["uploads"; name2]) = Some (Os.File c2 (UploadFile.body second)).
Proof.
  intros u1 u2 name1 name2 Hu Hext1 Hext2 Hsz1 Hsz2 Hfree1 Hfree2 Hst1 Hst2
    Hcwd Hup Hfiles.
  assert (Hflat : forall m, Os.is_dir (fs w) (cwd w ++ ["uploads"; m]) = false).
  { intros m. rewrite <- snoc_outputs_gen. apply holds_files_flat, Hfiles. }
  assert (Hne : name1 <> name2).
  { unfold name1, name2. intros H. apply Hu.
    apply (str_app_inj_prefix _ _ _ _ ltac:(unfold u1, u2; rewrite !uuid_str_length; reflexivity) H). }
  destruct (upload_audio_runs w first Hext1 Hsz1 Hfree1 Hst1 Hcwd Hup (Hflat _))
    as (w1 & Hrun1 & Hfs1 & Hcwd1 & _ & _ & Hcfg1 & Hus1 & Hur1).
  fold u1 in Hrun1, Hfs1. fold name1 in Hrun1, Hfs1.
  assert (Htne : cwd w ++ ["uploads"; name1] <> cwd w ++ ["uploads"; name2]).
  { intros H. apply child_inj in H. contradiction. }
  assert (Hcwd_dir1 : Os.is_dir (fs w1) (cwd w1) = true).
  { rewrite Hfs1, Hcwd1. apply is_dir_insert_file; [apply Hflat|assumption]. }
  assert (Hup1 : Os.is_dir (fs w1) (cwd w1 ++ ["uploads"]) = true).
  { rewrite Hfs1, Hcwd1. apply is_dir_insert_file; [apply Hflat|assumption]. }
  assert (Hname2 : Uuid.str (uuid_source w1 (uuid_reads w1)) +:+ "_"
                   +:+ UploadFile.filename second = name2).
  { rewrite Hus1, Hur1. reflexivity. }
  assert (Htarget2 : Os.is_dir (fs w1)
                       (cwd w1 ++ ["uploads";
                          Uuid.str (uuid_source w1 (uuid_reads w1)) +:+ "_"
                          +:+ UploadFile.filename second]) = false).
  { rewrite Hname2, Hcwd1. etransitivity; [|exact (Hflat name2)]. unfold Os.is_dir.
    rewrite <- !snoc_outputs_gen, !lookup_node_snoc, !snoc_outputs_gen.
    rewrite Hfs1, lookup_insert_ne by exact Htne. reflexivity. }
  destruct (upload_audio_runs w1 second) as (w2 & Hrun2 & Hfs2 & _);
    try assumption; try (rewrite Hcfg1; assumption);
    try (rewrite Hname2; assumption).
  rewrite Hname2 in Hrun2. rewrite Hname2, Hcwd1 in Hfs2.
  eexists _, _, w1, w2, _, _.
  repeat apply conj; [exact Hrun1|exact Hrun2|reflexivity|reflexivity|exact Hne| |].
  - rewrite Hfs2, lookup_insert_ne by congruence. rewrite Hfs1. apply lookup_insert_eq.
  - rewrite Hfs2. apply lookup_insert_eq.
Qed.

(** The same file name twice on the fixture, with different bytes. *)
Lemma uploads_do_not_collide_witness :
  let w := Fixture.ready in
  let first := UploadFile.mk "voice.wav" None [Byte.x68] in
  let second := UploadFile.mk "voice.wav" None [Byte.x69] in
  let name1 := Uuid.str 0 +:+ "_voice.wav" in
  let name2 := Uuid.str 1 +:+ "_voice.wav" in
  exists body1 body2 w1 w2 c1 c2,
    upload_audio first w = (inr (JSONResponse body1), w1)
    /\ upload_audio second w1 = (inr (JSONResponse body2), w2)
    /\ get_key "file_path" body1 = Some (VStr ("uploads/" +:+ name1))
    /\ get_key "file_path" body2 = Some (VStr ("uploads/" +:+ name2))
    /\ name1 <> name2
    /\ fs w2 !! (cwd w ++ ["uploads"; name1]) = Some (Os.File c1 [Byte.x68])
    /\ fs w2 !! (cwd w ++ ["uploads"; name2]) = Some (Os.File c2 [Byte.x69]).
Proof.
  intros w first second name1 name2.
  apply (uploads_do_not_collide w first second).
  - vm_compute. discriminate.
  - vm_compute. constructor.
  - vm_compute. constructor.
  - reflexivity.
  - reflexivity.
  - reflexivity.
  - reflexivity.
  - vm_compute. reflexivity.
  - vm_compute. reflexivity.
  - vm_compute. reflexivity.
  - vm_compute. reflexivity.
  - vm_compute. reflexivity.
Defined.

(** ** Names that lead to a directory *)



(** ** Fast-path synthesis *)





(** ** Requests that fail validation *)

Lemma invalid_text (r : TTSRequest.t) :
  TTSRequest.valid r = false
  <-> TTSRequest.text r = "" \/ 10000 < Z.of_nat (String.length (TTSRequest.text r)).
Proof.
  unfold TTSRequest.valid. rewrite bool_decide_eq_false. split.
  - intros H. destruct (TTSRequest.text r) as [|c s] eqn:E; [left; reflexivity|].
    right. cbn [String.length] in *. lia.
  - intros [->|H]; cbn [String.length]; lia.
Qed.

(** X25. A request that fails the model validation is turned away
    before its handler is entered, so it leaves no trace: with an engine
    loaded, a standard or fast request whose text is empty or longer
    than 10000 characters, and a batch that has more than 100 items or
    holds one such item, are answered 422, and the world (collector,
    clock, identifiers, engine, files) is exactly as before. A batch
    with one bad item is refused as a whole: none of its items is
    synthesized. *)
Theorem invalid_requests_leave_no_trace (w : World) (tts : IndexTTS) :
  tts_instance w = Some tts ->
  (forall request,
     TTSRequest.text request = ""
     \/ 10000 < Z.of_nat (String.length (TTSRequest.text request)) ->
     post_tts request w = (inl RequestValidationError, w))
  /\ (forall request,
        FastTTSRequest.text request = ""
        \/ 10000 < Z.of_nat (String.length (FastTTSRequest.text request)) ->
        post_tts_fast request w = (inl RequestValidationError, w))
  /\ (forall request,
        (100 < length (BatchTTSRequest.requests request))%nat
        \/ (exists item, item ∈ BatchTTSRequest.requests request
                         /\ (TTSRequest.text item = ""
                             \/ 10000 < Z.of_nat (String.length (TTSRequest.text item)))) ->
        post_batch_tts request w = (inl RequestValidationError, w))
  /\ status_of (inl RequestValidationError) = 422.
Proof.
  intros Htts. repeat apply conj; [| | |reflexivity].
  - intros request Hbad. apply invalid_text in Hbad.
    unfold post_tts, bind, get_tts_instance. rewrite Htts, Hbad. reflexivity.
  - intros request Hbad.
    assert (Hinv : FastTTSRequest.valid request = false).
    { unfold FastTTSRequest.valid. apply bool_decide_eq_false.
      destruct Hbad as [->|H]; cbn [String.length]; lia. }
    unfold post_tts_fast, bind, get_tts_instance. rewrite Htts, Hinv. reflexivity.
  - intros request Hbad.
    assert (Hinv : BatchTTSRequest.valid request = false).
    { unfold BatchTTSRequest.valid. apply andb_false_iff.
      destruct Hbad as [Hlen|(item & Hin & Hitem)].
      - left. apply bool_decide_eq_false. lia.
      - right. apply not_true_iff_false. intros Hall.
        rewrite forallb_forall in Hall.
        apply invalid_text in Hitem.
        rewrite (Hall item) in Hitem; [discriminate|]. apply list_elem_of_In, Hin. }
    unfold post_batch_tts, bind, get_tts_instance. rewrite Htts, Hinv. reflexivity.
Qed.

(** A batch of two whose second item has an empty text. *)
Lemma invalid_requests_leave_no_trace_witness :
  let w := Fixture.ready in
  let good := Fixture.request "hello" (Some "uploads/ref.wav") in
  let bad := Fixture.request "" (Some "uploads/ref.wav") in
  post_tts bad w = (inl RequestValidationError, w)
  /\ post_batch_tts (BatchTTSRequest.mk [good; bad]) w = (inl RequestValidationError, w).
Proof.
  intros w good bad.
  destruct (invalid_requests_leave_no_trace w Fixture.engine eq_refl)
    as (Hone & _ & Hbatch & _).
  split.
  - apply Hone. left. reflexivity.
  - apply Hbatch. right. exists bad. split; [|left; reflexivity].
    right. left.
Defined.

(** ** Requests that name their output path *)


